(** * gotask: a terminal kanban board

    A shallow embedding of [gotask.go] (the board with the confirmation and
    edit dialogs) and of the earlier variant of the same program (module
    [Legacy] below), and the properties of the interaction state machine,
    of the board operations and of the snapshot file.

    Conventions.
    - Go's [int] is a 64-bit two's complement integer: a [Z] in
      [int_min .. int_max]; [++], [--], [+ 1] and [- 1] are written with [wrap].
    - A slice is a [list]; [len] is its length as an [int]. An index or a
      slice expression out of range panics: the operation returns [None], and
      so does [Update].
    - [Update] has a value receiver, but the columns and their tasks live in
      backing arrays shared by every copy of the model, and the runtime keeps
      only the returned model: a transition is a function from the model (and
      the disk) to the next model (and disk).
    - The text input, the clock, the JSON text layer and the file system are
      libraries outside the program: the text input is an interface
      ([TextInput]), the clock and the outcome of a write are inputs of a
      transition ([Env]), the snapshot file holds a JSON value. *)

From Stdlib Require DecimalString DecimalZ DecimalPos.
From stdpp Require Import base numbers list sets strings option.

Local Open Scope Z_scope.

(** ** Go integers and slices *)

Definition int_min : Z := - 2 ^ 63.
Definition int_max : Z := 2 ^ 63 - 1.

(** Two's complement wrap-around of a 64-bit [int]. *)
Definition wrap (z : Z) : Z := (z + 2 ^ 63) `mod` 2 ^ 64 - 2 ^ 63.

Definition is_int (z : Z) : Prop := int_min ≤ z ≤ int_max.

Definition len {A} (s : list A) : Z := Z.of_nat (length s).

Definition max (a b : Z) : Z := if bool_decide (a > b) then a else b.
Definition min (a b : Z) : Z := if bool_decide (a < b) then a else b.

(** [s[i]]: panics unless [0 <= i < len(s)]. *)
Definition index {A} (s : list A) (i : Z) : option A :=
  if bool_decide (0 ≤ i < len s) then s !! Z.to_nat i else None.

(** [append(s[:i], s[i+1:]...)]. [s[:i]] panics unless [0 <= i <= cap(s)] and
    [s[i+1:]] unless [0 <= i+1 <= len(s)]; as [len(s) <= cap(s)], the
    expression as a whole panics unless [0 <= i] and [0 <= i+1 <= len(s)]. *)
Definition remove {A} (s : list A) (i : Z) : option (list A) :=
  let j := wrap (i + 1) in
  if bool_decide (0 ≤ i ∧ 0 ≤ j ≤ len s)
  then Some (take (Z.to_nat i) s ++ drop (Z.to_nat j) s)
  else None.

(** ** The board *)

(** [time.Time], as the instant it denotes (nanoseconds since the epoch). *)
Definition Time : Type := Z.

Module Task.
Record t := mk {
  ID : Z;
  Title : string;
  Description : string;
  CreatedAt : Time;
}.
Definition zero : t := mk 0 "" "" 0.
Definition with_Title (v : string) (x : t) : t :=
  mk (ID x) v (Description x) (CreatedAt x).
End Task.

Module Column.
Record t := mk {
  ID : Z;
  Title : string;
  Tasks : list Task.t;
}.
Definition zero : t := mk 0 "" [].
Definition with_Tasks (v : list Task.t) (c : t) : t := mk (ID c) (Title c) v.
End Column.

Record KanbanBoard := Board { Columns : list Column.t }.

Inductive InputMode := NormalMode | InsertMode.
Inductive DialogType := NoDialog | DeleteDialog | EditDialog.

#[global] Instance InputMode_eq_dec : EqDecision InputMode.
Proof. solve_decision. Defined.
#[global] Instance DialogType_eq_dec : EqDecision DialogType.
Proof. solve_decision. Defined.

(** [error]: the message. *)
Definition error : Type := string.

(** The tasks of column [c] (no tasks when there is no such column). *)
Definition tasks_of (b : KanbanBoard) (c : Z) : list Task.t :=
  match index (Columns b) c with
  | Some col => Column.Tasks col
  | None => []
  end.

(** [b.Columns[c].Tasks = ts], for an index [c] already checked. *)
Definition set_tasks (c : Z) (ts : list Task.t) (b : KanbanBoard) : KanbanBoard :=
  Board (alter (Column.with_Tasks ts) (Z.to_nat c) (Columns b)).

Definition all_tasks (b : KanbanBoard) : list Task.t :=
  concat (Column.Tasks <$> Columns b).

Definition task_count (b : KanbanBoard) : Z := len (all_tasks b).

(** The ids of the tasks on the board. *)
Definition ids (b : KanbanBoard) : list Z := Task.ID <$> all_tasks b.

(** The ids of the board are [int]s, as those of any Go value are. *)
Definition column_representable (c : Column.t) : Prop :=
  is_int (Column.ID c) ∧ Forall (λ t, is_int (Task.ID t)) (Column.Tasks c).

Definition representable (b : KanbanBoard) : Prop :=
  Forall column_representable (Columns b).

(** The board has its three columns. *)
Definition three_columns (b : KanbanBoard) : Prop := len (Columns b) = 3.

(** What Go guarantees of every slice: its length is an [int]. *)
Definition sizes_ok (b : KanbanBoard) : Prop :=
  Forall (λ col, len (Column.Tasks col) ≤ int_max) (Columns b).

(** ** Messages and commands of the runtime *)

(** [tea.Msg]: a key, identified by [msg.String()], a window size, or any
    other message. *)
Inductive Msg :=
| KeyMsg (key : string)
| WindowSizeMsg (Width Height : Z)
| OtherMsg.

(** [tea.Cmd]: [nil], [tea.Quit], [textinput.Blink], or the command that
    [textinput.Update] returned. *)
Inductive Cmd := CmdNil | tea_Quit | textinput_Blink | textinput_Cmd.

(** [switch msg.String() { case k1, k2, ...: }] *)
Definition key_in (k : string) (ks : list string) : bool := bool_decide (k ∈ ks).

(** ** The text input (bubbles/textinput) *)

(** The operations of [textinput.Model] that the program calls. *)
Class TextInput := {
  textinput_Model : Type;
  Value : textinput_Model → string;
  Reset : textinput_Model → textinput_Model;
  SetValue : string → textinput_Model → textinput_Model;
  textinput_Update : textinput_Model → Msg → textinput_Model;
}.

(** ** The snapshot file *)

(** A JSON value. The text layer of encoding/json (indentation, escapes) is
    not modelled: the file holds the value. *)
#[local] Unset Elimination Schemes.
Inductive JSON :=
| JNull
| JBool (b : bool)
| JNum (z : Z)
| JStr (s : string)
| JArr (items : list JSON)
| JObj (fields : list (string * JSON)).
#[local] Set Elimination Schemes.

(** [Time.MarshalJSON] and [Time.UnmarshalJSON]: the RFC 3339 text of an
    instant and its parser. *)
Class TimeCodec := {
  time_MarshalJSON : Time → string;
  time_UnmarshalJSON : string → option Time;
}.

(** What the round trip of a board needs of them: the text of an instant
    parses back to that instant. *)
Definition time_roundtrip `{TimeCodec} : Prop :=
  ∀ t, time_UnmarshalJSON (time_MarshalJSON t) = Some t.

(** The file at [savePath]: absent, or its content, which is a JSON
    document or not. *)
Inductive FileData := Document (doc : JSON) | NotJSON.
Definition Disk : Type := option FileData.

(** What a call of [os.WriteFile] does: it succeeds, or fails with an error
    and leaves the disk in some state. *)
Inductive WriteOutcome := Written | WriteFailed (e : error) (after : Disk).

(** What a call of [os.ReadFile] does, besides reading the disk. *)
Inductive ReadOutcome := ReadDone | ReadFailed (e : error).

(** The inputs of one transition that come from outside: [time.Now()] and
    the outcome of the write, if the transition saves. *)
Record Env := { now : Time; write : WriteOutcome }.

(** ** saveBoard and loadBoard *)

Section Persistence.
Context `{TimeCodec}.

(** [json.MarshalIndent(m.board, "", "  ")]: the fields in the order of the
    struct declarations, under the names of their [json] tags. (A nil slice
    is written as [null] and read back as nil; a list does not tell nil from
    empty.) Marshalling these types does not fail. *)
Definition Task_MarshalJSON (t : Task.t) : JSON :=
  JObj [("id", JNum (Task.ID t));
        ("title", JStr (Task.Title t));
        ("description", JStr (Task.Description t));
        ("created_at", JStr (time_MarshalJSON (Task.CreatedAt t)))].

Definition Column_MarshalJSON (c : Column.t) : JSON :=
  JObj [("id", JNum (Column.ID c));
        ("title", JStr (Column.Title c));
        ("tasks", JArr (Task_MarshalJSON <$> Column.Tasks c))].

Definition KanbanBoard_MarshalJSON (b : KanbanBoard) : JSON :=
  JObj [("columns", JArr (Column_MarshalJSON <$> Columns b))].

(** [json.Unmarshal(data, &m.board)] decodes INTO the value that is there:
    [null] leaves a field as it is (and empties a slice), a key that names no
    field is skipped, a field without a key keeps its value, the keys of an
    object are taken in order, and element [i] of an array is decoded into
    element [i] of the old slice when there is one, else into a zero value.

    A value that does not fit its target does not undo what was decoded
    before it. A value of the wrong kind, or a number that is no [int], is
    skipped and noted (an [UnmarshalTypeError]): the target keeps its value,
    the decoding goes on, and the error is returned at the end. The error of
    an [UnmarshalJSON] method (here: of [time.Time]) stops the decoding
    where it is: the rest of the document is not read, and a slice that was
    being filled keeps its old elements after the one that failed.

    (Keys are compared exactly; Go also accepts a key that differs from the
    tag in letter case only, which [saveBoard] never writes. [JNum] is a
    number written as an integer; a number with a fraction or an exponent
    fits no field of the board.) *)
Inductive Outcome := Decoded | Skipped | Aborted.

(** The outcome of a value and of what was decoded after it. *)
Definition Outcome_then (o rest : Outcome) : Outcome :=
  match rest with
  | Decoded => o
  | Skipped => Skipped
  | Aborted => Aborted
  end.

Definition decode_int (old : Z) (j : JSON) : Z * Outcome :=
  match j with
  | JNull => (old, Decoded)
  | JNum z => if bool_decide (is_int z) then (z, Decoded) else (old, Skipped)
  | _ => (old, Skipped)
  end.

Definition decode_string (old : string) (j : JSON) : string * Outcome :=
  match j with
  | JNull => (old, Decoded)
  | JStr s => (s, Decoded)
  | _ => (old, Skipped)
  end.

(** [Time.UnmarshalJSON]: [null] is no change; a string is parsed, and
    [*t, err = parse(data)] stores the zero [Time] when the parse fails;
    anything else is refused at once. *)
Definition decode_Time (old : Time) (j : JSON) : Time * Outcome :=
  match j with
  | JNull => (old, Decoded)
  | JStr s =>
      match time_UnmarshalJSON s with
      | Some t => (t, Decoded)
      | None => (Task.CreatedAt Task.zero, Aborted)
      end
  | _ => (old, Aborted)
  end.

Fixpoint decode_fields {A} (field : A → string → JSON → A * Outcome)
    (old : A) (fields : list (string * JSON)) : A * Outcome :=
  match fields with
  | [] => (old, Decoded)
  | (k, v) :: rest =>
      match field old k v with
      | (x, Aborted) => (x, Aborted)
      | (x, o) =>
          let '(y, o') := decode_fields field x rest in (y, Outcome_then o o')
      end
  end.

Definition decode_struct {A} (field : A → string → JSON → A * Outcome)
    (old : A) (j : JSON) : A * Outcome :=
  match j with
  | JNull => (old, Decoded)
  | JObj fields => decode_fields field old fields
  | _ => (old, Skipped)
  end.

(** The elements of an array, into a slice. The slice is cut to the length
    of the array after the last element, so not when an element stops the
    decoding. *)
Fixpoint decode_items {A} (dec : A → JSON → A * Outcome) (zero : A)
    (old : list A) (items : list JSON) : list A * Outcome :=
  match items with
  | [] => ([], Decoded)
  | j :: rest =>
      match dec (hd zero old) j with
      | (x, Aborted) => (x :: tl old, Aborted)
      | (x, o) =>
          let '(xs, o') := decode_items dec zero (tl old) rest in
          (x :: xs, Outcome_then o o')
      end
  end.

Definition decode_slice {A} (dec : A → JSON → A * Outcome) (zero : A)
    (old : list A) (j : JSON) : list A * Outcome :=
  match j with
  | JNull => ([], Decoded)
  | JArr items => decode_items dec zero old items
  | _ => (old, Skipped)
  end.

Definition Task_field (t : Task.t) (k : string) (v : JSON) : Task.t * Outcome :=
  if bool_decide (k = "id") then
    let '(z, o) := decode_int (Task.ID t) v in
    (Task.mk z (Task.Title t) (Task.Description t) (Task.CreatedAt t), o)
  else if bool_decide (k = "title") then
    let '(s, o) := decode_string (Task.Title t) v in
    (Task.mk (Task.ID t) s (Task.Description t) (Task.CreatedAt t), o)
  else if bool_decide (k = "description") then
    let '(s, o) := decode_string (Task.Description t) v in
    (Task.mk (Task.ID t) (Task.Title t) s (Task.CreatedAt t), o)
  else if bool_decide (k = "created_at") then
    let '(c, o) := decode_Time (Task.CreatedAt t) v in
    (Task.mk (Task.ID t) (Task.Title t) (Task.Description t) c, o)
  else (t, Decoded).

Definition Task_UnmarshalJSON : Task.t → JSON → Task.t * Outcome :=
  decode_struct Task_field.

Definition Column_field (c : Column.t) (k : string) (v : JSON)
    : Column.t * Outcome :=
  if bool_decide (k = "id") then
    let '(z, o) := decode_int (Column.ID c) v in
    (Column.mk z (Column.Title c) (Column.Tasks c), o)
  else if bool_decide (k = "title") then
    let '(s, o) := decode_string (Column.Title c) v in
    (Column.mk (Column.ID c) s (Column.Tasks c), o)
  else if bool_decide (k = "tasks") then
    let '(ts, o) := decode_slice Task_UnmarshalJSON Task.zero (Column.Tasks c) v in
    (Column.mk (Column.ID c) (Column.Title c) ts, o)
  else (c, Decoded).

Definition Column_UnmarshalJSON : Column.t → JSON → Column.t * Outcome :=
  decode_struct Column_field.

Definition KanbanBoard_field (b : KanbanBoard) (k : string) (v : JSON)
    : KanbanBoard * Outcome :=
  if bool_decide (k = "columns") then
    let '(cs, o) := decode_slice Column_UnmarshalJSON Column.zero (Columns b) v in
    (Board cs, o)
  else (b, Decoded).

Definition KanbanBoard_UnmarshalJSON
    : KanbanBoard → JSON → KanbanBoard * Outcome :=
  decode_struct KanbanBoard_field.

(** The loop of [loadBoard]:
    [for col { for task { if task.ID > m.lastID { m.lastID = task.ID } } }]. *)
Definition highest_in (ts : list Task.t) (lastID : Z) : Z :=
  foldl (λ acc task, if bool_decide (Task.ID task > acc) then Task.ID task else acc)
        lastID ts.

Definition highest_ID (b : KanbanBoard) (lastID : Z) : Z :=
  foldl (λ acc col, highest_in (Column.Tasks col) acc) lastID (Columns b).

(** [loadBoard] on the two fields it touches, the board and [lastID]. A
    missing file is no error and changes nothing, and neither does a file
    that is no JSON text, which [json.Unmarshal] refuses before it decodes.
    A decode error is returned before the ids are read: the board is then
    what was decoded of the file, and [lastID] is as it was. (The texts of
    the errors are the libraries'; one text stands for each kind.) *)
Definition loadBoard_fields (r : ReadOutcome) (disk : Disk)
    (b : KanbanBoard) (lastID : Z) : KanbanBoard * Z * option error :=
  match r, disk with
  | ReadFailed e, _ => (b, lastID, Some e)
  | ReadDone, None => (b, lastID, None)
  | ReadDone, Some NotJSON => (b, lastID, Some "invalid character")
  | ReadDone, Some (Document doc) =>
      match KanbanBoard_UnmarshalJSON b doc with
      | (b', Decoded) => (b', highest_ID b' lastID, None)
      | (b', Skipped) => (b', lastID, Some "json: cannot unmarshal")
      | (b', Aborted) => (b', lastID, Some "parsing time")
      end
  end.

(** [saveBoard]: the whole board replaces the file. *)
Definition saveBoard_file (w : WriteOutcome) (b : KanbanBoard) (disk : Disk)
    : Disk * option error :=
  match w with
  | Written => (Some (Document (KanbanBoard_MarshalJSON b)), None)
  | WriteFailed e after => (after, Some e)
  end.

End Persistence.

(** ** The model of gotask.go *)

Section GoTask.
Context `{TextInput} `{TimeCodec}.

(** The fields of [model] that a transition reads or writes. Left out:
    [savePath] (the disk is the file at that path), [showTaskInput] (never
    used after [initialModel]), [headerHeight] (always 5) and the content of
    [viewports] (a display cache; only its length, 3, matters, see
    [updateViewportContent]).

    [editingTask] is a pointer [&m.board.Columns[c].Tasks[i]] into the backing
    array of a column: it is kept as the address [(c, i)]. No transition
    between the one that takes the address and the one that writes through it
    changes the board or the cursor (lemma [editing_alias]), so that the slot
    is still element [i] of column [c] when it is written. *)
Record model := Model {
  board : KanbanBoard;
  cursorColumn : Z;
  cursorTask : Z;
  textInput : textinput_Model;
  inputMode : bool;
  inputState : InputMode;
  width : Z;
  height : Z;
  err : option error;
  lastID : Z;
  showHelp : bool;
  dialogType : DialogType;
  editingTask : option (Z * Z);
}.

Definition set_board (v : KanbanBoard) (m : model) : model :=
  Model v (cursorColumn m) (cursorTask m) (textInput m) (inputMode m) (inputState m)
    (width m) (height m) (err m) (lastID m) (showHelp m) (dialogType m) (editingTask m).
Definition set_cursorColumn (v : Z) (m : model) : model :=
  Model (board m) v (cursorTask m) (textInput m) (inputMode m) (inputState m)
    (width m) (height m) (err m) (lastID m) (showHelp m) (dialogType m) (editingTask m).
Definition set_cursorTask (v : Z) (m : model) : model :=
  Model (board m) (cursorColumn m) v (textInput m) (inputMode m) (inputState m)
    (width m) (height m) (err m) (lastID m) (showHelp m) (dialogType m) (editingTask m).
Definition set_textInput (v : textinput_Model) (m : model) : model :=
  Model (board m) (cursorColumn m) (cursorTask m) v (inputMode m) (inputState m)
    (width m) (height m) (err m) (lastID m) (showHelp m) (dialogType m) (editingTask m).
Definition set_inputMode (v : bool) (m : model) : model :=
  Model (board m) (cursorColumn m) (cursorTask m) (textInput m) v (inputState m)
    (width m) (height m) (err m) (lastID m) (showHelp m) (dialogType m) (editingTask m).
Definition set_inputState (v : InputMode) (m : model) : model :=
  Model (board m) (cursorColumn m) (cursorTask m) (textInput m) (inputMode m) v
    (width m) (height m) (err m) (lastID m) (showHelp m) (dialogType m) (editingTask m).
Definition set_size (w h : Z) (m : model) : model :=
  Model (board m) (cursorColumn m) (cursorTask m) (textInput m) (inputMode m) (inputState m)
    w h (err m) (lastID m) (showHelp m) (dialogType m) (editingTask m).
Definition set_err (v : option error) (m : model) : model :=
  Model (board m) (cursorColumn m) (cursorTask m) (textInput m) (inputMode m) (inputState m)
    (width m) (height m) v (lastID m) (showHelp m) (dialogType m) (editingTask m).
Definition set_lastID (v : Z) (m : model) : model :=
  Model (board m) (cursorColumn m) (cursorTask m) (textInput m) (inputMode m) (inputState m)
    (width m) (height m) (err m) v (showHelp m) (dialogType m) (editingTask m).
Definition set_showHelp (v : bool) (m : model) : model :=
  Model (board m) (cursorColumn m) (cursorTask m) (textInput m) (inputMode m) (inputState m)
    (width m) (height m) (err m) (lastID m) v (dialogType m) (editingTask m).
Definition set_dialogType (v : DialogType) (m : model) : model :=
  Model (board m) (cursorColumn m) (cursorTask m) (textInput m) (inputMode m) (inputState m)
    (width m) (height m) (err m) (lastID m) (showHelp m) v (editingTask m).
Definition set_editingTask (v : option (Z * Z)) (m : model) : model :=
  Model (board m) (cursorColumn m) (cursorTask m) (textInput m) (inputMode m) (inputState m)
    (width m) (height m) (err m) (lastID m) (showHelp m) (dialogType m) v.

(** [initialModel], before it loads the file: three empty columns. *)
Definition default_board : KanbanBoard :=
  Board [Column.mk 1 "To Do" []; Column.mk 2 "In Progress" []; Column.mk 3 "Done" []].

Definition loadBoard (r : ReadOutcome) (disk : Disk) (m : model) : model * option error :=
  let '(b, l, e) := loadBoard_fields r disk (board m) (lastID m) in
  (set_lastID l (set_board b m), e).

Definition saveBoard (env : Env) (m : model) (disk : Disk) : Disk * option error :=
  saveBoard_file (write env) (board m) disk.

Definition initialModel (ti : textinput_Model) (r : ReadOutcome) (disk : Disk) : model :=
  let m := Model default_board 0 0 ti false NormalMode 0 0 None 0 true NoDialog None in
  match loadBoard r disk m with
  | (m', Some e) => set_err (Some e) m'
  | (m', None) => m'
  end.

(** [if err := m.saveBoard(); err != nil { m.err = err }] *)
Definition save_noting_error (env : Env) (m : model) (disk : Disk) : model * Disk :=
  match saveBoard env m disk with
  | (disk', Some e) => (set_err (Some e) m, disk')
  | (disk', None) => (m, disk')
  end.

(** [updateViewportContent] only redraws, but it can panic: it divides by
    [len(m.board.Columns)], and indexes the columns and the three viewports
    with [columnIndex]. *)
Definition viewports_len : Z := 3.

Definition updateViewportContent (m : model) (columnIndex : Z) : option () :=
  if bool_decide (len (Columns (board m)) = 0) then None
  else if bool_decide (0 ≤ columnIndex < len (Columns (board m))
                       ∧ columnIndex < viewports_len)
  then Some () else None.

(** [p.Title = v] for the pointer [p] kept as the address [(c, i)]; an
    address that is not on the board any more would be a slot that the board
    has dropped, and the write would not show. *)
Definition store_Title (p : Z * Z) (v : string) (b : KanbanBoard) : KanbanBoard :=
  match index (tasks_of b p.1) p.2 with
  | Some _ =>
      set_tasks p.1 (alter (Task.with_Title v) (Z.to_nat p.2) (tasks_of b p.1)) b
  | None => b
  end.

(** The result of a transition: [None] is a panic. *)
Definition Result : Type := option (model * Disk * Cmd).

(** *** Update: the delete confirmation dialog (gotask.go, 240-264) *)
Definition Update_DeleteDialog (env : Env) (m : model) (disk : Disk) (k : string)
    : Result :=
  if key_in k ["y"; "Y"] then
    col ← index (Columns (board m)) (cursorColumn m);
    if bool_decide (len (Column.Tasks col) > 0) then
      ts ← remove (Column.Tasks col) (cursorTask m);
      let m := set_board (set_tasks (cursorColumn m) ts (board m)) m in
      let m := if bool_decide (cursorTask m >= len ts ∧ cursorTask m > 0)
               then set_cursorTask (wrap (cursorTask m - 1)) m else m in
      let '(m, disk) := save_noting_error env m disk in
      Some (set_dialogType NoDialog m, disk, CmdNil)
    else Some (set_dialogType NoDialog m, disk, CmdNil)
  else if key_in k ["n"; "N"; "esc"; "q"; "ctrl+c"] then
    Some (set_dialogType NoDialog m, disk, CmdNil)
  else Some (m, disk, CmdNil).

(** *** Update: [case "enter"] of the text entry, the same statements in
    normal mode (286-320) and in insert mode (343-377) *)
Definition Update_enter (env : Env) (m : model) (disk : Disk) : Result :=
  match bool_decide (dialogType m = EditDialog), editingTask m with
  | true, Some p =>
      let m := set_board (store_Title p (Value (textInput m)) (board m)) m in
      let m := set_inputMode false m in
      let m := set_inputState NormalMode m in
      let m := set_editingTask None m in
      let m := set_dialogType NoDialog m in
      let '(m, disk) := save_noting_error env m disk in
      Some (m, disk, CmdNil)
  | _, _ =>
      if bool_decide (Value (textInput m) ≠ "") then
        let m := set_lastID (wrap (lastID m + 1)) m in
        let newTask := Task.mk (lastID m) (Value (textInput m)) "" (now env) in
        col ← index (Columns (board m)) (cursorColumn m);
        let m := set_board (set_tasks (cursorColumn m)
                              (Column.Tasks col ++ [newTask]) (board m)) m in
        let m := set_textInput (Reset (textInput m)) m in
        let m := set_inputMode false m in
        let m := set_inputState NormalMode m in
        let '(m, disk) := save_noting_error env m disk in
        Some (m, disk, CmdNil)
      else
        let m := set_inputMode false m in
        let m := set_inputState NormalMode m in
        Some (m, disk, CmdNil)
  end.

(** [if err := m.saveBoard(); err != nil { m.err = err; return m, nil };
    return m, tea.Quit] *)
Definition Update_quit (env : Env) (m : model) (disk : Disk) : Result :=
  match saveBoard env m disk with
  | (disk', Some e) => Some (set_err (Some e) m, disk', CmdNil)
  | (disk', None) => Some (m, disk', tea_Quit)
  end.

(** [m.textInput, cmd = m.textInput.Update(msg); return m, cmd] *)
Definition Update_textInput (m : model) (disk : Disk) (msg : Msg) : Result :=
  Some (set_textInput (textinput_Update (textInput m) msg) m, disk, textinput_Cmd).

(** *** Update: the text entry (267-390) *)
Definition Update_inputMode (env : Env) (m : model) (disk : Disk) (k : string)
    : Result :=
  match inputState m with
  | NormalMode =>
      if key_in k ["i"] then
        Some (set_inputState InsertMode m, disk, CmdNil)
      else if key_in k ["esc"; "ctrl+c"] then
        let m := set_inputMode false m in
        let m := set_textInput (Reset (textInput m)) m in
        let m := set_inputState NormalMode m in
        let m := set_editingTask None m in
        let m := set_dialogType NoDialog m in
        Some (m, disk, CmdNil)
      else if key_in k ["enter"] then Update_enter env m disk
      else if key_in k ["q"] then Update_quit env m disk
      else if key_in k ["?"] then
        Some (set_showHelp (negb (showHelp m)) m, disk, CmdNil)
      else Update_textInput m disk (KeyMsg k)
  | InsertMode =>
      if key_in k ["esc"] then
        Some (set_inputState NormalMode m, disk, CmdNil)
      else if key_in k ["enter"] then Update_enter env m disk
      else Update_textInput m disk (KeyMsg k)
  end.

(** [case "[", "{"] with [dst = m.cursorColumn-1] (471-500) and
    [case "]", "}"] with [dst = m.cursorColumn+1] (502-531), from the test
    of [len(srcCol.Tasks) > 0] on. [other] is the column that is redrawn
    second: the source column, written [m.cursorColumn+1] or
    [m.cursorColumn-1] after the cursor has moved. *)
Definition Update_move (env : Env) (m : model) (disk : Disk)
    (dst : Z) (back : Z → Z) : Result :=
  srcCol ← index (Columns (board m)) (cursorColumn m);
  if bool_decide (len (Column.Tasks srcCol) > 0) then
    destCol ← index (Columns (board m)) dst;
    task ← index (Column.Tasks srcCol) (cursorTask m);
    ts ← remove (Column.Tasks srcCol) (cursorTask m);
    let m := set_board (set_tasks (cursorColumn m) ts (board m)) m in
    let m := if bool_decide (cursorTask m >= len ts ∧ cursorTask m > 0)
             then set_cursorTask (wrap (cursorTask m - 1)) m else m in
    let dts := Column.Tasks destCol ++ [task] in
    let m := set_board (set_tasks dst dts (board m)) m in
    let m := set_cursorColumn dst m in
    let m := set_cursorTask (wrap (len dts - 1)) m in
    _ ← updateViewportContent m (cursorColumn m);
    _ ← updateViewportContent m (back (cursorColumn m));
    let '(m, disk) := save_noting_error env m disk in
    Some (m, disk, CmdNil)
  else Some (m, disk, CmdNil).

(** *** Update: no dialog, no text entry (393-532) *)
Definition Update_browsing (env : Env) (m : model) (disk : Disk) (k : string)
    : Result :=
  if key_in k ["ctrl+c"; "q"] then Update_quit env m disk
  else if key_in k ["?"] then
    Some (set_showHelp (negb (showHelp m)) m, disk, CmdNil)
  else if key_in k ["a"] then
    let m := set_inputMode true m in
    let m := set_inputState InsertMode m in
    let m := set_textInput (Reset (textInput m)) m in
    Some (m, disk, textinput_Blink)
  else if key_in k ["n"] then
    let m := set_inputMode true m in
    let m := set_inputState NormalMode m in
    let m := set_textInput (Reset (textInput m)) m in
    Some (m, disk, textinput_Blink)
  else if key_in k ["e"] then
    if bool_decide (len (Columns (board m)) > 0) then
      col ← index (Columns (board m)) (cursorColumn m);
      if bool_decide (len (Column.Tasks col) > 0) then
        let m := set_dialogType EditDialog m in
        task ← index (Column.Tasks col) (cursorTask m);
        let m := set_editingTask (Some (cursorColumn m, cursorTask m)) m in
        let m := set_textInput (SetValue (Task.Title task) (textInput m)) m in
        let m := set_inputMode true m in
        let m := set_inputState InsertMode m in
        Some (m, disk, textinput_Blink)
      else Some (m, disk, CmdNil)
    else Some (m, disk, CmdNil)
  else if key_in k ["d"] then
    if bool_decide (len (Columns (board m)) > 0) then
      col ← index (Columns (board m)) (cursorColumn m);
      if bool_decide (len (Column.Tasks col) > 0) then
        Some (set_dialogType DeleteDialog m, disk, CmdNil)
      else Some (m, disk, CmdNil)
    else Some (m, disk, CmdNil)
  else if key_in k ["up"; "k"] then
    col ← index (Columns (board m)) (cursorColumn m);
    if bool_decide (len (Column.Tasks col) > 0) then
      let m := set_cursorTask (max 0 (wrap (cursorTask m - 1))) m in
      _ ← updateViewportContent m (cursorColumn m);
      Some (m, disk, CmdNil)
    else Some (m, disk, CmdNil)
  else if key_in k ["down"; "j"] then
    col ← index (Columns (board m)) (cursorColumn m);
    if bool_decide (len (Column.Tasks col) > 0) then
      let m := set_cursorTask (min (wrap (len (Column.Tasks col) - 1))
                                   (wrap (cursorTask m + 1))) m in
      _ ← updateViewportContent m (cursorColumn m);
      Some (m, disk, CmdNil)
    else Some (m, disk, CmdNil)
  else if key_in k ["left"; "h"] then
    if bool_decide (cursorColumn m > 0) then
      let m := set_cursorColumn (wrap (cursorColumn m - 1)) m in
      let m := set_cursorTask 0 m in
      _ ← updateViewportContent m (cursorColumn m);
      Some (m, disk, CmdNil)
    else Some (m, disk, CmdNil)
  else if key_in k ["right"; "l"] then
    if bool_decide (cursorColumn m < wrap (len (Columns (board m)) - 1)) then
      let m := set_cursorColumn (wrap (cursorColumn m + 1)) m in
      let m := set_cursorTask 0 m in
      _ ← updateViewportContent m (cursorColumn m);
      Some (m, disk, CmdNil)
    else Some (m, disk, CmdNil)
  else if key_in k ["["; "{"] then
    if bool_decide (cursorColumn m > 0) then
      Update_move env m disk (wrap (cursorColumn m - 1)) (λ c, wrap (c + 1))
    else Some (m, disk, CmdNil)
  else if key_in k ["]"; "}"] then
    if bool_decide (cursorColumn m < wrap (len (Columns (board m)) - 1)) then
      Update_move env m disk (wrap (cursorColumn m + 1)) (λ c, wrap (c - 1))
    else Some (m, disk, CmdNil)
  else Some (m, disk, CmdNil).

(** *** Update: [case tea.WindowSizeMsg] (535-563) *)
Definition Update_WindowSizeMsg (m : model) (disk : Disk) (w h : Z) : Result :=
  let m := set_size w h m in
  if bool_decide (len (Columns (board m)) = 0) then None
  else
    _ ← updateViewportContent m 0;
    _ ← updateViewportContent m 1;
    _ ← updateViewportContent m 2;
    Some (m, disk, CmdNil).

(** *** Update. The loop that passes the message to the viewports first only
    scrolls the display, and returns no command. *)
Definition Update (env : Env) (m : model) (disk : Disk) (msg : Msg) : Result :=
  match msg with
  | KeyMsg k =>
      if bool_decide (dialogType m = DeleteDialog) then Update_DeleteDialog env m disk k
      else if inputMode m then Update_inputMode env m disk k
      else Update_browsing env m disk k
  | WindowSizeMsg w h => Update_WindowSizeMsg m disk w h
  | OtherMsg => Some (m, disk, CmdNil)
  end.

(** A session: the transitions for a sequence of messages, each with its
    environment, until one quits or panics. [None] is a panic. *)
Fixpoint run (m : model) (disk : Disk) (evs : list (Env * Msg)) : option (model * Disk) :=
  match evs with
  | [] => Some (m, disk)
  | (env, msg) :: rest =>
      match Update env m disk msg with
      | None => None
      | Some (m', disk', tea_Quit) => Some (m', disk')
      | Some (m', disk', _) => run m' disk' rest
      end
  end.

(** *** The cursor invariant *)

(** The cursor is on one of the three columns and on a task of that column,
    or on row 0 of an empty column. *)
Definition cursor_ok (m : model) : Prop :=
  0 ≤ cursorColumn m < 3
  ∧ 0 ≤ cursorTask m < max 1 (len (tasks_of (board m) (cursorColumn m))).

(** The transition returns (it does not panic), and the model it returns
    has its three columns and a cursor in range. *)
Definition keeps_cursor (r : Result) : Prop :=
  ∃ m' disk' cmd,
    r = Some (m', disk', cmd) ∧ three_columns (board m') ∧ cursor_ok m'.

(** The board and the cursor of a model. *)
Definition geometry (m : model) : KanbanBoard * Z * Z :=
  (board m, cursorColumn m, cursorTask m).

(** The model after the task under the cursor has moved to the end of
    column [dst], before it is saved. *)
Definition moved (m : model) (dst : Z) (task : Task.t) : model :=
  let b := board m in
  let src := cursorColumn m in
  let ts := take (Z.to_nat (cursorTask m)) (tasks_of b src)
            ++ drop (S (Z.to_nat (cursorTask m))) (tasks_of b src) in
  let b := set_tasks dst (tasks_of b dst ++ [task]) (set_tasks src ts b) in
  set_cursorTask (len (tasks_of (board m) dst)) (set_cursorColumn dst (set_board b m)).

(** No id on the board is above the id counter. *)
Definition ids_bounded (m : model) : Prop :=
  ∀ x, x ∈ ids (board m) → x ≤ lastID m.

(** The pointer [editingTask] is set only in the edit dialog, and there it
    is the address of the task under the cursor. *)
Definition editing_bound (m : model) : Prop :=
  match editingTask m with
  | None => True
  | Some p =>
      inputMode m = true ∧ dialogType m = EditDialog
      ∧ p = (cursorColumn m, cursorTask m)
      ∧ is_Some (index (tasks_of (board m) p.1) p.2)
  end.

End GoTask.

(** ** The earlier variant of the program (the second source file)

    The same board and the same file, no dialogs: [d] deletes at once, there
    is no edit, and the text entry has one mode. *)

Module Legacy.
Section Legacy.
Context `{TextInput} `{TimeCodec}.

(** [savePath] and [showTaskInput] are left out, as above. *)
Record model := Model {
  board : KanbanBoard;
  cursorColumn : Z;
  cursorTask : Z;
  textInput : textinput_Model;
  inputMode : bool;
  width : Z;
  height : Z;
  err : option error;
  lastID : Z;
  showHelp : bool;
}.

Definition set_board (v : KanbanBoard) (m : model) : model :=
  Model v (cursorColumn m) (cursorTask m) (textInput m) (inputMode m)
    (width m) (height m) (err m) (lastID m) (showHelp m).
Definition set_cursorColumn (v : Z) (m : model) : model :=
  Model (board m) v (cursorTask m) (textInput m) (inputMode m)
    (width m) (height m) (err m) (lastID m) (showHelp m).
Definition set_cursorTask (v : Z) (m : model) : model :=
  Model (board m) (cursorColumn m) v (textInput m) (inputMode m)
    (width m) (height m) (err m) (lastID m) (showHelp m).
Definition set_textInput (v : textinput_Model) (m : model) : model :=
  Model (board m) (cursorColumn m) (cursorTask m) v (inputMode m)
    (width m) (height m) (err m) (lastID m) (showHelp m).
Definition set_inputMode (v : bool) (m : model) : model :=
  Model (board m) (cursorColumn m) (cursorTask m) (textInput m) v
    (width m) (height m) (err m) (lastID m) (showHelp m).
Definition set_size (w h : Z) (m : model) : model :=
  Model (board m) (cursorColumn m) (cursorTask m) (textInput m) (inputMode m)
    w h (err m) (lastID m) (showHelp m).
Definition set_err (v : option error) (m : model) : model :=
  Model (board m) (cursorColumn m) (cursorTask m) (textInput m) (inputMode m)
    (width m) (height m) v (lastID m) (showHelp m).
Definition set_lastID (v : Z) (m : model) : model :=
  Model (board m) (cursorColumn m) (cursorTask m) (textInput m) (inputMode m)
    (width m) (height m) (err m) v (showHelp m).
Definition set_showHelp (v : bool) (m : model) : model :=
  Model (board m) (cursorColumn m) (cursorTask m) (textInput m) (inputMode m)
    (width m) (height m) (err m) (lastID m) v.

Definition saveBoard (env : Env) (m : model) (disk : Disk) : Disk * option error :=
  saveBoard_file (write env) (board m) disk.

Definition save_noting_error (env : Env) (m : model) (disk : Disk) : model * Disk :=
  match saveBoard env m disk with
  | (disk', Some e) => (set_err (Some e) m, disk')
  | (disk', None) => (m, disk')
  end.

(** A [case] of the switch either returns ([Some cmd]) or falls out of the
    switch ([None]), to the statements after it. *)
Definition Case : Type := option (model * Disk * option Cmd).

(** [case "[", "{"] (266-291) and [case "]", "}"] (293-318), from the test of
    [len(srcCol.Tasks) > 0] on, with [dst] the column on the left or right. *)
Definition Update_move (env : Env) (m : model) (disk : Disk) (dst : Z) : Case :=
  srcCol ← index (Columns (board m)) (cursorColumn m);
  if bool_decide (len (Column.Tasks srcCol) > 0) then
    destCol ← index (Columns (board m)) dst;
    task ← index (Column.Tasks srcCol) (cursorTask m);
    ts ← remove (Column.Tasks srcCol) (cursorTask m);
    let m := set_board (set_tasks (cursorColumn m) ts (board m)) m in
    let m := if bool_decide (cursorTask m >= len ts ∧ cursorTask m > 0)
             then set_cursorTask (wrap (cursorTask m - 1)) m else m in
    let dts := Column.Tasks destCol ++ [task] in
    let m := set_board (set_tasks dst dts (board m)) m in
    let m := set_cursorColumn dst m in
    let m := set_cursorTask (wrap (len dts - 1)) m in
    let '(m, disk) := save_noting_error env m disk in
    Some (m, disk, None)
  else Some (m, disk, None).

(** [switch msg.String()] (174-319) *)
Definition Update_key (env : Env) (m : model) (disk : Disk) (k : string) : Case :=
  if key_in k ["ctrl+c"; "q"] then
    match saveBoard env m disk with
    | (disk', Some e) => Some (set_err (Some e) m, disk', Some CmdNil)
    | (disk', None) => Some (m, disk', Some tea_Quit)
    end
  else if key_in k ["?"] then
    Some (set_showHelp (negb (showHelp m)) m, disk, Some CmdNil)
  else if key_in k ["enter"] then
    if inputMode m then
      if bool_decide (Value (textInput m) ≠ "") then
        let m := set_lastID (wrap (lastID m + 1)) m in
        let newTask := Task.mk (lastID m) (Value (textInput m)) "" (now env) in
        col ← index (Columns (board m)) (cursorColumn m);
        let m := set_board (set_tasks (cursorColumn m)
                              (Column.Tasks col ++ [newTask]) (board m)) m in
        let m := set_textInput (Reset (textInput m)) m in
        let m := set_inputMode false m in
        let '(m, disk) := save_noting_error env m disk in
        Some (m, disk, None)
      else Some (set_inputMode false m, disk, None)
    else Some (m, disk, None)
  else if key_in k ["a"] then
    if negb (inputMode m) then Some (set_inputMode true m, disk, Some textinput_Blink)
    else Some (m, disk, None)
  else if key_in k ["d"] then
    if negb (inputMode m) && bool_decide (len (Columns (board m)) > 0) then
      col ← index (Columns (board m)) (cursorColumn m);
      if bool_decide (len (Column.Tasks col) > 0) then
        ts ← remove (Column.Tasks col) (cursorTask m);
        let m := set_board (set_tasks (cursorColumn m) ts (board m)) m in
        let m := if bool_decide (cursorTask m >= len ts ∧ cursorTask m > 0)
                 then set_cursorTask (wrap (cursorTask m - 1)) m else m in
        let '(m, disk) := save_noting_error env m disk in
        Some (m, disk, None)
      else Some (m, disk, None)
    else Some (m, disk, None)
  else if key_in k ["esc"] then
    if inputMode m then
      let m := set_inputMode false m in
      let m := set_textInput (Reset (textInput m)) m in
      Some (m, disk, None)
    else Some (m, disk, None)
  else if key_in k ["up"; "k"] then
    if negb (inputMode m) then
      col ← index (Columns (board m)) (cursorColumn m);
      if bool_decide (len (Column.Tasks col) > 0) then
        Some (set_cursorTask (max 0 (wrap (cursorTask m - 1))) m, disk, None)
      else Some (m, disk, None)
    else Some (m, disk, None)
  else if key_in k ["down"; "j"] then
    if negb (inputMode m) then
      col ← index (Columns (board m)) (cursorColumn m);
      if bool_decide (len (Column.Tasks col) > 0) then
        Some (set_cursorTask (min (wrap (len (Column.Tasks col) - 1))
                                  (wrap (cursorTask m + 1))) m, disk, None)
      else Some (m, disk, None)
    else Some (m, disk, None)
  else if key_in k ["left"; "h"] then
    if negb (inputMode m) && bool_decide (cursorColumn m > 0) then
      let m := set_cursorColumn (wrap (cursorColumn m - 1)) m in
      Some (set_cursorTask 0 m, disk, None)
    else Some (m, disk, None)
  else if key_in k ["right"; "l"] then
    if negb (inputMode m)
       && bool_decide (cursorColumn m < wrap (len (Columns (board m)) - 1)) then
      let m := set_cursorColumn (wrap (cursorColumn m + 1)) m in
      Some (set_cursorTask 0 m, disk, None)
    else Some (m, disk, None)
  else if key_in k ["["; "{"] then
    if negb (inputMode m) && bool_decide (cursorColumn m > 0) then
      Update_move env m disk (wrap (cursorColumn m - 1))
    else Some (m, disk, None)
  else if key_in k ["]"; "}"] then
    if negb (inputMode m)
       && bool_decide (cursorColumn m < wrap (len (Columns (board m)) - 1)) then
      Update_move env m disk (wrap (cursorColumn m + 1))
    else Some (m, disk, None)
  else Some (m, disk, None).

(** [Update] (171-333): the switch, then the text input gets the message
    when the entry is open. *)
Definition Update (env : Env) (m : model) (disk : Disk) (msg : Msg)
    : option (model * Disk * Cmd) :=
  c ← match msg with
      | KeyMsg k => Update_key env m disk k
      | WindowSizeMsg w h => Some (set_size w h m, disk, None)
      | OtherMsg => Some (m, disk, None)
      end;
  match c with
  | (m, disk, Some cmd) => Some (m, disk, cmd)
  | (m, disk, None) =>
      if inputMode m
      then Some (set_textInput (textinput_Update (textInput m) msg) m, disk, textinput_Cmd)
      else Some (m, disk, CmdNil)
  end.

(** The cursor invariant, the board and the cursor of a model, and the model
    after a move, as for gotask.go. *)
Definition cursor_ok (m : model) : Prop :=
  0 ≤ cursorColumn m < 3
  ∧ 0 ≤ cursorTask m < max 1 (len (tasks_of (board m) (cursorColumn m))).

Definition geometry (m : model) : KanbanBoard * Z * Z :=
  (board m, cursorColumn m, cursorTask m).

Definition moved (m : model) (dst : Z) (task : Task.t) : model :=
  let b := board m in
  let src := cursorColumn m in
  let ts := take (Z.to_nat (cursorTask m)) (tasks_of b src)
            ++ drop (S (Z.to_nat (cursorTask m))) (tasks_of b src) in
  let b := set_tasks dst (tasks_of b dst ++ [task]) (set_tasks src ts b) in
  set_cursorTask (len (tasks_of (board m) dst)) (set_cursorColumn dst (set_board b m)).

(** The model after the task under the cursor is deleted, before it is
    saved. *)
Definition deleted (m : model) : model :=
  let src := cursorColumn m in
  let ts := take (Z.to_nat (cursorTask m)) (tasks_of (board m) src)
            ++ drop (S (Z.to_nat (cursorTask m))) (tasks_of (board m) src) in
  let m' := set_board (set_tasks src ts (board m)) m in
  if bool_decide (cursorTask m >= len ts ∧ cursorTask m > 0)
  then set_cursorTask (cursorTask m - 1) m' else m'.

(** A case of the switch returns or falls through, without a panic, with
    the three columns and a cursor in range. *)
Definition keeps_cursor (r : Case) : Prop :=
  ∃ m' disk' oc,
    r = Some (m', disk', oc) ∧ three_columns (board m') ∧ cursor_ok m'.

End Legacy.
End Legacy.

(** ** The two variants side by side *)

(** The model of the earlier variant that has the fields of a model of
    gotask.go: the dialog, the mode of the entry and the pointer to the
    edited task are dropped. *)
Definition earlier `{TextInput} (m : model) : Legacy.model :=
  Legacy.Model (board m) (cursorColumn m) (cursorTask m) (textInput m)
    (inputMode m) (width m) (height m) (err m) (lastID m) (showHelp m).



(** ** A text buffer and a time format to run the program on

    Modelled from the spec: the text buffer of the dialogs (bubbles/textinput,
    a library outside the repository), as the spec describes it: the keys
    forwarded to it insert and delete characters. A key of one character is
    appended, [backspace] drops the last character. *)
Definition line_buffer_Update (v : string) (msg : Msg) : string :=
  match msg with
  | KeyMsg k =>
      if bool_decide (String.length k = 1%nat) then v +:+ k
      else if bool_decide (k = "backspace")
      then String.substring 0 (String.length v - 1) v
      else v
  | _ => v
  end.

Definition line_buffer : TextInput := {|
  textinput_Model := string;
  Value := λ v, v;
  Reset := λ _, "";
  SetValue := λ s _, s;
  textinput_Update := line_buffer_Update;
|}.

(** A time format with a parser: the instant in decimal. *)
Definition decimal_of_time (t : Time) : string :=
  DecimalString.NilZero.string_of_int (Z.to_int t).

Definition time_of_decimal (s : string) : option Time :=
  Z.of_int <$> DecimalString.NilZero.int_of_string s.

Definition decimal_time : TimeCodec := {|
  time_MarshalJSON := decimal_of_time;
  time_UnmarshalJSON := time_of_decimal;
|}.

(** A board with two tasks, the cursor on the second one. *)
Definition sample_board : KanbanBoard :=
  Board [Column.mk 1 "To Do" [Task.mk 1 "Write spec" "" 0; Task.mk 2 "Review" "" 0];
         Column.mk 2 "In Progress" [];
         Column.mk 3 "Done" []].

(** Browsing, nothing open. *)
Definition sample_model : @model line_buffer :=
  @Model line_buffer sample_board 0 1 "" false NormalMode 80 24 None 2 true NoDialog None.

(** A transition whose write succeeds. *)
Definition sample_env : Env := {| now := 1700000000; write := Written |}.

(** A transition whose write fails, and leaves the disk empty. *)
Definition failing_env : Env :=
  {| now := 1700000000; write := WriteFailed "permission denied" None |}.

(** Keys typed one after the other, every write succeeding. *)
Definition keys (ks : list string) : list (Env * Msg) :=
  (λ k, (sample_env, KeyMsg k)) <$> ks.

(** The entry for a new task, in normal mode, with [ab] typed. *)
Definition entry_in_normal_mode : @model line_buffer :=
  @Model line_buffer sample_board 0 1 "ab" true NormalMode 80 24 None 2 true NoDialog None.

(** The entry for a new task, just opened: the buffer is empty. *)
Definition entry_just_opened : @model line_buffer :=
  @Model line_buffer sample_board 0 1 "" true InsertMode 80 24 None 2 true NoDialog None.

(** The edit dialog on the second task, its title deleted from the buffer. *)
Definition editing_emptied : @model line_buffer :=
  @Model line_buffer sample_board 0 1 "" true InsertMode 80 24 None 2 true
    EditDialog (Some (0, 1)).

(** The model and the disk that a session ends with. *)
Definition state_after (m : @model line_buffer) (evs : list (Env * Msg))
    : @model line_buffer * Disk :=
  default (m, None) (@run line_buffer decimal_time m None evs).

(** A file whose third column has its id written as a string. *)
Definition file_with_a_string_id : JSON :=
  JObj [("columns",
         JArr [@Column_MarshalJSON decimal_time
                 (Column.mk 1 "To Do" [Task.mk 1 "Write spec" "" 0]);
               @Column_MarshalJSON decimal_time (Column.mk 2 "In Progress" []);
               JObj [("id", JStr "3"); ("title", JStr "Done"); ("tasks", JArr [])]])].

(** * Properties *)

(** Closes a decidable goal by evaluation. *)
Ltac by_computation := apply (bool_decide_unpack _); vm_compute; exact I.

(** Arithmetic on [int]s and lengths. *)
Ltac int_arith := unfold is_int, int_min, int_max, three_columns in *; lia.

(** Evaluates the tests of a [switch] on a key that is known. *)
Ltac eval_keys :=
  repeat match goal with
  | |- context [key_in ?k ?ks] =>
      let b := eval vm_compute in (key_in k ks) in
      lazymatch b with
      | true => change (key_in k ks) with true
      | false => change (key_in k ks) with false
      end
  end.

(** Evaluates the comparisons of a key of the document with the tags. *)
Ltac eval_tags :=
  repeat match goal with
  | |- context [@bool_decide (@eq string ?a ?b) ?d] =>
      let v := eval vm_compute in (@bool_decide (@eq string a b) d) in
      lazymatch v with
      | true => change (@bool_decide (@eq string a b) d) with true
      | false => change (@bool_decide (@eq string a b) d) with false
      end
  end.

(** ** Integers and slices *)

Lemma wrap_id (z : Z) : is_int z → wrap z = z.
Proof.
  unfold is_int, int_min, int_max, wrap. intros Hz.
  rewrite Z.mod_small; lia.
Qed.

Lemma wrap_is_int (z : Z) : is_int (wrap z).
Proof.
  unfold is_int, int_min, int_max, wrap.
  pose proof (Z.mod_pos_bound (z + 2 ^ 63) (2 ^ 64)). lia.
Qed.

Lemma len_nonneg {A} (s : list A) : 0 ≤ len s.
Proof. unfold len. lia. Qed.

Lemma len_app {A} (s t : list A) : len (s ++ t) = len s + len t.
Proof. unfold len. rewrite length_app. lia. Qed.

Lemma index_Some {A} (s : list A) (i : Z) (x : A) :
  index s i = Some x ↔ 0 ≤ i < len s ∧ s !! Z.to_nat i = Some x.
Proof.
  unfold index. case_bool_decide as Hi.
  - split; [by intros ->|by intros [_ ->]].
  - split; [done|]. by intros [? _].
Qed.

Lemma index_in_range {A} (s : list A) (i : Z) :
  0 ≤ i < len s → is_Some (index s i).
Proof.
  intros Hi. unfold index. rewrite bool_decide_eq_true_2 by done.
  apply lookup_lt_is_Some. unfold len in Hi. lia.
Qed.

Lemma index_out_of_range {A} (s : list A) (i : Z) :
  ¬ (0 ≤ i < len s) → index s i = None.
Proof. intros Hi. unfold index. by rewrite bool_decide_eq_false_2. Qed.

Lemma remove_in_range {A} (s : list A) (i : Z) :
  0 ≤ i < len s → len s ≤ int_max →
  remove s i = Some (take (Z.to_nat i) s ++ drop (S (Z.to_nat i)) s).
Proof.
  intros Hi Hs. unfold remove.
  rewrite wrap_id by (unfold is_int, int_min, int_max in *; lia).
  rewrite bool_decide_eq_true_2 by lia.
  do 3 f_equal. lia.
Qed.

Lemma remove_Some {A} (s t : list A) (i : Z) :
  remove s i = Some t → is_int i →
  0 ≤ i < len s ∧ t = take (Z.to_nat i) s ++ drop (S (Z.to_nat i)) s.
Proof.
  unfold remove, is_int, int_min, int_max.
  case_bool_decide as Hi; [|done]. intros [= <-] Hint.
  destruct (decide (i = 2 ^ 63 - 1)) as [->|Hne].
  { exfalso. revert Hi. by vm_compute; intros [_ [? _]]. }
  rewrite wrap_id in * by (unfold is_int, int_min, int_max; lia).
  split; [lia|]. do 2 f_equal. lia.
Qed.

Lemma len_take_drop {A} (s : list A) (i : Z) :
  0 ≤ i < len s → len (take (Z.to_nat i) s ++ drop (S (Z.to_nat i)) s) = len s - 1.
Proof.
  unfold len. intros Hi. rewrite length_app, length_take, length_drop. lia.
Qed.

(** ** The board *)

Lemma tasks_of_index (b : KanbanBoard) (c : Z) (col : Column.t) :
  index (Columns b) c = Some col → tasks_of b c = Column.Tasks col.
Proof. unfold tasks_of. by intros ->. Qed.

Lemma len_Columns_set_tasks (c : Z) (ts : list Task.t) (b : KanbanBoard) :
  len (Columns (set_tasks c ts b)) = len (Columns b).
Proof. unfold len. simpl. by rewrite length_alter. Qed.

Lemma tasks_of_set_tasks_eq (c : Z) (ts : list Task.t) (b : KanbanBoard) :
  0 ≤ c < len (Columns b) → tasks_of (set_tasks c ts b) c = ts.
Proof.
  intros Hc. destruct (index_in_range (Columns b) c Hc) as [col Hcol].
  apply index_Some in Hcol as [_ Hcol].
  unfold tasks_of, index. rewrite len_Columns_set_tasks.
  rewrite bool_decide_eq_true_2 by done. simpl.
  by rewrite list_lookup_alter_eq, Hcol.
Qed.

Lemma tasks_of_set_tasks_ne (c c' : Z) (ts : list Task.t) (b : KanbanBoard) :
  0 ≤ c → c ≠ c' → tasks_of (set_tasks c ts b) c' = tasks_of b c'.
Proof.
  intros Hc Hne. unfold tasks_of, index. rewrite len_Columns_set_tasks.
  case_bool_decide as Hc'; [|done]. simpl.
  rewrite list_lookup_alter_ne by lia. done.
Qed.

Lemma index_set_tasks_eq (c : Z) (ts : list Task.t) (b : KanbanBoard) (col : Column.t) :
  index (Columns b) c = Some col →
  index (Columns (set_tasks c ts b)) c = Some (Column.with_Tasks ts col).
Proof.
  intros [Hc Hcol]%index_Some. apply index_Some.
  rewrite len_Columns_set_tasks. split; [done|]. simpl.
  by rewrite list_lookup_alter_eq, Hcol.
Qed.

Lemma index_set_tasks_ne (c c' : Z) (ts : list Task.t) (b : KanbanBoard) :
  0 ≤ c → c ≠ c' → index (Columns (set_tasks c ts b)) c' = index (Columns b) c'.
Proof.
  intros Hc Hne. unfold index. rewrite len_Columns_set_tasks.
  case_bool_decide as Hc'; [|done]. simpl.
  rewrite list_lookup_alter_ne by lia. done.
Qed.

Lemma len_concat_alter (cols : list Column.t) (i : nat) (col : Column.t)
    (ts : list Task.t) :
  cols !! i = Some col →
  len (concat (Column.Tasks <$> alter (Column.with_Tasks ts) i cols))
  = len (concat (Column.Tasks <$> cols)) - len (Column.Tasks col) + len ts.
Proof.
  revert i. induction cols as [|c cols IH]; intros [|i] Hi; simplify_eq/=.
  - rewrite !len_app. lia.
  - rewrite !len_app, (IH i Hi). lia.
Qed.

Lemma task_count_set_tasks (c : Z) (ts : list Task.t) (b : KanbanBoard) :
  0 ≤ c < len (Columns b) →
  task_count (set_tasks c ts b) = task_count b - len (tasks_of b c) + len ts.
Proof.
  intros Hc. destruct (index_in_range (Columns b) c Hc) as [col Hcol].
  rewrite (tasks_of_index _ _ _ Hcol). apply index_Some in Hcol as [_ Hcol].
  unfold task_count, all_tasks. simpl. by apply len_concat_alter.
Qed.

(** ** The cursor *)

#[global] Arguments set_tasks : simpl never.
#[global] Arguments tasks_of : simpl never.
#[global] Arguments index : simpl never.
#[global] Arguments remove : simpl never.
#[global] Arguments wrap : simpl never.
#[global] Arguments len : simpl never.

Section Cursor.
Context `{TextInput} `{TimeCodec}.

Lemma sizes_ok_tasks_of b c : sizes_ok b → len (tasks_of b c) ≤ int_max.
Proof.
  intros Hs. unfold tasks_of. destruct (index (Columns b) c) as [col|] eqn:E.
  - apply index_Some in E as [_ E]. unfold sizes_ok in Hs.
    rewrite Forall_lookup in Hs. by apply (Hs _ _ E).
  - by vm_compute.
Qed.

Lemma keeps_cursor_intro m' disk' cmd :
  three_columns (board m') → cursor_ok m' → keeps_cursor (Some (m', disk', cmd)).
Proof. intros. by exists m', disk', cmd. Qed.

Lemma max_1_len {A} (s : list A) : max 1 (len s) = if bool_decide (len s > 0) then len s else 1.
Proof. unfold max. pose proof (len_nonneg s). repeat case_bool_decide; lia. Qed.

Lemma keeps_cursor_same m m' disk' cmd :
  geometry m' = geometry m →
  three_columns (board m) → cursor_ok m → keeps_cursor (Some (m', disk', cmd)).
Proof.
  unfold geometry, cursor_ok. intros [= Hb Hc Ht] H3 Hok.
  apply keeps_cursor_intro; unfold cursor_ok; by rewrite ?Hb, ?Hc, ?Ht.
Qed.

Lemma save_noting_error_geometry env m disk :
  geometry (save_noting_error env m disk).1 = geometry m.
Proof.
  unfold save_noting_error. by destruct (saveBoard env m disk) as [d [e|]].
Qed.

Ltac same_cursor :=
  eapply keeps_cursor_same; [|eassumption|eassumption]; reflexivity.

Lemma Update_DeleteDialog_cursor env m disk k :
  three_columns (board m) → sizes_ok (board m) → cursor_ok m →
  keeps_cursor (Update_DeleteDialog env m disk k).
Proof.
  intros H3 Hs Hok. pose proof Hok as [Hc Ht]. unfold Update_DeleteDialog.
  destruct (index_in_range (Columns (board m)) (cursorColumn m)) as [col Hcol];
    [int_arith|].
  pose proof (tasks_of_index _ _ _ Hcol) as Htasks.
  pose proof (sizes_ok_tasks_of _ (cursorColumn m) Hs) as Hsz.
  rewrite Htasks in *. rewrite max_1_len in Ht.
  destruct (key_in k ["y"; "Y"]);
    [|destruct (key_in k ["n"; "N"; "esc"; "q"; "ctrl+c"]); same_cursor].
  rewrite Hcol. cbn. case_bool_decide as Hlen; [|same_cursor].
  rewrite remove_in_range by lia. cbn.
  set (ts := take _ _ ++ drop _ _).
  assert (len ts = len (Column.Tasks col) - 1) as Hts by (apply len_take_drop; lia).
  case_bool_decide as Hclamp;
  (match goal with |- context [save_noting_error ?e ?x ?d] =>
    pose proof (save_noting_error_geometry e x d) as Hg;
    destruct (save_noting_error e x d) as [m1 d1] end);
  injection Hg as Hb Hcc Hct; cbn in Hb, Hcc, Hct;
  (apply keeps_cursor_intro; unfold cursor_ok, three_columns; cbn;
   rewrite Hb, ?Hcc, ?Hct;
   rewrite ?len_Columns_set_tasks, ?tasks_of_set_tasks_eq by int_arith;
   rewrite ?max_1_len, ?wrap_id by int_arith; try case_bool_decide; int_arith).
Qed.

Lemma len_Columns_store_Title p v b :
  len (Columns (store_Title p v b)) = len (Columns b).
Proof.
  unfold store_Title. destruct (index _ _); [|done]. apply len_Columns_set_tasks.
Qed.

Lemma tasks_of_nonempty_in_range b c x i :
  index (tasks_of b c) i = Some x → 0 ≤ c < len (Columns b).
Proof.
  unfold tasks_of. destruct (index (Columns b) c) as [col|] eqn:E.
  - apply index_Some in E. tauto.
  - by intros [? ?]%index_Some.
Qed.

Lemma len_tasks_of_store_Title p v b c :
  len (tasks_of (store_Title p v b) c) = len (tasks_of b c).
Proof.
  unfold store_Title. destruct (index _ _) as [x|] eqn:E; [|done].
  pose proof (tasks_of_nonempty_in_range _ _ _ _ E) as Hp.
  destruct (decide (p.1 = c)) as [<-|Hne].
  - rewrite tasks_of_set_tasks_eq by done. unfold len. by rewrite length_alter.
  - by rewrite tasks_of_set_tasks_ne by lia.
Qed.

Lemma updateViewportContent_in_range m c :
  three_columns (board m) → 0 ≤ c < 3 → updateViewportContent m c = Some ().
Proof.
  unfold updateViewportContent, three_columns, viewports_len. intros -> Hc.
  rewrite bool_decide_eq_false_2 by lia. by rewrite bool_decide_eq_true_2 by lia.
Qed.

Ltac save_step :=
  match goal with |- context [save_noting_error ?e ?x ?d] =>
    let Hg := fresh "Hg" in
    pose proof (save_noting_error_geometry e x d) as Hg;
    destruct (save_noting_error e x d) as [? ?];
    injection Hg as ? ? ?
  end.

Lemma Update_enter_cursor env m disk :
  three_columns (board m) → sizes_ok (board m) → cursor_ok m →
  keeps_cursor (Update_enter env m disk).
Proof.
  intros H3 Hs Hok. pose proof Hok as [Hc Ht]. unfold Update_enter.
  destruct (index_in_range (Columns (board m)) (cursorColumn m)) as [col Hcol];
    [int_arith|].
  pose proof (tasks_of_index _ _ _ Hcol) as Htasks.
  destruct (bool_decide (dialogType m = EditDialog)), (editingTask m) as [p|];
    try (case_bool_decide; [cbn; rewrite Hcol; cbn|same_cursor]);
    save_step; cbn in *;
    apply keeps_cursor_intro; unfold cursor_ok, three_columns; cbn;
    repeat match goal with E : _ = _ |- _ => rewrite E end;
    rewrite ?len_Columns_set_tasks, ?len_Columns_store_Title,
      ?len_tasks_of_store_Title, ?tasks_of_set_tasks_eq by int_arith;
    try done;
    rewrite Htasks, !max_1_len, ?len_app in *; change (len [?x]) with 1 in *;
    repeat case_bool_decide; int_arith.
Qed.

Lemma Update_move_spec env m disk dst back task :
  three_columns (board m) → sizes_ok (board m) →
  0 ≤ cursorColumn m < 3 → 0 ≤ dst < 3 → dst ≠ cursorColumn m → 0 ≤ back dst < 3 →
  index (tasks_of (board m) (cursorColumn m)) (cursorTask m) = Some task →
  Update_move env m disk dst back
  = Some (save_noting_error env (moved m dst task) disk, CmdNil).
Proof.
  intros H3 Hs Hc Hd Hne Hback Htask. unfold Update_move.
  destruct (index_in_range (Columns (board m)) (cursorColumn m)) as [col Hcol];
    [int_arith|].
  destruct (index_in_range (Columns (board m)) dst) as [dcol Hdcol]; [int_arith|].
  pose proof (sizes_ok_tasks_of _ (cursorColumn m) Hs) as Hsz.
  pose proof (sizes_ok_tasks_of _ dst Hs) as Hdsz.
  unfold moved.
  rewrite (tasks_of_index _ _ _ Hcol), (tasks_of_index _ _ _ Hdcol) in *.
  pose proof Htask as [Ht _]%index_Some.
  rewrite Hcol. cbn. rewrite bool_decide_eq_true_2 by lia.
  rewrite Hdcol. cbn. rewrite Htask. cbn.
  rewrite remove_in_range by lia. cbn.
  rewrite len_app. change (len [task]) with 1.
  rewrite wrap_id by (pose proof (len_nonneg (Column.Tasks dcol)); int_arith).
  replace (len (Column.Tasks dcol) + 1 - 1) with (len (Column.Tasks dcol)) by lia.
  unfold updateViewportContent. cbn.
  assert (∀ A B : model, A = B →
            (let '(m0, disk0) := save_noting_error env A disk in Some (m0, disk0, CmdNil))
            = Some (save_noting_error env B disk, CmdNil)) as Hsave.
  { intros A B ->. by destruct (save_noting_error _ _ _). }
  case_bool_decide; cbn; rewrite !len_Columns_set_tasks;
    rewrite !bool_decide_eq_false_2 by int_arith;
    rewrite !bool_decide_eq_true_2 by (unfold viewports_len; int_arith); cbn;
    by apply Hsave.
Qed.

Lemma moved_cursor m dst task :
  three_columns (board m) → 0 ≤ cursorColumn m < 3 → 0 ≤ dst < 3 →
  three_columns (board (moved m dst task)) ∧ cursor_ok (moved m dst task).
Proof.
  intros H3 Hc Hd. unfold moved, cursor_ok, three_columns. cbn.
  rewrite !len_Columns_set_tasks.
  rewrite tasks_of_set_tasks_eq by (rewrite len_Columns_set_tasks; int_arith).
  rewrite max_1_len, len_app. change (len [task]) with 1.
  pose proof (len_nonneg (tasks_of (board m) dst)).
  case_bool_decide; int_arith.
Qed.

Lemma Update_move_cursor env m disk dst back :
  three_columns (board m) → sizes_ok (board m) → cursor_ok m →
  0 ≤ dst < 3 → dst ≠ cursorColumn m → 0 ≤ back dst < 3 →
  keeps_cursor (Update_move env m disk dst back).
Proof.
  intros H3 Hs Hok Hd Hne Hback. pose proof Hok as [Hc Ht].
  destruct (decide (len (tasks_of (board m) (cursorColumn m)) > 0)) as [Hlen|Hlen].
  - rewrite max_1_len, bool_decide_eq_true_2 in Ht by done.
    destruct (index_in_range _ _ Ht) as [task Htask].
    rewrite (Update_move_spec _ _ _ _ _ task) by done.
    destruct (moved_cursor m dst task) as [H3' Hok']; [done..|].
    pose proof (save_noting_error_geometry env (moved m dst task) disk) as Hg.
    destruct (save_noting_error _ _ _) as [m1 d1]. by eapply keeps_cursor_same.
  - unfold Update_move.
    destruct (index_in_range (Columns (board m)) (cursorColumn m)) as [col Hcol];
      [int_arith|].
    rewrite (tasks_of_index _ _ _ Hcol) in Hlen. rewrite Hcol. cbn.
    rewrite bool_decide_eq_false_2 by done. same_cursor.
Qed.

Lemma Update_quit_cursor env m disk :
  three_columns (board m) → cursor_ok m → keeps_cursor (Update_quit env m disk).
Proof.
  intros H3 Hok. unfold Update_quit. destruct (saveBoard env m disk) as [d [e|]]; same_cursor.
Qed.

Lemma Update_inputMode_cursor env m disk k :
  three_columns (board m) → sizes_ok (board m) → cursor_ok m →
  keeps_cursor (Update_inputMode env m disk k).
Proof.
  intros H3 Hs Hok. unfold Update_inputMode, Update_textInput.
  destruct (inputState m);
    repeat (match goal with |- context [key_in k ?ks] => destruct (key_in k ks) end);
    first [same_cursor | by apply Update_enter_cursor | by apply Update_quit_cursor].
Qed.

Lemma Update_browsing_cursor env m disk k :
  three_columns (board m) → sizes_ok (board m) → cursor_ok m →
  keeps_cursor (Update_browsing env m disk k).
Proof.
  intros H3 Hs Hok. pose proof Hok as [Hc Ht]. unfold Update_browsing.
  destruct (index_in_range (Columns (board m)) (cursorColumn m)) as [col Hcol];
    [int_arith|].
  pose proof (tasks_of_index _ _ _ Hcol) as Htasks.
  pose proof (sizes_ok_tasks_of _ (cursorColumn m) Hs) as Hsz.
  rewrite Htasks in *.
  assert (wrap (len (Columns (board m)) - 1) = 2) as Hlast
    by (rewrite H3; by vm_compute).
  rewrite Hlast, Hcol.
  repeat (match goal with |- context [key_in k ?ks] => destruct (key_in k ks) end);
    try same_cursor; try (by apply Update_quit_cursor); cbn.
  - (* e *)
    repeat case_bool_decide; try same_cursor.
    destruct (index_in_range (Column.Tasks col) (cursorTask m)) as [task ->].
    { rewrite max_1_len, bool_decide_eq_true_2 in Ht by done. lia. }
    cbn. same_cursor.
  - (* d *) repeat case_bool_decide; same_cursor.
  - (* up, k *)
    case_bool_decide as Hlen; [|same_cursor].
    rewrite updateViewportContent_in_range by done. cbn.
    apply keeps_cursor_intro; [done|]. unfold cursor_ok. cbn.
    rewrite Htasks. rewrite max_1_len, bool_decide_eq_true_2 in * by done.
    rewrite wrap_id by int_arith. unfold max.
    repeat case_bool_decide; int_arith.
  - (* down, j *)
    case_bool_decide as Hlen; [|same_cursor].
    rewrite updateViewportContent_in_range by done. cbn.
    apply keeps_cursor_intro; [done|]. unfold cursor_ok. cbn.
    rewrite Htasks. rewrite max_1_len, bool_decide_eq_true_2 in * by done.
    rewrite !wrap_id by int_arith. unfold min.
    repeat case_bool_decide; int_arith.
  - (* left, h *)
    case_bool_decide; [|same_cursor].
    rewrite wrap_id by int_arith.
    rewrite updateViewportContent_in_range by (cbn; int_arith). cbn.
    apply keeps_cursor_intro; [done|]. unfold cursor_ok. cbn.
    pose proof (len_nonneg (tasks_of (board m) (cursorColumn m - 1))).
    rewrite max_1_len. case_bool_decide; int_arith.
  - (* right, l *)
    case_bool_decide; [|same_cursor].
    rewrite wrap_id by int_arith.
    rewrite updateViewportContent_in_range by (cbn; int_arith). cbn.
    apply keeps_cursor_intro; [done|]. unfold cursor_ok. cbn.
    pose proof (len_nonneg (tasks_of (board m) (cursorColumn m + 1))).
    rewrite max_1_len. case_bool_decide; int_arith.
  - (* [, { *)
    case_bool_decide; [|same_cursor].
    rewrite wrap_id by int_arith.
    apply Update_move_cursor; try done; try int_arith.
    rewrite wrap_id; int_arith.
  - (* ], } *)
    case_bool_decide; [|same_cursor].
    rewrite wrap_id by int_arith.
    apply Update_move_cursor; try done; try int_arith.
    rewrite wrap_id; int_arith.
Qed.

Lemma Update_WindowSizeMsg_cursor m disk w h :
  three_columns (board m) → cursor_ok m →
  keeps_cursor (Update_WindowSizeMsg m disk w h).
Proof.
  intros H3 Hok. unfold Update_WindowSizeMsg. cbn.
  rewrite bool_decide_eq_false_2 by int_arith.
  rewrite !updateViewportContent_in_range by (done || lia). cbn. same_cursor.
Qed.

(** C1 (cursor invariant). From a model with its three columns and a cursor in
    range, every transition (any key in any mode or dialog, a window size,
    any other message) returns, and returns a model with its three columns
    and a cursor in range: [0 <= cursorColumn < 3] and
    [0 <= cursorTask < max(1, len(tasks of that column))]. *)
Theorem cursor_invariant (env : Env) (m : model) (disk : Disk) (msg : Msg) :
  three_columns (board m) → sizes_ok (board m) → cursor_ok m →
  ∃ m' disk' cmd,
    Update env m disk msg = Some (m', disk', cmd)
    ∧ three_columns (board m')
    ∧ 0 ≤ cursorColumn m' < 3
    ∧ 0 ≤ cursorTask m' < max 1 (len (tasks_of (board m') (cursorColumn m'))).
Proof.
  intros H3 Hs Hok.
  enough (keeps_cursor (Update env m disk msg)) as (m' & disk' & cmd & ? & ? & ?)
    by (by exists m', disk', cmd).
  destruct msg as [k|w h|]; cbn.
  - case_bool_decide; [by apply Update_DeleteDialog_cursor|].
    destruct (inputMode m);
      [by apply Update_inputMode_cursor|by apply Update_browsing_cursor].
  - by apply Update_WindowSizeMsg_cursor.
  - same_cursor.
Qed.

(** The model that [initialModel] returns has its cursor in range, and its
    three columns when there is no file yet. *)
Lemma initialModel_cursor ti r disk : cursor_ok (initialModel ti r disk).
Proof.
  unfold initialModel, loadBoard.
  destruct (loadBoard_fields _ _ _ _) as [[b l] [e|]]; cbn;
    (split; cbn; [lia|]); rewrite max_1_len; case_bool_decide; lia.
Qed.

Lemma initialModel_no_file ti :
  three_columns (board (initialModel ti ReadDone None)).
Proof. reflexivity. Qed.
End Cursor.

Lemma cursor_invariant_witness :
  ∃ m' disk' cmd,
    @Update line_buffer decimal_time sample_env sample_model None (KeyMsg "]")
      = Some (m', disk', cmd)
    ∧ three_columns (board m')
    ∧ 0 ≤ cursorColumn m' < 3
    ∧ 0 ≤ cursorTask m' < max 1 (len (tasks_of (board m') (cursorColumn m'))).
Proof.
  apply (@cursor_invariant line_buffer decimal_time).
  - reflexivity.
  - unfold sizes_ok. by_computation.
  - unfold cursor_ok. by_computation.
Defined.

(** ** The delete confirmation *)

Section DeleteDialog.
Context `{TextInput} `{TimeCodec}.

Lemma save_noting_error_disk env m disk :
  (save_noting_error env m disk).2 = (saveBoard env m disk).1.
Proof.
  unfold save_noting_error. by destruct (saveBoard env m disk) as [d [e|]].
Qed.




End DeleteDialog.


(** ** Moving between columns *)

Section Columns.
Context `{TextInput} `{TimeCodec}.

Lemma Update_browsing_key env m disk k :
  dialogType m ≠ DeleteDialog → inputMode m = false →
  Update env m disk (KeyMsg k) = Update_browsing env m disk k.
Proof. intros Hd Hi. cbn. by rewrite bool_decide_eq_false_2, Hi. Qed.

(** C10 (changing column resets the row). Browsing, [left] or [h] with a
    column on the left, and [right] or [l] with a column on the right, move
    the cursor to that column and to its row 0, whatever the row was and
    however many tasks the column holds; nothing else changes. *)
Theorem column_change_resets_row (env : Env) (m : model) (disk : Disk) (k : string) :
  three_columns (board m) → 0 ≤ cursorColumn m < 3 →
  dialogType m ≠ DeleteDialog → inputMode m = false →
  (k ∈ ["left"; "h"] → cursorColumn m > 0 →
   Update env m disk (KeyMsg k)
   = Some (set_cursorTask 0 (set_cursorColumn (cursorColumn m - 1) m), disk, CmdNil))
  ∧ (k ∈ ["right"; "l"] → cursorColumn m < 2 →
     Update env m disk (KeyMsg k)
     = Some (set_cursorTask 0 (set_cursorColumn (cursorColumn m + 1) m), disk, CmdNil)).
Proof.
  intros H3 Hc Hd Hi. rewrite Update_browsing_key by done.
  assert (wrap (len (Columns (board m)) - 1) = 2) as Hlast
    by (rewrite H3; by vm_compute).
  split; intros Hk Hside; unfold Update_browsing; rewrite Hlast;
    set_unfold; destruct Hk as [->|[->|[]]]; eval_keys; cbn;
    rewrite bool_decide_eq_true_2 by done;
    rewrite wrap_id by int_arith;
    by rewrite updateViewportContent_in_range by (cbn; int_arith).
Qed.

Lemma moved_tasks m dst task :
  three_columns (board m) → 0 ≤ cursorColumn m < 3 → 0 ≤ dst < 3 →
  dst ≠ cursorColumn m →
  let ts := tasks_of (board m) (cursorColumn m) in
  let b' := board (moved m dst task) in
  tasks_of b' dst = tasks_of (board m) dst ++ [task]
  ∧ tasks_of b' (cursorColumn m)
    = take (Z.to_nat (cursorTask m)) ts ++ drop (S (Z.to_nat (cursorTask m))) ts
  ∧ (∀ c, c ≠ cursorColumn m → c ≠ dst → tasks_of b' c = tasks_of (board m) c).
Proof.
  intros H3 Hc Hd Hne ts b'. unfold b', moved. cbn. fold ts. split; [|split].
  - rewrite tasks_of_set_tasks_eq by (rewrite len_Columns_set_tasks; int_arith). done.
  - rewrite tasks_of_set_tasks_ne by lia.
    by rewrite tasks_of_set_tasks_eq by int_arith.
  - intros c Hc1 Hc2. by rewrite !tasks_of_set_tasks_ne by lia.
Qed.

Lemma moved_task_count m dst task :
  three_columns (board m) → 0 ≤ cursorColumn m < 3 → 0 ≤ dst < 3 →
  dst ≠ cursorColumn m →
  0 ≤ cursorTask m < len (tasks_of (board m) (cursorColumn m)) →
  task_count (board (moved m dst task)) = task_count (board m).
Proof.
  intros H3 Hc Hd Hne Ht. unfold moved. cbn.
  rewrite task_count_set_tasks by (rewrite len_Columns_set_tasks; int_arith).
  rewrite tasks_of_set_tasks_ne by lia.
  rewrite task_count_set_tasks by int_arith.
  rewrite (len_take_drop _ _ Ht), len_app. change (len [task]) with 1. lia.
Qed.

(** C7 (moving a task). Browsing with the cursor on a task, [[] or [{] with
    a column on the left, and []] or [}] with a column on the right, move
    that task to the end of that column: the number of tasks on the board
    is the same, the task is the last one of its new column with every
    field as it was, the other tasks keep their columns and their order, the
    cursor is on the moved task, and the board is saved. *)
Theorem move_task (env : Env) (m : model) (disk : Disk) (k : string)
    (dst : Z) (task : Task.t) :
  three_columns (board m) → sizes_ok (board m) → 0 ≤ cursorColumn m < 3 →
  dialogType m ≠ DeleteDialog → inputMode m = false →
  index (tasks_of (board m) (cursorColumn m)) (cursorTask m) = Some task →
  0 ≤ dst < 3 →
  (k ∈ ["["; "{"] ∧ dst = cursorColumn m - 1)
  ∨ (k ∈ ["]"; "}"] ∧ dst = cursorColumn m + 1) →
  let src := cursorColumn m in
  let ts := tasks_of (board m) src in
  ∃ m' disk',
    Update env m disk (KeyMsg k) = Some (m', disk', CmdNil)
    ∧ task_count (board m') = task_count (board m)
    ∧ tasks_of (board m') dst = tasks_of (board m) dst ++ [task]
    ∧ tasks_of (board m') src
      = take (Z.to_nat (cursorTask m)) ts ++ drop (S (Z.to_nat (cursorTask m))) ts
    ∧ (∀ c, c ≠ src → c ≠ dst → tasks_of (board m') c = tasks_of (board m) c)
    ∧ cursorColumn m' = dst
    ∧ cursorTask m' = len (tasks_of (board m') dst) - 1
    ∧ index (tasks_of (board m') (cursorColumn m')) (cursorTask m') = Some task
    ∧ disk' = (saveBoard env m' disk).1.
Proof.
  intros H3 Hs Hc Hd Hi Htask Hdst Hk src ts.
  rewrite Update_browsing_key by done.
  assert (wrap (len (Columns (board m)) - 1) = 2) as Hlast
    by (rewrite H3; by vm_compute).
  pose proof Htask as [Ht _]%index_Some.
  assert (dst ≠ src) as Hne by (unfold src; lia).
  assert (Update_browsing env m disk k
          = Some (save_noting_error env (moved m dst task) disk, CmdNil)) as ->.
  { unfold Update_browsing. rewrite Hlast. set_unfold.
    destruct Hk as [[[->|[->|[]]] ->]|[[->|[->|[]]] ->]]; eval_keys; cbn;
      rewrite bool_decide_eq_true_2 by lia;
      rewrite wrap_id by int_arith;
      apply Update_move_spec; try done; rewrite wrap_id; int_arith. }
  pose proof (save_noting_error_geometry env (moved m dst task) disk) as Hg.
  pose proof (save_noting_error_disk env (moved m dst task) disk) as Hdisk.
  destruct (save_noting_error _ _ _) as [m' disk'].
  assert (board m' = board (moved m dst task) ∧ cursorColumn m' = dst
          ∧ cursorTask m' = len (tasks_of (board m) dst)) as (Hb & Hcc & Hct)
    by (by injection Hg).
  cbn in Hdisk.
  destruct (moved_tasks m dst task) as (Hdst' & Hsrc' & Hrest'); [done..|].
  exists m', disk'. split; [done|]. rewrite Hb, Hcc, Hct.
  split; [by apply moved_task_count|].
  split; [done|]. split; [done|]. split; [done|]. split; [done|].
  rewrite Hdst', len_app. change (len [task]) with 1.
  split; [lia|]. split.
  - apply index_Some. rewrite len_app. change (len [task]) with 1.
    pose proof (len_nonneg (tasks_of (board m) dst)). split; [lia|].
    unfold len. rewrite Nat2Z.id. by rewrite lookup_app_r, Nat.sub_diag.
  - rewrite Hdisk. unfold saveBoard. by rewrite Hb.
Qed.

End Columns.

Lemma column_change_resets_row_witness :
  @Update line_buffer decimal_time sample_env sample_model None (KeyMsg "l")
  = Some (set_cursorTask 0 (set_cursorColumn 1 sample_model), None, CmdNil).
Proof.
  apply (@column_change_resets_row line_buffer decimal_time
           sample_env sample_model None "l").
  - reflexivity.
  - by_computation.
  - discriminate.
  - reflexivity.
  - by_computation.
  - by_computation.
Defined.

Lemma move_task_witness :
  ∃ m' disk',
    @Update line_buffer decimal_time sample_env sample_model None (KeyMsg "]")
      = Some (m', disk', CmdNil)
    ∧ task_count (board m') = 2
    ∧ tasks_of (board m') 1 = [Task.mk 2 "Review" "" 0]
    ∧ tasks_of (board m') 0 = [Task.mk 1 "Write spec" "" 0]
    ∧ (∀ c, c ≠ 0 → c ≠ 1 → tasks_of (board m') c = tasks_of sample_board c)
    ∧ cursorColumn m' = 1
    ∧ cursorTask m' = len (tasks_of (board m') 1) - 1
    ∧ index (tasks_of (board m') (cursorColumn m')) (cursorTask m')
      = Some (Task.mk 2 "Review" "" 0)
    ∧ disk' = (@saveBoard line_buffer decimal_time sample_env m' None).1.
Proof.
  apply (@move_task line_buffer decimal_time sample_env sample_model None "]" 1
           (Task.mk 2 "Review" "" 0)).
  - reflexivity.
  - unfold sizes_ok. by_computation.
  - by_computation.
  - discriminate.
  - reflexivity.
  - reflexivity.
  - by_computation.
  - right. split; [by_computation|reflexivity].
Defined.

(** ** Quitting *)

Section Quit.
Context `{TextInput} `{TimeCodec}.

(** C8, as the code has it. Browsing, [q] or [ctrl+c] saves the board. When
    the write fails, the error is kept in the model, where the view shows
    it, and the transition returns no command: the program does not quit,
    and stays as it was. When the write succeeds, the command is
    [tea.Quit]. *)
Theorem quit_saves_first (env : Env) (m : model) (disk : Disk) (k : string) :
  dialogType m ≠ DeleteDialog → inputMode m = false → k ∈ ["ctrl+c"; "q"] →
  match write env with
  | WriteFailed e after =>
      Update env m disk (KeyMsg k) = Some (set_err (Some e) m, after, CmdNil)
  | Written =>
      Update env m disk (KeyMsg k)
      = Some (m, Some (Document (KanbanBoard_MarshalJSON (board m))), tea_Quit)
  end.
Proof.
  intros Hd Hi Hk. rewrite Update_browsing_key by done.
  unfold Update_browsing, Update_quit, saveBoard, saveBoard_file.
  set_unfold. destruct Hk as [->|[->|[]]]; eval_keys; by destruct (write env).
Qed.

End Quit.

Lemma quit_saves_first_witness :
  @Update line_buffer decimal_time failing_env sample_model None (KeyMsg "q")
  = Some (set_err (Some "permission denied") sample_model, None, CmdNil).
Proof.
  apply (@quit_saves_first line_buffer decimal_time failing_env sample_model None "q").
  - discriminate.
  - reflexivity.
  - by_computation.
Defined.

(** C8, as the claim has it, fails: the write fails and the program does not
    quit; the next key is handled as usual. *)
Lemma failed_save_does_not_quit :
  ∃ m' disk',
    @Update line_buffer decimal_time failing_env sample_model None (KeyMsg "q")
      = Some (m', disk', CmdNil)
    ∧ CmdNil ≠ tea_Quit
    ∧ err m' = Some "permission denied"
    ∧ @run line_buffer decimal_time sample_model None
        [(failing_env, KeyMsg "q"); (sample_env, KeyMsg "k")]
      = Some (set_cursorTask 0 m', None).
Proof.
  exists (set_err (Some "permission denied") sample_model), None.
  split; [by vm_compute|]. split; [discriminate|]. split; by vm_compute.
Qed.

(** ** The text entry *)

Section TextEntry.
Context `{TextInput} `{TimeCodec}.

Lemma Update_inputMode_key env m disk k :
  dialogType m ≠ DeleteDialog → inputMode m = true →
  Update env m disk (KeyMsg k) = Update_inputMode env m disk k.
Proof. intros Hd Hi. cbn. by rewrite bool_decide_eq_false_2, Hi. Qed.

(** [enter] commits in the same way in both modes of the entry. *)
Lemma Update_enter_any_mode env m disk s :
  Update_enter env (set_inputState s m) disk = Update_enter env m disk.
Proof.
  unfold Update_enter. cbn.
  destruct (bool_decide (dialogType m = EditDialog)), (editingTask m) as [p|];
    try done; case_bool_decide; try done; cbn;
    by destruct (index (Columns (board m)) (cursorColumn m)).
Qed.

(** C9, as the code has it. In the normal mode of the text entry, [i] goes
    to insert mode; [esc] or [ctrl+c] closes the entry, with the buffer
    reset and the board and the disk as they were; [enter] commits as it
    does in insert mode; [q] saves the board, and quits when the write has
    succeeded, else keeps the error and the entry; [?] shows or hides the
    help; and every other key is passed to the text input, as it is in
    insert mode: the buffer takes it as input, and nothing else changes. *)
Theorem normal_mode_keys (env : Env) (m : model) (disk : Disk) (k : string) :
  dialogType m ≠ DeleteDialog → inputMode m = true → inputState m = NormalMode →
  let inserting := set_inputState InsertMode m in
  Update env m disk (KeyMsg "i") = Some (inserting, disk, CmdNil)
  ∧ (k ∈ ["esc"; "ctrl+c"] →
     ∃ m', Update env m disk (KeyMsg k) = Some (m', disk, CmdNil)
       ∧ inputMode m' = false ∧ dialogType m' = NoDialog ∧ editingTask m' = None
       ∧ textInput m' = Reset (textInput m)
       ∧ geometry m' = geometry m ∧ lastID m' = lastID m)
  ∧ Update env m disk (KeyMsg "enter") = Update env inserting disk (KeyMsg "enter")
  ∧ Update env m disk (KeyMsg "q")
    = match write env with
      | Written =>
          Some (m, Some (Document (KanbanBoard_MarshalJSON (board m))), tea_Quit)
      | WriteFailed e after => Some (set_err (Some e) m, after, CmdNil)
      end
  ∧ Update env m disk (KeyMsg "?")
    = Some (set_showHelp (negb (showHelp m)) m, disk, CmdNil)
  ∧ (k ∉ ["i"; "esc"; "ctrl+c"; "enter"; "q"; "?"] →
     let m' := set_textInput (textinput_Update (textInput m) (KeyMsg k)) m in
     Update env m disk (KeyMsg k) = Some (m', disk, textinput_Cmd)
     ∧ Update env inserting disk (KeyMsg k)
       = Some (set_inputState InsertMode m', disk, textinput_Cmd)).
Proof.
  intros Hd Hi Hs inserting. unfold inserting.
  rewrite !Update_inputMode_key by done. unfold Update_inputMode.
  rewrite Hs. cbn. split; [|split; [|split; [|split; [|split]]]].
  - by eval_keys.
  - set_unfold. intros [->|[->|[]]]; eval_keys; by eexists.
  - eval_keys. by rewrite Update_enter_any_mode.
  - eval_keys. unfold Update_quit, saveBoard, saveBoard_file.
    by destruct (write env).
  - by eval_keys.
  - intros Hk. unfold key_in, Update_textInput.
    rewrite !bool_decide_eq_false_2
      by (intros Hin; apply Hk; clear Hk; set_unfold; tauto).
    done.
Qed.

(** C3, as the code has it. [enter] in the entry for a new task, with an
    empty buffer, closes the entry and creates nothing: the board, the id
    counter and the disk are as they were. With a buffer that is not empty,
    be it blanks only, it appends a task with that title, and with the next
    id, to the column under the cursor. Either way, no task that it adds
    has an empty title. *)
Theorem add_commit (env : Env) (m : model) (disk : Disk) :
  dialogType m = NoDialog → inputMode m = true →
  0 ≤ cursorColumn m < len (Columns (board m)) →
  let title := Value (textInput m) in
  ∃ m' disk',
    Update env m disk (KeyMsg "enter") = Some (m', disk', CmdNil)
    ∧ inputMode m' = false
    ∧ (title = "" → board m' = board m ∧ lastID m' = lastID m ∧ disk' = disk)
    ∧ (title ≠ "" →
       tasks_of (board m') (cursorColumn m)
       = tasks_of (board m) (cursorColumn m)
         ++ [Task.mk (wrap (lastID m + 1)) title "" (now env)]
       ∧ (∀ c, c ≠ cursorColumn m → tasks_of (board m') c = tasks_of (board m) c)
       ∧ lastID m' = wrap (lastID m + 1))
    ∧ (∀ c t, t ∈ tasks_of (board m') c →
       t ∈ tasks_of (board m) c ∨ Task.Title t ≠ "").
Proof.
  intros Hd Hi Hc title.
  rewrite Update_inputMode_key by (done || by rewrite Hd).
  assert (Update_inputMode env m disk "enter" = Update_enter env m disk) as ->.
  { unfold Update_inputMode. by destruct (inputState m); eval_keys. }
  unfold Update_enter. rewrite Hd.
  rewrite (bool_decide_eq_false_2 (NoDialog = EditDialog)) by done. fold title.
  destruct (index_in_range _ _ Hc) as [col Hcol].
  pose proof (tasks_of_index _ _ _ Hcol) as Htasks.
  case_bool_decide as Htitle.
  - cbn. rewrite Hcol. cbn.
    match goal with |- context [save_noting_error ?e ?x ?d] =>
      pose proof (save_noting_error_geometry e x d) as Hg;
      assert (inputMode (save_noting_error e x d).1 = false
              ∧ lastID (save_noting_error e x d).1 = wrap (lastID m + 1))
        as [Him Hl]
        by (unfold save_noting_error; by destruct (saveBoard e x d) as [? [?|]]);
      destruct (save_noting_error e x d) as [m' disk'] end.
    cbn in Hg, Him, Hl. injection Hg as Hb _ _.
    exists m', disk'. rewrite Hb, <- Htasks.
    split; [done|]. split; [done|]. split; [done|]. split.
    + intros _. split; [by apply tasks_of_set_tasks_eq|]. split; [|done].
      intros c Hne. apply tasks_of_set_tasks_ne; [lia|done].
    + intros c t Ht. destruct (decide (c = cursorColumn m)) as [->|Hne].
      * rewrite tasks_of_set_tasks_eq in Ht by done.
        apply elem_of_app in Ht as [Ht|Ht]; [by left|].
        apply list_elem_of_singleton in Ht as ->. by right.
      * rewrite tasks_of_set_tasks_ne in Ht by lia. by left.
  - exists (set_inputState NormalMode (set_inputMode false m)), disk.
    split; [done|]. split; [done|]. split; [done|]. split; [done|].
    intros c t Ht. by left.
Qed.

End TextEntry.

Lemma normal_mode_keys_witness :
  let m := entry_in_normal_mode in
  let inserting := set_inputState InsertMode m in
  @Update line_buffer decimal_time sample_env m None (KeyMsg "i")
    = Some (inserting, None, CmdNil)
  ∧ ("x" ∈ ["esc"; "ctrl+c"] →
     ∃ m', @Update line_buffer decimal_time sample_env m None (KeyMsg "x")
            = Some (m', None, CmdNil)
       ∧ inputMode m' = false ∧ dialogType m' = NoDialog ∧ editingTask m' = None
       ∧ textInput m' = @Reset line_buffer (textInput m)
       ∧ geometry m' = geometry m ∧ lastID m' = lastID m)
  ∧ @Update line_buffer decimal_time sample_env m None (KeyMsg "enter")
    = @Update line_buffer decimal_time sample_env inserting None (KeyMsg "enter")
  ∧ @Update line_buffer decimal_time sample_env m None (KeyMsg "q")
    = Some (m, Some (Document (@KanbanBoard_MarshalJSON decimal_time (board m))),
            tea_Quit)
  ∧ @Update line_buffer decimal_time sample_env m None (KeyMsg "?")
    = Some (set_showHelp (negb (showHelp m)) m, None, CmdNil)
  ∧ ("x" ∉ ["i"; "esc"; "ctrl+c"; "enter"; "q"; "?"] →
     let m' := @set_textInput line_buffer ("abx" : string) m in
     @Update line_buffer decimal_time sample_env m None (KeyMsg "x")
       = Some (m', None, textinput_Cmd)
     ∧ @Update line_buffer decimal_time sample_env inserting None (KeyMsg "x")
       = Some (set_inputState InsertMode m', None, textinput_Cmd)).
Proof.
  apply (@normal_mode_keys line_buffer decimal_time sample_env
           entry_in_normal_mode None "x").
  - discriminate.
  - reflexivity.
  - reflexivity.
Defined.

(** C9, as the claim has it, fails: [a], then [a] and [b] typed, then [esc]
    lead to the normal mode of the entry for a new task, with [ab] in the
    buffer; [x] typed there is put into the buffer. *)
Lemma normal_mode_takes_characters :
  ∃ m1 m2,
    @run line_buffer decimal_time sample_model None (keys ["a"; "a"; "b"; "esc"])
      = Some (m1, None)
    ∧ inputMode m1 = true ∧ inputState m1 = NormalMode ∧ dialogType m1 = NoDialog
    ∧ @Value line_buffer (textInput m1) = "ab"
    ∧ @Update line_buffer decimal_time sample_env m1 None (KeyMsg "x")
      = Some (m2, None, textinput_Cmd)
    ∧ inputState m2 = NormalMode
    ∧ @Value line_buffer (textInput m2) = "abx"
    ∧ @Value line_buffer (textInput m2) ≠ @Value line_buffer (textInput m1).
Proof.
  exists entry_in_normal_mode, (@set_textInput line_buffer ("abx" : string) entry_in_normal_mode).
  repeat split; try by vm_compute.
Qed.

Lemma add_commit_witness :
  let m := entry_just_opened in
  let title := @Value line_buffer (textInput m) in
  ∃ m' disk',
    @Update line_buffer decimal_time sample_env m None (KeyMsg "enter")
      = Some (m', disk', CmdNil)
    ∧ inputMode m' = false
    ∧ (title = "" → board m' = board m ∧ lastID m' = lastID m ∧ disk' = None)
    ∧ (title ≠ "" →
       tasks_of (board m') (cursorColumn m)
       = tasks_of (board m) (cursorColumn m)
         ++ [Task.mk (wrap (lastID m + 1)) title "" (now sample_env)]
       ∧ (∀ c, c ≠ cursorColumn m → tasks_of (board m') c = tasks_of (board m) c)
       ∧ lastID m' = wrap (lastID m + 1))
    ∧ (∀ c t, t ∈ tasks_of (board m') c →
       t ∈ tasks_of (board m) c ∨ Task.Title t ≠ "").
Proof.
  apply (@add_commit line_buffer decimal_time sample_env entry_just_opened None).
  - reflexivity.
  - reflexivity.
  - by_computation.
Defined.

(** C3, as the claim has it, fails: [a] opens the entry for a new task; two
    blanks typed and [enter] add a task whose title is the two blanks, and
    the id counter goes from 2 to 3. *)
Lemma blank_title_is_added :
  ∃ m1 m2 disk2,
    @run line_buffer decimal_time sample_model None (keys ["a"; " "; " "])
      = Some (m1, None)
    ∧ inputMode m1 = true ∧ dialogType m1 = NoDialog
    ∧ @Value line_buffer (textInput m1) = "  "
    ∧ @Update line_buffer decimal_time sample_env m1 None (KeyMsg "enter")
      = Some (m2, disk2, CmdNil)
    ∧ tasks_of (board m2) 0
      = tasks_of (board m1) 0 ++ [Task.mk 3 "  " "" 1700000000]
    ∧ task_count (board m1) = 2 ∧ task_count (board m2) = 3
    ∧ lastID m1 = 2 ∧ lastID m2 = 3.
Proof.
  eexists _, _, _. repeat split; by vm_compute.
Qed.

(** ** Editing a title *)

Section Saving.
Context `{TextInput} `{TimeCodec}.

Lemma save_noting_error_model env m disk :
  ∃ e, (save_noting_error env m disk).1 = set_err e m.
Proof.
  unfold save_noting_error. destruct (saveBoard env m disk) as [d [e|]].
  - by exists (Some e).
  - exists (err m). by destruct m.
Qed.

End Saving.

(** Takes a transition that returned apart, one test after the other. *)
Ltac cases_of HU :=
  repeat (cbn in HU;
    lazymatch type of HU with
    | (let '(_, _) := save_noting_error ?e ?x ?d in _) = Some _ =>
        let e' := fresh "e" in let He := fresh "He" in
        destruct (save_noting_error_model e x d) as [e' He];
        destruct (save_noting_error e x d) as [? ?]; cbn in He; subst
    | (if ?b then _ else _) = Some _ => destruct b eqn:?
    | (match ?x with _ => _ end) = Some _ => destruct x eqn:?
    | (?x ≫= _) = Some _ => destruct x eqn:?
    end);
  try discriminate HU.

Section Editing.
Context `{TextInput} `{TimeCodec}.

Lemma tasks_of_store_Title p v b task :
  index (tasks_of b p.1) p.2 = Some task →
  tasks_of (store_Title p v b) p.1
  = alter (Task.with_Title v) (Z.to_nat p.2) (tasks_of b p.1)
  ∧ ∀ c, c ≠ p.1 → tasks_of (store_Title p v b) c = tasks_of b c.
Proof.
  intros Htask. pose proof (tasks_of_nonempty_in_range _ _ _ _ Htask) as Hp.
  unfold store_Title. rewrite Htask. split.
  - by apply tasks_of_set_tasks_eq.
  - intros c Hc. apply tasks_of_set_tasks_ne; [lia|done].
Qed.

(** What [enter] does in the edit dialog: the title of the task that
    [editingTask] points to becomes the buffer, whatever the buffer holds;
    the other fields of the task, the other tasks and the id counter stay,
    the dialog closes, the board is saved. *)
Lemma edit_commit env m disk p task :
  dialogType m = EditDialog → inputMode m = true → editingTask m = Some p →
  index (tasks_of (board m) p.1) p.2 = Some task →
  ∃ m' disk',
    Update env m disk (KeyMsg "enter") = Some (m', disk', CmdNil)
    ∧ index (tasks_of (board m') p.1) p.2
      = Some (Task.mk (Task.ID task) (Value (textInput m))
                (Task.Description task) (Task.CreatedAt task))
    ∧ (∀ i, i ≠ Z.to_nat p.2 →
       tasks_of (board m') p.1 !! i = tasks_of (board m) p.1 !! i)
    ∧ (∀ c, c ≠ p.1 → tasks_of (board m') c = tasks_of (board m) c)
    ∧ lastID m' = lastID m
    ∧ inputMode m' = false ∧ dialogType m' = NoDialog ∧ editingTask m' = None
    ∧ disk' = (saveBoard env m' disk).1.
Proof.
  intros Hd Hi Hp Htask.
  rewrite Update_inputMode_key by (done || by rewrite Hd).
  assert (Update_inputMode env m disk "enter" = Update_enter env m disk) as ->.
  { unfold Update_inputMode. by destruct (inputState m); eval_keys. }
  unfold Update_enter. rewrite Hd, Hp.
  rewrite (bool_decide_eq_true_2 (EditDialog = EditDialog)) by done.
  match goal with |- context [save_noting_error ?e ?x ?d] =>
    pose proof (save_noting_error_disk e x d) as Hdisk;
    assert (board (save_noting_error e x d).1 = board x
            ∧ lastID (save_noting_error e x d).1 = lastID x
            ∧ inputMode (save_noting_error e x d).1 = inputMode x
            ∧ dialogType (save_noting_error e x d).1 = dialogType x
            ∧ editingTask (save_noting_error e x d).1 = editingTask x)
      as (Hb & Hl & Him & Hdt & Het)
      by (unfold save_noting_error; by destruct (saveBoard e x d) as [? [?|]]);
    destruct (save_noting_error e x d) as [m' disk'] end.
  cbn in Hb, Hl, Him, Hdt, Het, Hdisk.
  destruct (tasks_of_store_Title p (Value (textInput m)) (board m) task Htask)
    as [Hsame Hother].
  pose proof Htask as [Hrange Hlookup]%index_Some.
  exists m', disk'. rewrite Hb. split; [done|].
  split; [|split; [|split; [done|]]].
  - rewrite Hsame. apply index_Some. split.
    + unfold len in *. by rewrite length_alter.
    + by rewrite list_lookup_alter_eq, Hlookup.
  - intros i Hne. by rewrite Hsame, list_lookup_alter_ne.
  - repeat (split; [done|]). rewrite Hdisk. unfold saveBoard. cbn. by rewrite Hb.
Qed.

(** While the pointer is set, no transition changes the board or the
    cursor: a transition leaves them and the pointer as they are, or clears
    the pointer. (And a transition that sets the pointer takes the address
    of the task under the cursor.) *)
Lemma editing_alias env m disk msg m' disk' cmd :
  editing_bound m →
  Update env m disk msg = Some (m', disk', cmd) →
  editing_bound m'
  ∧ (editingTask m ≠ None →
     editingTask m' = None
     ∨ (editingTask m' = editingTask m ∧ geometry m' = geometry m)).
Proof.
  unfold editing_bound. intros Hb HU.
  destruct (editingTask m) as [p|] eqn:Hp.
  - destruct Hb as (Hi & Hd & -> & Hidx).
    destruct msg as [k|w h|].
    + rewrite Update_inputMode_key in HU by (done || by rewrite Hd).
      unfold Update_inputMode, Update_enter, Update_quit, Update_textInput in HU.
      rewrite Hd, Hp in HU.
      rewrite (bool_decide_eq_true_2 (EditDialog = EditDialog)) in HU by done.
      cases_of HU; simplify_eq/=; rewrite ?Hp;
        first [ by (split; [done|intros _; left])
              | by (split; [done|intros _; right]) ].
    + unfold Update, Update_WindowSizeMsg in HU. cbn in HU.
      cases_of HU; simplify_eq/=. rewrite Hp.
      split; [done|intros _; by right].
    + simplify_eq/=. rewrite Hp. split; [done|intros _; by right].
  - split; [|done].
    unfold Update, Update_DeleteDialog, Update_inputMode, Update_browsing,
      Update_WindowSizeMsg, Update_enter, Update_quit, Update_textInput,
      Update_move in HU.
    rewrite ?Hp in HU.
    destruct msg as [k|w h|]; cases_of HU; simplify_eq/=;
      repeat case_bool_decide; cbn; rewrite ?Hp; try done;
      repeat (split; [done|]); erewrite tasks_of_index by eassumption; by eexists.
Qed.

End Editing.

(** C4, the defect: [e] on the task [Review], six times [backspace] and
    [enter] leave the task with an empty title, on the board and in the
    file. *)
Theorem edit_commit_accepts_empty_title :
  @run line_buffer decimal_time sample_model None
    (keys ["e"; "backspace"; "backspace"; "backspace"; "backspace"; "backspace";
           "backspace"])
  = Some (editing_emptied, None)
  ∧ ∃ m' disk',
      @Update line_buffer decimal_time sample_env editing_emptied None (KeyMsg "enter")
        = Some (m', disk', CmdNil)
      ∧ dialogType m' = NoDialog ∧ inputMode m' = false
      ∧ tasks_of (board m') 0 = [Task.mk 1 "Write spec" "" 0; Task.mk 2 "" "" 0]
      ∧ disk' = Some (Document (@KanbanBoard_MarshalJSON decimal_time (board m'))).
Proof.
  split; [by vm_compute|]. eexists _, _. repeat split; by vm_compute.
Qed.

(** ** The snapshot file *)

Lemma decimal_time_roundtrip : @time_roundtrip decimal_time.
Proof.
  intros t. cbn. unfold time_of_decimal, decimal_of_time.
  rewrite DecimalString.NilZero.isi.
  - simpl. by rewrite DecimalZ.of_to.
  - destruct t; simpl; try discriminate.
    intros [= E]. by apply (DecimalPos.Unsigned.to_uint_nonnil p).
  - destruct t; simpl; try discriminate.
    intros [= E]. by apply (DecimalPos.Unsigned.to_uint_nonnil p).
Qed.

Section Snapshot.
Context `{TextInput} `{TimeCodec}.

Lemma Task_roundtrip (old t : Task.t) :
  time_roundtrip → is_int (Task.ID t) →
  Task_UnmarshalJSON old (Task_MarshalJSON t) = (t, Decoded).
Proof.
  intros time_roundtrip Hid. unfold Task_UnmarshalJSON, Task_MarshalJSON, Task_field. cbn.
  eval_tags. rewrite bool_decide_eq_true_2 by done. cbn.
  rewrite time_roundtrip. cbn. by destruct t.
Qed.

#[local] Arguments Task_MarshalJSON : simpl never.
#[local] Arguments Task_UnmarshalJSON : simpl never.

Lemma Tasks_roundtrip (old ts : list Task.t) :
  time_roundtrip → Forall (λ t, is_int (Task.ID t)) ts →
  decode_items Task_UnmarshalJSON Task.zero old (Task_MarshalJSON <$> ts)
  = (ts, Decoded).
Proof.
  intros Htime Hts. revert old. induction Hts as [|t ts Ht _ IH]; intros old; [done|].
  cbn. rewrite Task_roundtrip by done. cbn. by rewrite IH.
Qed.

Lemma Column_roundtrip (old c : Column.t) :
  time_roundtrip → column_representable c →
  Column_UnmarshalJSON old (Column_MarshalJSON c) = (c, Decoded).
Proof.
  intros Htime [Hid Hts]. unfold Column_UnmarshalJSON, Column_MarshalJSON, Column_field.
  cbn. eval_tags. rewrite bool_decide_eq_true_2 by done. cbn.
  rewrite Tasks_roundtrip by done. cbn. by destruct c.
Qed.

#[local] Arguments Column_MarshalJSON : simpl never.
#[local] Arguments Column_UnmarshalJSON : simpl never.

Lemma Columns_roundtrip (old cs : list Column.t) :
  time_roundtrip → Forall column_representable cs →
  decode_items Column_UnmarshalJSON Column.zero old (Column_MarshalJSON <$> cs)
  = (cs, Decoded).
Proof.
  intros Htime Hcs. revert old. induction Hcs as [|c cs Hc _ IH]; intros old; [done|].
  cbn. rewrite Column_roundtrip by done. cbn. by rewrite IH.
Qed.

Lemma KanbanBoard_roundtrip (old b : KanbanBoard) :
  time_roundtrip → representable b →
  KanbanBoard_UnmarshalJSON old (KanbanBoard_MarshalJSON b) = (b, Decoded).
Proof.
  intros Htime Hb. unfold KanbanBoard_UnmarshalJSON, KanbanBoard_MarshalJSON.
  unfold KanbanBoard_field. cbn. eval_tags. cbn.
  rewrite Columns_roundtrip by done. cbn. by destruct b.
Qed.

(** C6 (round trip). A board that [saveBoard] has written, [loadBoard] reads
    back as it was, into whatever model: the columns, their ids and titles
    and order, the tasks of each column in their order, and of each task the
    id, the title, the description and the creation time. *)
Theorem save_load_roundtrip (env : Env) (m m0 : model) (disk : Disk) :
  time_roundtrip → representable (board m) → write env = Written →
  ∃ disk' m',
    saveBoard env m disk = (disk', None)
    ∧ loadBoard ReadDone disk' m0 = (m', None)
    ∧ board m' = board m.
Proof.
  intros Htime Hb Hw. unfold saveBoard, saveBoard_file, loadBoard, loadBoard_fields.
  rewrite Hw. exists (Some (Document (KanbanBoard_MarshalJSON (board m)))).
  rewrite KanbanBoard_roundtrip by done. by eexists.
Qed.

End Snapshot.

Lemma save_load_roundtrip_witness :
  ∃ disk' m',
    @saveBoard line_buffer decimal_time sample_env sample_model None = (disk', None)
    ∧ @loadBoard line_buffer decimal_time ReadDone disk'
        (@initialModel line_buffer decimal_time "" ReadDone None) = (m', None)
    ∧ board m' = board sample_model.
Proof.
  apply (@save_load_roundtrip line_buffer decimal_time).
  - exact decimal_time_roundtrip.
  - unfold representable, column_representable. by_computation.
  - reflexivity.
Defined.

(** ** The ids *)

Lemma elem_of_concat_alter (cols : list Column.t) (i : nat) (ts : list Task.t)
    (t : Task.t) :
  t ∈ concat (Column.Tasks <$> alter (Column.with_Tasks ts) i cols) →
  t ∈ ts ∨ t ∈ concat (Column.Tasks <$> cols).
Proof.
  revert i. induction cols as [|c cols IH]; intros i Ht; [by right|].
  destruct i as [|i]; cbn in *; apply elem_of_app in Ht as [Ht|Ht].
  - by left.
  - right. apply elem_of_app. by right.
  - right. apply elem_of_app. by left.
  - destruct (IH i Ht) as [?|?]; [by left|]. right. apply elem_of_app. by right.
Qed.

Lemma elem_of_all_tasks_set_tasks (c : Z) (ts : list Task.t) (b : KanbanBoard)
    (t : Task.t) :
  t ∈ all_tasks (set_tasks c ts b) → t ∈ ts ∨ t ∈ all_tasks b.
Proof. apply elem_of_concat_alter. Qed.

Lemma elem_of_tasks_of (b : KanbanBoard) (c : Z) (t : Task.t) :
  t ∈ tasks_of b c → t ∈ all_tasks b.
Proof.
  unfold tasks_of. destruct (index (Columns b) c) as [col|] eqn:E;
    [|by intros ?%elem_of_nil].
  apply index_Some in E as [_ E]. intros Ht. unfold all_tasks.
  apply list_elem_of_In, in_concat. exists (Column.Tasks col).
  split; [|by apply list_elem_of_In].
  apply list_elem_of_In, list_elem_of_fmap. exists col. split; [done|].
  by eapply list_elem_of_lookup_2.
Qed.

Lemma elem_of_index {A} (s : list A) (i : Z) (x : A) : index s i = Some x → x ∈ s.
Proof. intros [_ Hx]%index_Some. by eapply list_elem_of_lookup_2. Qed.

Lemma elem_of_remove {A} (s l : list A) (i : Z) (x : A) :
  remove s i = Some l → x ∈ l → x ∈ s.
Proof.
  unfold remove. case_bool_decide; [|done]. intros [= <-] Hx.
  apply elem_of_app in Hx as [Hx|Hx].
  - by eapply subseteq_take.
  - by eapply subseteq_drop.
Qed.

Lemma ids_set_tasks (c : Z) (ts : list Task.t) (b : KanbanBoard) (x : Z) :
  x ∈ ids (set_tasks c ts b) → x ∈ Task.ID <$> ts ∨ x ∈ ids b.
Proof.
  unfold ids. intros (t & -> & Ht)%list_elem_of_fmap.
  apply elem_of_all_tasks_set_tasks in Ht as [Ht|Ht];
    [left|right]; by apply list_elem_of_fmap_2.
Qed.

Lemma ids_tasks_of (b : KanbanBoard) (c : Z) (x : Z) :
  x ∈ Task.ID <$> tasks_of b c → x ∈ ids b.
Proof.
  unfold ids. intros (t & -> & Ht)%list_elem_of_fmap.
  by apply list_elem_of_fmap_2, elem_of_tasks_of with c.
Qed.

Lemma ids_alter_Title (v : string) (i : nat) (ts : list Task.t) :
  Task.ID <$> alter (Task.with_Title v) i ts = Task.ID <$> ts.
Proof.
  revert i. induction ts as [|t ts IH]; intros [|i]; cbn; try done.
  by rewrite IH.
Qed.

Lemma ids_remove (s l : list Task.t) (i x : Z) :
  remove s i = Some l → x ∈ Task.ID <$> l → x ∈ Task.ID <$> s.
Proof.
  intros Hr (t & -> & Ht)%list_elem_of_fmap.
  by apply list_elem_of_fmap_2, elem_of_remove with l i.
Qed.

Lemma ids_column (b : KanbanBoard) (c : Z) (col : Column.t) (x : Z) :
  index (Columns b) c = Some col → x ∈ Task.ID <$> Column.Tasks col → x ∈ ids b.
Proof. intros Hc Hx. apply ids_tasks_of with c. by rewrite (tasks_of_index _ _ _ Hc). Qed.

Lemma ids_snoc (s : list Task.t) (t : Task.t) (x : Z) :
  x ∈ Task.ID <$> (s ++ [t]) → x ∈ Task.ID <$> s ∨ x = Task.ID t.
Proof.
  rewrite fmap_app. intros [Hx|Hx]%elem_of_app; [by left|right].
  by apply list_elem_of_singleton in Hx.
Qed.

Lemma ids_index (s : list Task.t) (i : Z) (t : Task.t) :
  index s i = Some t → Task.ID t ∈ Task.ID <$> s.
Proof. intros Ht. by apply list_elem_of_fmap_2, elem_of_index with i. Qed.

Section Ids.
Context `{TextInput} `{TimeCodec}.

Lemma ids_store_Title p v b x : x ∈ ids (store_Title p v b) → x ∈ ids b.
Proof.
  unfold store_Title. destruct (index _ _); [|done].
  intros [Hx|Hx]%ids_set_tasks; [|done].
  rewrite ids_alter_Title in Hx. by apply ids_tasks_of with p.1.
Qed.

(** One transition: the id counter stays and no id is new on the board, or
    the counter takes the next value and the only new id is that value. *)
Lemma Update_ids env m disk msg m' disk' cmd :
  Update env m disk msg = Some (m', disk', cmd) →
  (lastID m' = lastID m ∧ ∀ x, x ∈ ids (board m') → x ∈ ids (board m))
  ∨ (lastID m' = wrap (lastID m + 1)
     ∧ ∀ x, x ∈ ids (board m') → x ∈ ids (board m) ∨ x = wrap (lastID m + 1)).
Proof.
  intros HU.
  unfold Update, Update_DeleteDialog, Update_inputMode, Update_browsing,
    Update_WindowSizeMsg, Update_enter, Update_quit, Update_textInput,
    Update_move in HU.
  destruct msg as [k|w h|]; cases_of HU; simplify_eq/=;
    repeat case_bool_decide; cbn; try (left; split; [done|]; done);
    first [ left; split; [done|] | right; split; [done|] ];
    intros x Hx;
    repeat match goal with
    | Hx : _ ∈ ids (set_tasks _ _ _) |- _ => apply ids_set_tasks in Hx as [Hx|Hx]
    | Hx : _ ∈ ids (store_Title _ _ _) |- _ => apply ids_store_Title in Hx
    | Hx : _ ∈ Task.ID <$> (_ ++ [_]) |- _ => apply ids_snoc in Hx as [Hx| ->]
    end;
    eauto using ids_remove, ids_column, ids_index.
Qed.

Lemma Update_ids_bounded env m disk msg m' disk' cmd :
  Update env m disk msg = Some (m', disk', cmd) →
  ids_bounded m → is_int (lastID m) → lastID m < int_max →
  ids_bounded m' ∧ is_int (lastID m') ∧ lastID m ≤ lastID m' ≤ lastID m + 1
  ∧ ∀ x, x ∈ ids (board m') → x ∈ ids (board m) ∨ x = lastID m + 1.
Proof.
  intros HU Hb Hint Hmax. unfold ids_bounded in *.
  assert (wrap (lastID m + 1) = lastID m + 1) as Hw by (apply wrap_id; int_arith).
  destruct (Update_ids _ _ _ _ _ _ _ HU) as [[Hl Hids]|[Hl Hids]];
    rewrite ?Hw in *; rewrite Hl.
  - split; [|split; [done|split; [lia|]]].
    + intros x Hx. by apply Hb, Hids.
    + intros x Hx. left. by apply Hids.
  - split; [|split; [int_arith|split; [lia|done]]].
    intros x Hx. destruct (Hids x Hx) as [Hx'| ->]; [|lia].
    specialize (Hb x Hx'). lia.
Qed.



Lemma highest_in_ge ts l :
  l ≤ highest_in ts l ∧ ∀ x, x ∈ Task.ID <$> ts → x ≤ highest_in ts l.
Proof.
  unfold highest_in. revert l. induction ts as [|t ts IH]; intros l; cbn.
  - split; [lia|]. by intros x ?%elem_of_nil.
  - destruct (IH (if bool_decide (Task.ID t > l) then Task.ID t else l)) as [Hl Hx].
    split; [case_bool_decide; lia|].
    intros x [->|Hin]%elem_of_cons; [case_bool_decide; lia|by apply Hx].
Qed.

Lemma highest_ID_ge b l :
  l ≤ highest_ID b l ∧ ∀ x, x ∈ ids b → x ≤ highest_ID b l.
Proof.
  unfold highest_ID, ids, all_tasks. destruct b as [cols]. cbn.
  revert l. induction cols as [|c cols IH]; intros l; cbn.
  - split; [lia|]. by intros x ?%elem_of_nil.
  - destruct (IH (highest_in (Column.Tasks c) l)) as [Hl Hx].
    destruct (highest_in_ge (Column.Tasks c) l) as [Hl' Hx'].
    split; [lia|]. intros x. rewrite fmap_app.
    intros [Hin|Hin]%elem_of_app; [|by apply Hx].
    specialize (Hx' x Hin). lia.
Qed.

(** A session that starts without an error starts with no id above the
    counter. (After a decode error the board holds what was decoded and the
    counter is 0: see [id_reused_after_failed_load].) *)
Lemma initialModel_ids_bounded ti r disk :
  err (initialModel ti r disk) = None → ids_bounded (initialModel ti r disk).
Proof.
  unfold initialModel, loadBoard, loadBoard_fields, ids_bounded.
  destruct r as [|e], disk as [[doc|]|]; cbn; try done;
    try (intros _; by intros x ?%elem_of_nil).
  destruct (KanbanBoard_UnmarshalJSON default_board doc) as [b []]; cbn; try done.
  intros _. apply highest_ID_ge.
Qed.
End Ids.



(** C5 fails in one session too when the session starts on a file that is
    decoded with an error: the tasks that were decoded are on the board,
    [loadBoard] has returned before it reads their ids, and the counter is
    0. On [file_with_a_string_id] the session starts with the task of id 1;
    [d] and [y] delete it, and [a], [x] and [enter] add a task with id 1. *)
Lemma id_reused_after_failed_load :
  let m := @initialModel line_buffer decimal_time "" ReadDone
             (Some (Document file_with_a_string_id)) in
  err m = Some "json: cannot unmarshal"
  ∧ three_columns (board m) ∧ ids (board m) = [1] ∧ lastID m = 0
  ∧ ∃ m1 d1 m2 d2,
      @run line_buffer decimal_time m None (keys ["d"; "y"]) = Some (m1, d1)
      ∧ ids (board m1) = []
      ∧ @run line_buffer decimal_time m1 d1 (keys ["a"; "x"; "enter"]) = Some (m2, d2)
      ∧ ids (board m2) = [1].
Proof.
  cbv zeta. split; [by vm_compute|]. split; [by vm_compute|].
  split; [by vm_compute|]. split; [by vm_compute|].
  eexists _, _, _, _. split; [by vm_compute|].
  split; [by vm_compute|]. split; by vm_compute.
Qed.

(** ** The earlier variant *)

Module LegacyFacts.
Import Legacy.
Section LegacyFacts.
Context `{TextInput} `{TimeCodec}.

Lemma legacy_save_model env (m : model) disk :
  ∃ e, (save_noting_error env m disk).1 = set_err e m
       ∧ (save_noting_error env m disk).2 = (saveBoard env m disk).1.
Proof.
  unfold save_noting_error. destruct (saveBoard env m disk) as [d [e|]].
  - by exists (Some e).
  - exists (err m). by destruct m.
Qed.

Lemma legacy_cursor_same (m m' : model) :
  geometry m' = geometry m → three_columns (board m) → cursor_ok m →
  three_columns (board m') ∧ cursor_ok m'.
Proof.
  unfold geometry, cursor_ok. intros [= Hb Hc Ht] H3 Hok. by rewrite Hb, Hc, Ht.
Qed.

(** What a move does in the earlier variant: as in gotask.go. *)
Lemma legacy_move_spec env (m : model) disk dst task :
  three_columns (board m) → sizes_ok (board m) →
  0 ≤ cursorColumn m < 3 → 0 ≤ dst < 3 → dst ≠ cursorColumn m →
  index (tasks_of (board m) (cursorColumn m)) (cursorTask m) = Some task →
  Update_move env m disk dst
  = Some (save_noting_error env (moved m dst task) disk, None).
Proof.
  intros H3 Hs Hc Hd Hne Htask. unfold Update_move.
  destruct (index_in_range (Columns (board m)) (cursorColumn m)) as [col Hcol];
    [int_arith|].
  destruct (index_in_range (Columns (board m)) dst) as [dcol Hdcol]; [int_arith|].
  pose proof (sizes_ok_tasks_of _ (cursorColumn m) Hs) as Hsz.
  pose proof (sizes_ok_tasks_of _ dst Hs) as Hdsz.
  unfold moved.
  rewrite (tasks_of_index _ _ _ Hcol), (tasks_of_index _ _ _ Hdcol) in *.
  pose proof Htask as [Ht _]%index_Some.
  rewrite Hcol. cbn. rewrite bool_decide_eq_true_2 by lia.
  rewrite Hdcol. cbn. rewrite Htask. cbn.
  rewrite remove_in_range by lia. cbn.
  rewrite len_app. change (len [task]) with 1.
  rewrite wrap_id by (pose proof (len_nonneg (Column.Tasks dcol)); int_arith).
  replace (len (Column.Tasks dcol) + 1 - 1) with (len (Column.Tasks dcol)) by lia.
  assert (∀ A B : model, A = B →
            (let '(m0, disk0) := save_noting_error env A disk in Some (m0, disk0, None))
            = Some (save_noting_error env B disk, @None Cmd)) as Hsave.
  { intros A B ->. by destruct (save_noting_error _ _ _). }
  case_bool_decide; by apply Hsave.
Qed.

Lemma legacy_moved_cursor (m : model) dst task :
  three_columns (board m) → 0 ≤ cursorColumn m < 3 → 0 ≤ dst < 3 →
  three_columns (board (moved m dst task)) ∧ cursor_ok (moved m dst task).
Proof.
  intros H3 Hc Hd. unfold moved, cursor_ok, three_columns. cbn.
  rewrite !len_Columns_set_tasks.
  rewrite tasks_of_set_tasks_eq by (rewrite len_Columns_set_tasks; int_arith).
  rewrite max_1_len, len_app. change (len [task]) with 1.
  pose proof (len_nonneg (tasks_of (board m) dst)).
  case_bool_decide; int_arith.
Qed.

(** What [d] does in the earlier variant. *)
Lemma legacy_delete_spec env (m : model) disk :
  three_columns (board m) → sizes_ok (board m) → cursor_ok m →
  inputMode m = false → len (tasks_of (board m) (cursorColumn m)) > 0 →
  Update_key env m disk "d"
  = Some (save_noting_error env (deleted m) disk, None).
Proof.
  intros H3 Hs [Hc Ht] Hi Hlen. unfold Update_key. eval_keys. rewrite Hi. cbn.
  destruct (index_in_range (Columns (board m)) (cursorColumn m)) as [col Hcol];
    [int_arith|].
  pose proof (sizes_ok_tasks_of _ (cursorColumn m) Hs) as Hsz.
  rewrite max_1_len, bool_decide_eq_true_2 in Ht by done.
  unfold deleted. rewrite (tasks_of_index _ _ _ Hcol) in *.
  rewrite bool_decide_eq_true_2 by int_arith. rewrite Hcol. cbn.
  rewrite bool_decide_eq_true_2 by done.
  rewrite remove_in_range by lia. cbn.
  assert (∀ A B : model, A = B →
            (let '(m0, disk0) := save_noting_error env A disk in Some (m0, disk0, None))
            = Some (save_noting_error env B disk, @None Cmd)) as Hsave.
  { intros A B ->. by destruct (save_noting_error _ _ _). }
  apply Hsave. case_bool_decide as Hclamp; [|done].
  rewrite wrap_id by int_arith. done.
Qed.

Lemma legacy_deleted_cursor (m : model) :
  three_columns (board m) → cursor_ok m →
  len (tasks_of (board m) (cursorColumn m)) > 0 →
  three_columns (board (deleted m)) ∧ cursor_ok (deleted m).
Proof.
  intros H3 [Hc Ht] Hlen. rewrite max_1_len, bool_decide_eq_true_2 in Ht by done.
  pose proof (len_take_drop _ _ Ht) as Hts.
  unfold deleted, cursor_ok, three_columns.
  case_bool_decide; cbn; rewrite len_Columns_set_tasks;
    rewrite tasks_of_set_tasks_eq by int_arith;
    rewrite max_1_len; case_bool_decide; int_arith.
Qed.

Lemma legacy_keeps_saved env (m : model) disk oc :
  three_columns (board m) → cursor_ok m →
  keeps_cursor (Some (save_noting_error env m disk, oc)).
Proof.
  intros H3 Hok. destruct (legacy_save_model env m disk) as (e & He & _).
  destruct (save_noting_error env m disk) as [m' d']. cbn in He. subst m'.
  exists (set_err e m), d', oc. split; [done|].
  by apply (legacy_cursor_same m).
Qed.

Ltac legacy_same :=
  eexists _, _, _; split; [reflexivity|];
  eapply legacy_cursor_same; [reflexivity|eassumption|eassumption].

Lemma legacy_move_cursor env (m : model) disk dst :
  three_columns (board m) → sizes_ok (board m) → cursor_ok m →
  0 ≤ dst < 3 → dst ≠ cursorColumn m →
  keeps_cursor (Update_move env m disk dst).
Proof.
  intros H3 Hs Hok Hd Hne. pose proof Hok as [Hc Ht].
  destruct (decide (len (tasks_of (board m) (cursorColumn m)) > 0)) as [Hlen|Hlen].
  - rewrite max_1_len, bool_decide_eq_true_2 in Ht by done.
    destruct (index_in_range _ _ Ht) as [task Htask].
    rewrite (legacy_move_spec _ _ _ _ task) by done.
    destruct (legacy_moved_cursor m dst task) as [? ?]; [done..|].
    by apply legacy_keeps_saved.
  - unfold Update_move.
    destruct (index_in_range (Columns (board m)) (cursorColumn m)) as [col Hcol];
      [int_arith|].
    rewrite (tasks_of_index _ _ _ Hcol) in Hlen. rewrite Hcol. cbn.
    rewrite bool_decide_eq_false_2 by done. legacy_same.
Qed.

Lemma legacy_key_cursor env (m : model) disk k :
  three_columns (board m) → sizes_ok (board m) → cursor_ok m →
  keeps_cursor (Update_key env m disk k).
Proof.
  intros H3 Hs Hok. pose proof Hok as [Hc Ht].
  destruct (index_in_range (Columns (board m)) (cursorColumn m)) as [col Hcol];
    [int_arith|].
  pose proof (tasks_of_index _ _ _ Hcol) as Htasks.
  pose proof (sizes_ok_tasks_of _ (cursorColumn m) Hs) as Hsz.
  assert (wrap (len (Columns (board m)) - 1) = 2) as Hlast
    by (rewrite H3; by vm_compute).
  unfold Update_key. rewrite Hlast.
  repeat (match goal with |- context [key_in k ?ks] => destruct (key_in k ks) end).
  all: try (destruct (saveBoard env m disk) as [? [?|]]; legacy_same).
  all: try legacy_same.
  all: destruct (inputMode m) eqn:Hi; cbn; try legacy_same.
  - (* enter *)
    case_bool_decide; [|legacy_same]. cbn. rewrite Hcol. cbn.
    match goal with |- context [save_noting_error ?e ?x ?d] =>
      destruct (legacy_save_model e x d) as (e' & He & _);
      destruct (save_noting_error e x d) as [m1 d1]; cbn in He; subst m1 end.
    eexists _, _, _; (split; [reflexivity|]).
    unfold cursor_ok, three_columns; cbn.
    rewrite len_Columns_set_tasks, tasks_of_set_tasks_eq by int_arith.
    rewrite Htasks, !max_1_len, len_app in *. change (len [?x]) with 1.
    repeat case_bool_decide; int_arith.
  - (* d *)
    rewrite bool_decide_eq_true_2 by int_arith. rewrite Hcol. cbn.
    case_bool_decide as Hlen; [|legacy_same]. rewrite <- Htasks in Hlen.
    pose proof (legacy_delete_spec env m disk H3 Hs Hok Hi Hlen) as Hdel.
    unfold Update_key in Hdel. revert Hdel. eval_keys. rewrite Hi. cbn.
    rewrite bool_decide_eq_true_2 by int_arith. rewrite Hcol. cbn.
    rewrite <- Htasks, bool_decide_eq_true_2 by done. rewrite Htasks.
    intros ->. destruct (legacy_deleted_cursor m) as [? ?]; [done..|].
    by apply legacy_keeps_saved.
  - (* up, k *)
    rewrite Hcol. cbn. case_bool_decide as Hlen; [|legacy_same].
    eexists _, _, _; (split; [reflexivity|]). split; [done|].
    unfold cursor_ok. cbn. rewrite Htasks in *.
    rewrite max_1_len, bool_decide_eq_true_2 in * by done.
    rewrite wrap_id by int_arith. unfold max. case_bool_decide; int_arith.
  - (* down, j *)
    rewrite Hcol. cbn. case_bool_decide as Hlen; [|legacy_same].
    eexists _, _, _; (split; [reflexivity|]). split; [done|].
    unfold cursor_ok. cbn. rewrite Htasks in *.
    rewrite max_1_len, bool_decide_eq_true_2 in * by done.
    rewrite !wrap_id by int_arith. unfold min. case_bool_decide; int_arith.
  - (* left, h *)
    case_bool_decide; [|legacy_same]. rewrite wrap_id by int_arith.
    eexists _, _, _; (split; [reflexivity|]). split; [done|].
    unfold cursor_ok. cbn.
    pose proof (len_nonneg (tasks_of (board m) (cursorColumn m - 1))).
    rewrite max_1_len. case_bool_decide; int_arith.
  - (* right, l *)
    case_bool_decide; [|legacy_same]. rewrite wrap_id by int_arith.
    eexists _, _, _; (split; [reflexivity|]). split; [done|].
    unfold cursor_ok. cbn.
    pose proof (len_nonneg (tasks_of (board m) (cursorColumn m + 1))).
    rewrite max_1_len. case_bool_decide; int_arith.
  - (* [, { *)
    case_bool_decide; [|legacy_same]. rewrite wrap_id by int_arith.
    apply legacy_move_cursor; try done; lia.
  - (* ], } *)
    case_bool_decide; [|legacy_same]. rewrite wrap_id by int_arith.
    apply legacy_move_cursor; try done; lia.
Qed.

(** C1 in the earlier variant: every transition returns, and keeps the three
    columns and a cursor in range. *)
Lemma cursor_invariant_legacy (env : Env) (m : model) (disk : Disk) (msg : Msg) :
  three_columns (board m) → sizes_ok (board m) → cursor_ok m →
  ∃ m' disk' cmd,
    Update env m disk msg = Some (m', disk', cmd)
    ∧ three_columns (board m') ∧ cursor_ok m'.
Proof.
  intros H3 Hs Hok. unfold Update.
  assert (∀ r, keeps_cursor r →
            ∃ m' disk' cmd,
              (r ≫= λ c,
                 match c with
                 | (m, disk, Some cmd) => Some (m, disk, cmd)
                 | (m, disk, None) =>
                     if inputMode m
                     then Some (set_textInput (textinput_Update (textInput m) msg) m,
                                disk, textinput_Cmd)
                     else Some (m, disk, CmdNil)
                 end) = Some (m', disk', cmd)
              ∧ three_columns (board m') ∧ cursor_ok m') as Htail.
  { intros r (m1 & d1 & oc & -> & H3' & Hok'). cbn.
    destruct oc as [cmd|]; [by eexists _, _, _|].
    destruct (inputMode m1); eexists _, _, _; (split; [reflexivity|]); [|done].
    by apply (legacy_cursor_same m1). }
  destruct msg; apply Htail; [by apply legacy_key_cursor|legacy_same..].
Qed.

(** C2 does not hold of the earlier variant, which has no confirmation:
    browsing a column that has tasks, [d] removes the task under the cursor
    at once, and saves. *)
Lemma delete_is_immediate_legacy (env : Env) (m : model) (disk : Disk) :
  three_columns (board m) → sizes_ok (board m) → cursor_ok m →
  inputMode m = false → len (tasks_of (board m) (cursorColumn m)) > 0 →
  let ts := tasks_of (board m) (cursorColumn m) in
  ∃ m' disk',
    Update env m disk (KeyMsg "d") = Some (m', disk', CmdNil)
    ∧ tasks_of (board m') (cursorColumn m)
      = take (Z.to_nat (cursorTask m)) ts ++ drop (S (Z.to_nat (cursorTask m))) ts
    ∧ len (tasks_of (board m') (cursorColumn m)) = len ts - 1
    ∧ disk' = (saveBoard env m' disk).1.
Proof.
  intros H3 Hs Hok Hi Hlen ts. unfold Update.
  rewrite (legacy_delete_spec env m disk H3 Hs Hok Hi Hlen). cbn.
  destruct (legacy_save_model env (deleted m) disk) as (e & He & Hd).
  destruct (save_noting_error env (deleted m) disk) as [m1 d1].
  cbn in He, Hd. subst m1 d1.
  assert (inputMode (deleted m) = false) as Hi'
    by (unfold deleted; by case_bool_decide).
  assert (board (deleted m)
          = set_tasks (cursorColumn m)
              (take (Z.to_nat (cursorTask m)) ts ++ drop (S (Z.to_nat (cursorTask m))) ts)
              (board m)) as Hb
    by (unfold deleted; by case_bool_decide).
  cbn. rewrite Hi'. eexists _, _. split; [reflexivity|]. cbn. rewrite Hb.
  destruct Hok as [Hc Ht]. rewrite max_1_len, bool_decide_eq_true_2 in Ht by done.
  rewrite tasks_of_set_tasks_eq by int_arith.
  split; [done|]. split; [by apply len_take_drop|].
  unfold saveBoard. cbn. by rewrite Hb.
Qed.

(** C3 in the earlier variant: [enter] in the entry with an empty buffer
    closes the entry and changes nothing else; with a buffer that is not
    empty, blanks included, it appends a task with that title. *)
Lemma add_commit_legacy (env : Env) (m : model) (disk : Disk) :
  inputMode m = true → 0 ≤ cursorColumn m < len (Columns (board m)) →
  let title := Value (textInput m) in
  (title = "" →
   Update env m disk (KeyMsg "enter") = Some (set_inputMode false m, disk, CmdNil))
  ∧ (title ≠ "" →
     ∃ m' disk',
       Update env m disk (KeyMsg "enter") = Some (m', disk', CmdNil)
       ∧ tasks_of (board m') (cursorColumn m)
         = tasks_of (board m) (cursorColumn m)
           ++ [Task.mk (wrap (lastID m + 1)) title "" (now env)]
       ∧ lastID m' = wrap (lastID m + 1)).
Proof.
  intros Hi Hc title. unfold Update, Update_key. eval_keys. rewrite Hi. fold title.
  destruct (index_in_range _ _ Hc) as [col Hcol].
  split; intros Htitle.
  - rewrite bool_decide_eq_false_2 by (by intros ?). done.
  - rewrite bool_decide_eq_true_2 by done. cbn. rewrite Hcol. cbn.
    match goal with |- context [save_noting_error ?e ?x ?d] =>
      destruct (legacy_save_model e x d) as (e' & He & _);
      destruct (save_noting_error e x d) as [m1 d1]; cbn in He; subst m1 end.
    cbn. eexists _, _. split; [reflexivity|]. cbn.
    rewrite tasks_of_set_tasks_eq by done.
    by rewrite (tasks_of_index _ _ _ Hcol).
Qed.

(** C7 in the earlier variant: the same move. *)
Lemma move_task_legacy (env : Env) (m : model) (disk : Disk) (k : string)
    (dst : Z) (task : Task.t) :
  three_columns (board m) → sizes_ok (board m) → 0 ≤ cursorColumn m < 3 →
  inputMode m = false →
  index (tasks_of (board m) (cursorColumn m)) (cursorTask m) = Some task →
  0 ≤ dst < 3 →
  (k ∈ ["["; "{"] ∧ dst = cursorColumn m - 1)
  ∨ (k ∈ ["]"; "}"] ∧ dst = cursorColumn m + 1) →
  ∃ m' disk',
    Update env m disk (KeyMsg k) = Some (m', disk', CmdNil)
    ∧ geometry m' = geometry (moved m dst task)
    ∧ disk' = (saveBoard env m' disk).1.
Proof.
  intros H3 Hs Hc Hi Htask Hdst Hk.
  assert (wrap (len (Columns (board m)) - 1) = 2) as Hlast
    by (rewrite H3; by vm_compute).
  assert (dst ≠ cursorColumn m) as Hne by lia.
  assert (Update_key env m disk k
          = Some (save_noting_error env (moved m dst task) disk, None)) as HU.
  { unfold Update_key. rewrite Hlast, Hi. set_unfold.
    destruct Hk as [[[->|[->|[]]] ->]|[[->|[->|[]]] ->]]; eval_keys; cbn;
      rewrite bool_decide_eq_true_2 by lia;
      rewrite wrap_id by int_arith;
      by apply legacy_move_spec. }
  unfold Update. rewrite HU. cbn.
  destruct (legacy_save_model env (moved m dst task) disk) as (e & He & Hd).
  destruct (save_noting_error env (moved m dst task) disk) as [m1 d1].
  cbn in He, Hd. subst m1 d1. cbn. rewrite Hi.
  by eexists _, _.
Qed.

(** C8 in the earlier variant: the same. *)
Lemma quit_saves_first_legacy (env : Env) (m : model) (disk : Disk) (k : string) :
  k ∈ ["ctrl+c"; "q"] →
  match write env with
  | WriteFailed e after =>
      Update env m disk (KeyMsg k) = Some (set_err (Some e) m, after, CmdNil)
  | Written =>
      Update env m disk (KeyMsg k)
      = Some (m, Some (Document (KanbanBoard_MarshalJSON (board m))), tea_Quit)
  end.
Proof.
  intros Hk. unfold Update, Update_key, saveBoard, saveBoard_file.
  set_unfold. destruct Hk as [->|[->|[]]]; eval_keys; by destruct (write env).
Qed.

(** C10 in the earlier variant: the same. *)
Lemma column_change_resets_row_legacy (env : Env) (m : model) (disk : Disk)
    (k : string) :
  three_columns (board m) → 0 ≤ cursorColumn m < 3 → inputMode m = false →
  (k ∈ ["left"; "h"] → cursorColumn m > 0 →
   Update env m disk (KeyMsg k)
   = Some (set_cursorTask 0 (set_cursorColumn (cursorColumn m - 1) m), disk, CmdNil))
  ∧ (k ∈ ["right"; "l"] → cursorColumn m < 2 →
     Update env m disk (KeyMsg k)
     = Some (set_cursorTask 0 (set_cursorColumn (cursorColumn m + 1) m), disk, CmdNil)).
Proof.
  intros H3 Hc Hi.
  assert (wrap (len (Columns (board m)) - 1) = 2) as Hlast
    by (rewrite H3; by vm_compute).
  split; intros Hk Hside; unfold Update, Update_key; rewrite Hlast, Hi;
    set_unfold; destruct Hk as [->|[->|[]]]; eval_keys; cbn;
    rewrite bool_decide_eq_true_2 by done;
    rewrite wrap_id by int_arith; cbn; by rewrite Hi.
Qed.

End LegacyFacts.
End LegacyFacts.

(** * Further properties of gotask.go *)

(** Opens a transition down to its tests and to the outcome of its write. *)
Ltac open_Update HU :=
  unfold Update, Update_DeleteDialog, Update_inputMode, Update_browsing,
    Update_WindowSizeMsg, Update_enter, Update_quit, Update_textInput,
    Update_move, save_noting_error, saveBoard, saveBoard_file in HU.

Section Saved.
Context `{TextInput} `{TimeCodec}.


End Saved.


Lemma fmap_alter_with_Tasks (ts : list Task.t) (i : nat) (cols : list Column.t) :
  (λ col, (Column.ID col, Column.Title col)) <$> alter (Column.with_Tasks ts) i cols
  = (λ col, (Column.ID col, Column.Title col)) <$> cols.
Proof.
  revert i. induction cols as [|col cols IH]; intros [|i]; cbn; try done.
  by rewrite IH.
Qed.

Lemma Columns_set_tasks_frame (c : Z) (ts : list Task.t) (b : KanbanBoard) :
  (λ col, (Column.ID col, Column.Title col)) <$> Columns (set_tasks c ts b)
  = (λ col, (Column.ID col, Column.Title col)) <$> Columns b.
Proof. apply fmap_alter_with_Tasks. Qed.

Section Quitting.
Context `{TextInput} `{TimeCodec}.

(** X2 (no quit without a saved board). A transition returns [tea.Quit]
    only for [q] or [ctrl+c] outside the delete confirmation and the insert
    mode, only when the write has succeeded, and then the model is as it
    was and the file holds its board. *)
Theorem quit_only_after_save (env : Env) (m m' : model) (disk disk' : Disk)
    (msg : Msg) :
  Update env m disk msg = Some (m', disk', tea_Quit) →
  write env = Written
  ∧ m' = m
  ∧ disk' = Some (Document (KanbanBoard_MarshalJSON (board m)))
  ∧ dialogType m ≠ DeleteDialog
  ∧ ∃ k, msg = KeyMsg k
         ∧ (inputMode m = false ∧ k ∈ ["ctrl+c"; "q"]
            ∨ inputMode m = true ∧ inputState m = NormalMode ∧ k = "q").
Proof.
  intros HU. open_Update HU.
  destruct (write env) as [|e after] eqn:Hw;
    destruct msg as [k|w h|]; cases_of HU; simplify_eq/=.
  all: repeat match goal with
       | Hk : key_in _ _ = true |- _ => apply bool_decide_eq_true in Hk
       | Hk : bool_decide _ = false |- _ => apply bool_decide_eq_false in Hk
       end.
  all: split; [done|split; [done|split; [done|split; [done|]]]]; exists k;
    (split; [done|]).
  - right. split; [done|split; [done|]].
    match goal with Hq : _ ∈ ["q"] |- _ => by apply list_elem_of_singleton in Hq end.
  - by left.
Qed.

(** X3 (the columns are fixed). No transition adds, removes, reorders or
    renames a column: the ids and titles of the columns are those of
    before, in the same order. *)
Theorem columns_are_fixed (env : Env) (m m' : model) (disk disk' : Disk)
    (msg : Msg) (cmd : Cmd) :
  Update env m disk msg = Some (m', disk', cmd) →
  (λ col, (Column.ID col, Column.Title col)) <$> Columns (board m')
  = (λ col, (Column.ID col, Column.Title col)) <$> Columns (board m).
Proof.
  intros HU.
  unfold Update, Update_DeleteDialog, Update_inputMode, Update_browsing,
    Update_WindowSizeMsg, Update_enter, Update_quit, Update_textInput,
    Update_move, store_Title in HU.
  destruct msg as [k|w h|]; cases_of HU; simplify_eq/=;
    repeat case_bool_decide; cbn;
    repeat (case_match; cbn);
    repeat first [rewrite Columns_set_tasks_frame | rewrite fmap_alter_with_Tasks];
    done.
Qed.

(** X4 (the text entry is modal). While the text entry is open, no key but
    [enter] changes the board, the cursor or the id counter: the keys that
    navigate, delete and move do not act; and no key but [enter], and [q]
    in normal mode, writes the file. *)
Theorem text_entry_is_modal (env : Env) (m m' : model) (disk disk' : Disk)
    (k : string) (cmd : Cmd) :
  inputMode m = true → dialogType m ≠ DeleteDialog → k ≠ "enter" →
  Update env m disk (KeyMsg k) = Some (m', disk', cmd) →
  geometry m' = geometry m ∧ lastID m' = lastID m
  ∧ (k = "q" ∧ inputState m = NormalMode ∨ disk' = disk).
Proof.
  intros Hi Hd Hk HU. rewrite Update_inputMode_key in HU by done.
  unfold Update_inputMode, Update_quit, Update_textInput in HU.
  assert (key_in k ["enter"] = false) as Hne.
  { apply bool_decide_eq_false. by intros ?%list_elem_of_singleton. }
  rewrite Hne in HU.
  destruct (inputState m); cases_of HU; simplify_eq/=;
    repeat (split; [done|]); first [by right | left].
  all: split; [|done].
  all: match goal with Hq : key_in _ ["q"] = true |- _ =>
         by apply bool_decide_eq_true, list_elem_of_singleton in Hq end.
Qed.

End Quitting.

Lemma quit_only_after_save_witness :
  write sample_env = Written
  ∧ sample_model = sample_model
  ∧ Some (Document (@KanbanBoard_MarshalJSON decimal_time sample_board))
    = Some (Document (@KanbanBoard_MarshalJSON decimal_time (board sample_model)))
  ∧ dialogType sample_model ≠ DeleteDialog
  ∧ ∃ k, KeyMsg "q" = KeyMsg k
      ∧ (inputMode sample_model = false ∧ k ∈ ["ctrl+c"; "q"]
         ∨ inputMode sample_model = true
           ∧ inputState sample_model = NormalMode ∧ k = "q").
Proof.
  apply (@quit_only_after_save line_buffer decimal_time sample_env sample_model
           sample_model None
           (Some (Document (@KanbanBoard_MarshalJSON decimal_time sample_board)))
           (KeyMsg "q")).
  by vm_compute.
Defined.

Lemma columns_are_fixed_witness :
  (λ col, (Column.ID col, Column.Title col))
    <$> Columns (board (state_after sample_model (keys ["]"])).1)
  = (λ col, (Column.ID col, Column.Title col)) <$> Columns (board sample_model).
Proof.
  apply (@columns_are_fixed line_buffer decimal_time sample_env sample_model
           (state_after sample_model (keys ["]"])).1 None
           (state_after sample_model (keys ["]"])).2 (KeyMsg "]") CmdNil).
  by vm_compute.
Defined.

Lemma text_entry_is_modal_witness :
  let m := entry_in_normal_mode in
  let m' := @set_textInput line_buffer ("abd" : string) m in
  geometry m' = geometry m ∧ lastID m' = lastID m
  ∧ ("d" = "q" ∧ inputState m = NormalMode ∨ (None : Disk) = None).
Proof.
  apply (@text_entry_is_modal line_buffer decimal_time sample_env
           entry_in_normal_mode
           (@set_textInput line_buffer ("abd" : string) entry_in_normal_mode)
           None None "d" textinput_Cmd).
  - reflexivity.
  - discriminate.
  - discriminate.
  - by vm_compute.
Defined.

Section Browsing.
Context `{TextInput} `{TimeCodec}.

Lemma Update_DeleteDialog_key env m disk k :
  dialogType m = DeleteDialog →
  Update env m disk (KeyMsg k) = Update_DeleteDialog env m disk k.
Proof. intros Hd. cbn. by rewrite bool_decide_eq_true_2. Qed.

Lemma updateViewportContent_past m c :
  3 ≤ c → updateViewportContent m c = None.
Proof.
  intros Hc. unfold updateViewportContent, viewports_len.
  case_bool_decide; [done|]. by rewrite bool_decide_eq_false_2 by lia.
Qed.

(** X5 (where the cursor goes after a delete). A confirmed delete takes one
    task off the board and leaves the cursor on its column and on its row,
    which is now the row of the task that followed; when the deleted task
    was the last of its column, the cursor goes up by one row, and stays on
    row 0 when the column is empty now. *)
Theorem delete_moves_cursor_up_at_the_end (env : Env) (m : model) (disk : Disk)
    (k : string) :
  three_columns (board m) → sizes_ok (board m) → cursor_ok m →
  dialogType m = DeleteDialog → k ∈ ["y"; "Y"] →
  len (tasks_of (board m) (cursorColumn m)) > 0 →
  let n := len (tasks_of (board m) (cursorColumn m)) in
  ∃ m' disk',
    Update env m disk (KeyMsg k) = Some (m', disk', CmdNil)
    ∧ task_count (board m') = task_count (board m) - 1
    ∧ len (tasks_of (board m') (cursorColumn m)) = n - 1
    ∧ cursorColumn m' = cursorColumn m
    ∧ cursorTask m'
      = (if bool_decide (cursorTask m = n - 1 ∧ cursorTask m > 0)
         then cursorTask m - 1 else cursorTask m)
    ∧ (cursorTask m < n - 1 →
       index (tasks_of (board m') (cursorColumn m')) (cursorTask m')
       = index (tasks_of (board m) (cursorColumn m)) (cursorTask m + 1)).
Proof.
  intros H3 Hs [Hc Ht] Hd Hk Hlen n. rewrite Update_DeleteDialog_key by done.
  destruct (index_in_range (Columns (board m)) (cursorColumn m)) as [col Hcol];
    [int_arith|].
  pose proof (tasks_of_index _ _ _ Hcol) as Htasks.
  pose proof (sizes_ok_tasks_of _ (cursorColumn m) Hs) as Hsz.
  rewrite max_1_len, bool_decide_eq_true_2 in Ht by done.
  unfold Update_DeleteDialog.
  assert (key_in k ["y"; "Y"] = true) as -> by (by apply bool_decide_eq_true).
  rewrite Hcol. cbn. rewrite <- Htasks, bool_decide_eq_true_2 by done.
  rewrite remove_in_range by done. cbn.
  set (ts := take _ _ ++ drop _ _).
  assert (len ts = n - 1) as Hts by (by apply len_take_drop).
  match goal with |- context [save_noting_error ?e ?x ?d] =>
    destruct (save_noting_error_model e x d) as [e' He];
    destruct (save_noting_error e x d) as [m1 d1]; cbn in He; subst m1 end.
  eexists _, _. split; [reflexivity|]. cbn.
  assert (∀ b : bool, board (if b then set_cursorTask (wrap (cursorTask m - 1))
                                      (set_board (set_tasks (cursorColumn m) ts (board m)) m)
                          else set_board (set_tasks (cursorColumn m) ts (board m)) m)
                      = set_tasks (cursorColumn m) ts (board m)) as Hb by (by intros []).
  assert (∀ b : bool, cursorColumn (if b then set_cursorTask (wrap (cursorTask m - 1))
                                      (set_board (set_tasks (cursorColumn m) ts (board m)) m)
                          else set_board (set_tasks (cursorColumn m) ts (board m)) m)
                      = cursorColumn m) as Hcc by (by intros []).
  rewrite Hb, Hcc.
  rewrite task_count_set_tasks, tasks_of_set_tasks_eq by int_arith.
  split; [fold n; lia|]. split; [done|]. split; [done|].
  rewrite wrap_id by int_arith.
  split.
  - repeat case_bool_decide; cbn; lia.
  - intros Hlt. rewrite bool_decide_eq_false_2 by lia. cbn.
    unfold index. rewrite Hts. fold n.
    rewrite !bool_decide_eq_true_2 by lia.
    unfold ts. rewrite lookup_app_r by (rewrite length_take; unfold len in *; lia).
    rewrite length_take, lookup_drop. f_equal. unfold len in *. lia.
Qed.

(** X6 (up and down stay in the column). Browsing a column that has tasks,
    [up] or [k] moves the cursor one row up and [down] or [j] one row down,
    and neither leaves the column: on the first row [up] does nothing, on
    the last row [down] does nothing. The board, the file and the rest of
    the model are as they were. *)
Theorem up_and_down_do_not_wrap (env : Env) (m : model) (disk : Disk) (k : string) :
  three_columns (board m) → sizes_ok (board m) → cursor_ok m →
  dialogType m ≠ DeleteDialog → inputMode m = false →
  len (tasks_of (board m) (cursorColumn m)) > 0 →
  let n := len (tasks_of (board m) (cursorColumn m)) in
  (k ∈ ["up"; "k"] →
   Update env m disk (KeyMsg k)
   = Some (set_cursorTask (if bool_decide (cursorTask m = 0) then 0
                           else cursorTask m - 1) m, disk, CmdNil))
  ∧ (k ∈ ["down"; "j"] →
     Update env m disk (KeyMsg k)
     = Some (set_cursorTask (if bool_decide (cursorTask m = n - 1) then n - 1
                             else cursorTask m + 1) m, disk, CmdNil)).
Proof.
  intros H3 Hs [Hc Ht] Hd Hi Hlen n. rewrite Update_browsing_key by done.
  destruct (index_in_range (Columns (board m)) (cursorColumn m)) as [col Hcol];
    [int_arith|].
  pose proof (tasks_of_index _ _ _ Hcol) as Htasks.
  pose proof (sizes_ok_tasks_of _ (cursorColumn m) Hs) as Hsz.
  rewrite max_1_len, bool_decide_eq_true_2 in Ht by done.
  split; intros Hk; unfold Update_browsing; rewrite Hcol;
    set_unfold; destruct Hk as [->|[->|[]]]; eval_keys; cbn;
    rewrite <- Htasks, bool_decide_eq_true_2 by done;
    rewrite updateViewportContent_in_range by done; cbn;
    rewrite ?wrap_id by int_arith; fold n; unfold max, min;
    do 4 f_equal; repeat case_bool_decide; lia.
Qed.

(** X7 (keys that have nothing to act on). Browsing, a key that has nothing
    to act on changes nothing and writes nothing: [left] or [h] on the first
    column, [right] or [l] on the last, [[] or [{] on the first column, []]
    or [}] on the last, and [e], [d], [up], [down] and the four keys that
    move a task, on a column without tasks. *)
Theorem nothing_to_act_on (env : Env) (m : model) (disk : Disk) (k : string) :
  three_columns (board m) → 0 ≤ cursorColumn m < 3 →
  dialogType m ≠ DeleteDialog → inputMode m = false →
  (k ∈ ["left"; "h"; "["; "{"] ∧ cursorColumn m = 0)
  ∨ (k ∈ ["right"; "l"; "]"; "}"] ∧ cursorColumn m = 2)
  ∨ (k ∈ ["e"; "d"; "up"; "k"; "down"; "j"; "["; "{"; "]"; "}"]
     ∧ tasks_of (board m) (cursorColumn m) = []) →
  Update env m disk (KeyMsg k) = Some (m, disk, CmdNil).
Proof.
  intros H3 Hc Hd Hi Hk. rewrite Update_browsing_key by done.
  destruct (index_in_range (Columns (board m)) (cursorColumn m)) as [col Hcol];
    [int_arith|].
  pose proof (tasks_of_index _ _ _ Hcol) as Htasks.
  assert (wrap (len (Columns (board m)) - 1) = 2) as Hlast
    by (rewrite H3; by vm_compute).
  unfold Update_browsing, Update_move. rewrite Hlast, Hcol.
  destruct Hk as [[Hk Hcol0]|[[Hk Hcol2]|[Hk Hempty]]]; set_unfold.
  - rewrite Hcol0.
    destruct Hk as [->|[->|[->|[->|[]]]]]; eval_keys; cbn;
      by rewrite bool_decide_eq_false_2 by lia.
  - rewrite Hcol2.
    destruct Hk as [->|[->|[->|[->|[]]]]]; eval_keys; cbn;
      by rewrite bool_decide_eq_false_2 by lia.
  - rewrite Hempty in Htasks.
    assert (bool_decide (len (Column.Tasks col) > 0) = false) as Hnone
      by (rewrite <- Htasks; by apply bool_decide_eq_false_2).
    destruct Hk as [->|[->|[->|[->|[->|[->|[->|[->|[->|[->|[]]]]]]]]]]];
      eval_keys; cbn; rewrite ?Hnone; try done;
      repeat case_bool_decide; cbn; rewrite ?Hnone; done.
Qed.

(** X8 (the three viewports). A change of the window size sets the width
    and the height and nothing else when the board has at least three
    columns; with fewer columns, as a snapshot file may hold, it panics. *)
Theorem resize_needs_three_columns (env : Env) (m : model) (disk : Disk) (w h : Z) :
  Update env m disk (WindowSizeMsg w h)
  = if bool_decide (3 ≤ len (Columns (board m)))
    then Some (set_size w h m, disk, CmdNil) else None.
Proof.
  cbn. unfold Update_WindowSizeMsg, updateViewportContent, viewports_len. cbn.
  pose proof (len_nonneg (Columns (board m))).
  repeat case_bool_decide; cbn; try done; lia.
Qed.

(** X9 (no fourth viewport). With more than three columns, as a snapshot
    file may hold, the cursor cannot go past the third column: browsing on
    the third column, [right] or [l], and []] or [}] on a task, panic, and
    nothing is written. *)
Theorem fourth_column_panics (env : Env) (m : model) (disk : Disk) (k : string) :
  3 < len (Columns (board m)) ≤ int_max → sizes_ok (board m) →
  cursorColumn m = 2 →
  dialogType m ≠ DeleteDialog → inputMode m = false →
  k ∈ ["right"; "l"]
  ∨ (k ∈ ["]"; "}"]
     ∧ 0 ≤ cursorTask m < len (tasks_of (board m) (cursorColumn m))) →
  Update env m disk (KeyMsg k) = None.
Proof.
  intros H4 Hs Hc Hd Hi Hk. rewrite Update_browsing_key by done.
  destruct (index_in_range (Columns (board m)) (cursorColumn m)) as [col Hcol];
    [lia|].
  destruct (index_in_range (Columns (board m)) 3) as [dcol Hdcol]; [lia|].
  pose proof (tasks_of_index _ _ _ Hcol) as Htasks.
  pose proof (sizes_ok_tasks_of _ (cursorColumn m) Hs) as Hsz.
  unfold Update_browsing, Update_move.
  rewrite Hcol, Hc.
  rewrite (wrap_id (len (Columns (board m)) - 1)) by int_arith.
  change (wrap (2 + 1)) with 3.
  destruct Hk as [Hk|[Hk Ht]]; set_unfold.
  - destruct Hk as [->|[->|[]]]; eval_keys; cbn;
      rewrite bool_decide_eq_true_2 by lia; cbn;
      by rewrite (updateViewportContent_past _ 3) by lia.
  - rewrite Htasks in *. destruct (index_in_range _ _ Ht) as [task Htask].
    destruct Hk as [->|[->|[]]]; eval_keys; cbn;
      rewrite bool_decide_eq_true_2 by lia; cbn;
      rewrite bool_decide_eq_true_2 by lia; rewrite Hdcol; cbn;
      rewrite Htask; cbn; rewrite remove_in_range by lia; cbn;
      by rewrite (updateViewportContent_past _ 3) by lia.
Qed.

(** X10 (two escapes cancel). From the insert mode of the text entry, the
    first [esc] only goes to normal mode, with the buffer kept; the second
    closes the entry: the dialog and the pointer to the edited task are
    cleared, the buffer is reset, and the board, the cursor, the id counter
    and the file are as they were. *)
Theorem two_escapes_cancel (env1 env2 : Env) (m : model) (disk : Disk) :
  inputMode m = true → inputState m = InsertMode → dialogType m ≠ DeleteDialog →
  Update env1 m disk (KeyMsg "esc") = Some (set_inputState NormalMode m, disk, CmdNil)
  ∧ ∃ m',
      run m disk [(env1, KeyMsg "esc"); (env2, KeyMsg "esc")] = Some (m', disk)
      ∧ inputMode m' = false ∧ dialogType m' = NoDialog ∧ editingTask m' = None
      ∧ textInput m' = Reset (textInput m)
      ∧ geometry m' = geometry m ∧ lastID m' = lastID m.
Proof.
  intros Hi Hs Hd.
  assert (Update env1 m disk (KeyMsg "esc")
          = Some (set_inputState NormalMode m, disk, CmdNil)) as HU1.
  { rewrite Update_inputMode_key by done. unfold Update_inputMode.
    rewrite Hs. by eval_keys. }
  split; [done|]. cbn [run]. rewrite HU1.
  rewrite Update_inputMode_key by done. unfold Update_inputMode. cbn.
  eval_keys. by eexists.
Qed.

End Browsing.

Lemma delete_moves_cursor_up_at_the_end_witness :
  let m := set_dialogType DeleteDialog sample_model in
  let n := len (tasks_of (board m) (cursorColumn m)) in
  ∃ m' disk',
    @Update line_buffer decimal_time sample_env m None (KeyMsg "y")
      = Some (m', disk', CmdNil)
    ∧ task_count (board m') = task_count (board m) - 1
    ∧ len (tasks_of (board m') (cursorColumn m)) = n - 1
    ∧ cursorColumn m' = cursorColumn m
    ∧ cursorTask m'
      = (if bool_decide (cursorTask m = n - 1 ∧ cursorTask m > 0)
         then cursorTask m - 1 else cursorTask m)
    ∧ (cursorTask m < n - 1 →
       index (tasks_of (board m') (cursorColumn m')) (cursorTask m')
       = index (tasks_of (board m) (cursorColumn m)) (cursorTask m + 1)).
Proof.
  apply (@delete_moves_cursor_up_at_the_end line_buffer decimal_time sample_env
           (set_dialogType DeleteDialog sample_model) None "y").
  - reflexivity.
  - unfold sizes_ok. by_computation.
  - unfold cursor_ok. by_computation.
  - reflexivity.
  - by_computation.
  - by_computation.
Defined.

Lemma up_and_down_do_not_wrap_witness :
  let m := sample_model in
  let n := len (tasks_of (board m) (cursorColumn m)) in
  ("j" ∈ ["up"; "k"] →
   @Update line_buffer decimal_time sample_env m None (KeyMsg "j")
   = Some (set_cursorTask (if bool_decide (cursorTask m = 0) then 0
                           else cursorTask m - 1) m, None, CmdNil))
  ∧ ("j" ∈ ["down"; "j"] →
     @Update line_buffer decimal_time sample_env m None (KeyMsg "j")
     = Some (set_cursorTask (if bool_decide (cursorTask m = n - 1) then n - 1
                             else cursorTask m + 1) m, None, CmdNil)).
Proof.
  apply (@up_and_down_do_not_wrap line_buffer decimal_time sample_env
           sample_model None "j").
  - reflexivity.
  - unfold sizes_ok. by_computation.
  - unfold cursor_ok. by_computation.
  - discriminate.
  - reflexivity.
  - by_computation.
Defined.

Lemma nothing_to_act_on_witness :
  @Update line_buffer decimal_time sample_env sample_model None (KeyMsg "[")
  = Some (sample_model, None, CmdNil).
Proof.
  apply (@nothing_to_act_on line_buffer decimal_time sample_env sample_model
           None "[").
  - reflexivity.
  - by_computation.
  - discriminate.
  - reflexivity.
  - left. split; [by_computation|reflexivity].
Defined.

Lemma fourth_column_panics_witness :
  let b := Board [Column.mk 1 "To Do" []; Column.mk 2 "In Progress" [];
                  Column.mk 3 "Done" [Task.mk 1 "Write spec" "" 0];
                  Column.mk 4 "Archive" []] in
  @Update line_buffer decimal_time sample_env
    (set_cursorTask 0 (set_cursorColumn 2 (set_board b sample_model)))
    None (KeyMsg "]")
  = None.
Proof.
  apply (@fourth_column_panics line_buffer decimal_time sample_env
           (set_cursorTask 0 (set_cursorColumn 2
              (set_board
                 (Board [Column.mk 1 "To Do" []; Column.mk 2 "In Progress" [];
                         Column.mk 3 "Done" [Task.mk 1 "Write spec" "" 0];
                         Column.mk 4 "Archive" []])
                 sample_model)))
           None "]").
  - by_computation.
  - unfold sizes_ok. by_computation.
  - reflexivity.
  - discriminate.
  - reflexivity.
  - right. split; by_computation.
Defined.

Lemma two_escapes_cancel_witness :
  let m := entry_just_opened in
  @Update line_buffer decimal_time sample_env m None (KeyMsg "esc")
  = Some (set_inputState NormalMode m, None, CmdNil)
  ∧ ∃ m',
      @run line_buffer decimal_time m None
        [(sample_env, KeyMsg "esc"); (sample_env, KeyMsg "esc")] = Some (m', None)
      ∧ inputMode m' = false ∧ dialogType m' = NoDialog ∧ editingTask m' = None
      ∧ textInput m' = @Reset line_buffer (textInput m)
      ∧ geometry m' = geometry m ∧ lastID m' = lastID m.
Proof.
  apply (@two_escapes_cancel line_buffer decimal_time sample_env sample_env
           entry_just_opened None).
  - reflexivity.
  - reflexivity.
  - discriminate.
Defined.

(** ** The tasks on the board, as a multiset *)

Lemma wrap_pred_ne (c : Z) : wrap (c - 1) ≠ c.
Proof.
  intros Hc. pose proof (wrap_is_int (c - 1)) as Hint. rewrite Hc in Hint.
  revert Hc. unfold wrap, is_int, int_min, int_max in *.
  destruct (decide (c = - 2 ^ 63)) as [->|Hne]; [by vm_compute|].
  rewrite Z.mod_small by lia. lia.
Qed.

Lemma wrap_succ_ne (c : Z) : wrap (c + 1) ≠ c.
Proof.
  intros Hc. pose proof (wrap_is_int (c + 1)) as Hint. rewrite Hc in Hint.
  revert Hc. unfold wrap, is_int, int_min, int_max in *.
  destruct (decide (c = 2 ^ 63 - 1)) as [->|Hne]; [by vm_compute|].
  rewrite Z.mod_small by lia. lia.
Qed.

Lemma concat_alter_split (cols : list Column.t) (i : nat) (col : Column.t) :
  cols !! i = Some col →
  ∃ l1 l2,
    concat (Column.Tasks <$> cols) = l1 ++ Column.Tasks col ++ l2
    ∧ ∀ ts, concat (Column.Tasks <$> alter (Column.with_Tasks ts) i cols)
            = l1 ++ ts ++ l2.
Proof.
  revert i. induction cols as [|c cols IH]; intros [|i] Hi; simplify_eq/=.
  - by exists [], (concat (Column.Tasks <$> cols)).
  - destruct (IH i Hi) as (l1 & l2 & E1 & E2).
    exists (Column.Tasks c ++ l1), l2. split.
    + by rewrite E1, (assoc_L (++)).
    + intros ts. by rewrite E2, (assoc_L (++)).
Qed.

Lemma ids_set_tasks_perm (b : KanbanBoard) (c : Z) (col : Column.t) :
  index (Columns b) c = Some col →
  ∃ rest,
    ids b ≡ₚ (Task.ID <$> Column.Tasks col) ++ rest
    ∧ ∀ ts, ids (set_tasks c ts b) ≡ₚ (Task.ID <$> ts) ++ rest.
Proof.
  intros [_ Hcol]%index_Some.
  destruct (concat_alter_split _ _ _ Hcol) as (l1 & l2 & E1 & E2).
  exists (Task.ID <$> (l1 ++ l2)). unfold ids, all_tasks, set_tasks. cbn. split.
  - rewrite E1, !fmap_app. apply Permutation_app_swap_app.
  - intros ts. rewrite E2, !fmap_app. apply Permutation_app_swap_app.
Qed.

Lemma remove_index_perm {A} (s l : list A) (i : Z) (x : A) :
  index s i = Some x → remove s i = Some l → is_int i → s ≡ₚ x :: l.
Proof.
  intros [_ Hx]%index_Some Hr Hi. apply remove_Some in Hr as [_ ->]; [|done].
  rewrite <- (take_drop_middle _ _ _ Hx) at 1. symmetry. apply Permutation_middle.
Qed.

(** A task appended to a column. *)
Lemma ids_add (b : KanbanBoard) (c : Z) (col : Column.t) (t : Task.t) :
  index (Columns b) c = Some col →
  ids (set_tasks c (Column.Tasks col ++ [t]) b) ≡ₚ Task.ID t :: ids b.
Proof.
  intros Hcol. destruct (ids_set_tasks_perm _ _ _ Hcol) as (rest & E1 & E2).
  rewrite E1, E2, fmap_app. cbn.
  rewrite <- (assoc_L (++)). cbn. symmetry. apply Permutation_middle.
Qed.

(** A task taken off a column. *)
Lemma ids_delete (b : KanbanBoard) (c i : Z) (col : Column.t) (l : list Task.t)
    (t : Task.t) :
  index (Columns b) c = Some col → index (Column.Tasks col) i = Some t →
  remove (Column.Tasks col) i = Some l → is_int i →
  ids b ≡ₚ Task.ID t :: ids (set_tasks c l b).
Proof.
  intros Hcol Ht Hr Hi.
  destruct (ids_set_tasks_perm _ _ _ Hcol) as (rest & E1 & E2).
  rewrite E1, E2. by rewrite (remove_index_perm _ _ _ _ Ht Hr Hi).
Qed.

(** A task taken off a column and appended to another. *)
Lemma ids_move (b : KanbanBoard) (c i d : Z) (col dcol : Column.t)
    (l : list Task.t) (t : Task.t) :
  index (Columns b) c = Some col → index (Column.Tasks col) i = Some t →
  remove (Column.Tasks col) i = Some l → is_int i →
  index (Columns b) d = Some dcol → d ≠ c →
  ids (set_tasks d (Column.Tasks dcol ++ [t]) (set_tasks c l b)) ≡ₚ ids b.
Proof.
  intros Hcol Ht Hr Hi Hdcol Hne.
  assert (0 ≤ c) as Hc by (apply index_Some in Hcol; lia).
  rewrite ids_add by (by rewrite index_set_tasks_ne).
  symmetry. by apply ids_delete with i col.
Qed.

Lemma ids_store_Title_eq (p : Z * Z) (v : string) (b : KanbanBoard) :
  ids (store_Title p v b) ≡ₚ ids b.
Proof.
  unfold store_Title, tasks_of.
  destruct (index (Columns b) p.1) as [col|] eqn:Hcol; cbn.
  - destruct (index (Column.Tasks col) p.2); [|done].
    destruct (ids_set_tasks_perm _ _ _ Hcol) as (rest & E1 & E2).
    by rewrite E1, E2, ids_alter_Title.
  - by rewrite index_out_of_range by (unfold len; cbn; lia).
Qed.

Section Multiset.
Context `{TextInput} `{TimeCodec}.

(** One transition, on the ids of the board as a multiset: it keeps them;
    or it is the commit of a new task, and adds the next value of the id
    counter; or it is a confirmed delete, and takes off the id of the task
    under the cursor. *)
Lemma Update_ids_perm env m disk msg m' disk' cmd :
  is_int (cursorTask m) →
  Update env m disk msg = Some (m', disk', cmd) →
  (lastID m' = lastID m ∧ ids (board m') ≡ₚ ids (board m))
  ∨ (lastID m' = wrap (lastID m + 1)
     ∧ ids (board m') ≡ₚ wrap (lastID m + 1) :: ids (board m)
     ∧ msg = KeyMsg "enter" ∧ inputMode m = true ∧ Value (textInput m) ≠ "")
  ∨ (lastID m' = lastID m
     ∧ dialogType m = DeleteDialog
     ∧ ∃ k t, msg = KeyMsg k ∧ k ∈ ["y"; "Y"]
         ∧ index (tasks_of (board m) (cursorColumn m)) (cursorTask m) = Some t
         ∧ ids (board m) ≡ₚ Task.ID t :: ids (board m')).
Proof.
  intros Hint HU.
  unfold Update, Update_DeleteDialog, Update_inputMode, Update_browsing,
    Update_WindowSizeMsg, Update_enter, Update_quit, Update_textInput,
    Update_move in HU.
  destruct msg as [k|w h|]; cases_of HU; simplify_eq/=.
  all: repeat match goal with
       | Hb : bool_decide _ = true |- _ => apply bool_decide_eq_true in Hb
       | Hb : bool_decide _ = false |- _ => apply bool_decide_eq_false in Hb
       | Hk : key_in _ _ = true |- _ => apply bool_decide_eq_true in Hk
       | Hk : key_in _ _ = false |- _ => clear Hk
       | Hu : updateViewportContent _ _ = _ |- _ => clear Hu
       end.
  all: try (left; split; [by repeat case_bool_decide|];
            repeat case_bool_decide; cbn;
            first [ done | apply ids_store_Title_eq
                  | eapply ids_move; eauto using wrap_pred_ne, wrap_succ_ne ]).
  { right; right.
    assert (lastID (if bool_decide (cursorTask m >= len l ∧ cursorTask m > 0)
                    then set_cursorTask (wrap (cursorTask m - 1))
                           (set_board (set_tasks (cursorColumn m) l (board m)) m)
                    else set_board (set_tasks (cursorColumn m) l (board m)) m)
            = lastID m) as -> by (by case_bool_decide).
    assert (board (if bool_decide (cursorTask m >= len l ∧ cursorTask m > 0)
                   then set_cursorTask (wrap (cursorTask m - 1))
                          (set_board (set_tasks (cursorColumn m) l (board m)) m)
                   else set_board (set_tasks (cursorColumn m) l (board m)) m)
            = set_tasks (cursorColumn m) l (board m)) as -> by (by case_bool_decide).
    split; [done|]. split; [done|].
    destruct (remove_Some _ _ _ Heqo0 Hint) as [Hrange _].
    destruct (index_in_range _ _ Hrange) as [task Htask].
    exists k, task. rewrite (tasks_of_index _ _ _ Heqo).
    split; [done|]. split; [done|]. split; [done|].
    by apply ids_delete with (cursorTask m) t. }
  all: right; left; split; [done|]; split; [by apply ids_add|];
    split; [|done];
    match goal with Hk : _ ∈ ["enter"] |- _ =>
      by apply list_elem_of_singleton in Hk as -> end.
Qed.
End Multiset.

Section Distinct.
Context `{TextInput} `{TimeCodec}.

Lemma max_is_int a b : is_int a → is_int b → is_int (max a b).
Proof. unfold max. by case_bool_decide. Qed.

Lemma min_is_int a b : is_int a → is_int b → is_int (min a b).
Proof. unfold min. by case_bool_decide. Qed.

(** The row of the cursor is an [int] after every transition. *)
Lemma Update_cursorTask_int env m disk msg m' disk' cmd :
  is_int (cursorTask m) →
  Update env m disk msg = Some (m', disk', cmd) → is_int (cursorTask m').
Proof.
  intros Hint HU.
  assert (is_int 0) as H0' by (by vm_compute).
  unfold Update, Update_DeleteDialog, Update_inputMode, Update_browsing,
    Update_WindowSizeMsg, Update_enter, Update_quit, Update_textInput,
    Update_move in HU.
  destruct msg as [k|w h|]; cases_of HU; simplify_eq/=;
    repeat match goal with
    | Hu : updateViewportContent _ _ = _ |- _ => clear Hu
    | Hb : bool_decide _ = _ |- _ => clear Hb
    end;
    repeat case_bool_decide; cbn;
    auto using wrap_is_int, max_is_int, min_is_int.
Qed.

(** One transition keeps the ids of the board distinct. *)
Lemma Update_NoDup env m disk msg m' disk' cmd :
  Update env m disk msg = Some (m', disk', cmd) →
  is_int (cursorTask m) → ids_bounded m → is_int (lastID m) → lastID m < int_max →
  NoDup (ids (board m)) → NoDup (ids (board m')).
Proof.
  intros HU Hc Hb Hint Hmax Hnd.
  destruct (Update_ids_perm _ _ _ _ _ _ _ Hc HU)
    as [[_ Hp]|[(_ & Hp & _)|(_ & _ & k & t & _ & _ & _ & Hp)]].
  - by rewrite Hp.
  - rewrite Hp. rewrite wrap_id by int_arith. apply NoDup_cons_2; [|done].
    intros Hin. specialize (Hb _ Hin). lia.
  - rewrite Hp in Hnd. by apply NoDup_cons_1_2 in Hnd.
Qed.

(** X11 (ids stay distinct). In one session that starts with distinct ids,
    none of them above the id counter, the ids of the tasks on the board
    are distinct at every moment, as long as the counter does not pass the
    largest [int]. *)
Theorem ids_stay_distinct (evs : list (Env * Msg)) (m m' : model)
    (disk disk' : Disk) :
  NoDup (ids (board m)) → ids_bounded m →
  is_int (lastID m) → is_int (cursorTask m) → lastID m + len evs ≤ int_max →
  run m disk evs = Some (m', disk') →
  NoDup (ids (board m')) ∧ ids_bounded m'.
Proof.
  revert m disk. induction evs as [|[env msg] evs IH];
    intros m disk Hnd Hb Hint Hc Hmax Hrun.
  - by simplify_eq/=.
  - assert (len ((env, msg) :: evs) = len evs + 1) as Hlen
      by (unfold len; cbn; lia).
    rewrite Hlen in *. pose proof (len_nonneg evs) as Hevs.
    cbn in Hrun. destruct (Update env m disk msg) as [[[m1 d1] cmd]|] eqn:HU; [|done].
    destruct (Update_ids_bounded _ _ _ _ _ _ _ HU Hb Hint) as (Hb1 & Hint1 & Hl1 & _);
      [lia|].
    assert (NoDup (ids (board m1))) as Hnd1
      by (apply (Update_NoDup _ _ _ _ _ _ _ HU); try done; lia).
    pose proof (Update_cursorTask_int _ _ _ _ _ _ _ Hc HU) as Hc1.
    assert (run m1 d1 evs = Some (m', disk') →
            NoDup (ids (board m')) ∧ ids_bounded m') as Hrec
      by (intros Hrun'; apply (IH m1 d1); try done; lia).
    destruct cmd; try (by apply Hrec). by simplify_eq/=.
Qed.

(** X12 (a task leaves the board only by a confirmed delete). A transition
    keeps every task that is on the board, each id as many times as it was
    there; the one exception is [y] or [Y] in the delete dialog, which takes
    off the task under the cursor and no other. *)
Theorem tasks_leave_only_by_delete (env : Env) (m m' : model)
    (disk disk' : Disk) (msg : Msg) (cmd : Cmd) :
  is_int (cursorTask m) →
  Update env m disk msg = Some (m', disk', cmd) →
  ids (board m) ⊆+ ids (board m')
  ∨ (dialogType m = DeleteDialog
     ∧ ∃ k t, msg = KeyMsg k ∧ k ∈ ["y"; "Y"]
         ∧ index (tasks_of (board m) (cursorColumn m)) (cursorTask m) = Some t
         ∧ ids (board m) ≡ₚ Task.ID t :: ids (board m')).
Proof.
  intros Hc HU.
  destruct (Update_ids_perm _ _ _ _ _ _ _ Hc HU)
    as [[_ Hp]|[(_ & Hp & _)|(_ & Hd & k & t & Hk)]].
  - left. by rewrite Hp.
  - left. rewrite Hp. by apply submseteq_cons.
  - right. split; [done|]. by exists k, t.
Qed.

End Distinct.

Lemma ids_stay_distinct_witness :
  let m' := (state_after sample_model (keys ["a"; "x"; "enter"; "d"; "y"])).1 in
  NoDup (ids (board m')) ∧ ids_bounded m'.
Proof.
  apply (@ids_stay_distinct line_buffer decimal_time
           (keys ["a"; "x"; "enter"; "d"; "y"]) sample_model
           (state_after sample_model (keys ["a"; "x"; "enter"; "d"; "y"])).1 None
           (state_after sample_model (keys ["a"; "x"; "enter"; "d"; "y"])).2).
  - by_computation.
  - unfold ids_bounded. intros x Hx.
    assert (x ∈ [1; 2]) as Hx' by exact Hx. set_unfold. lia.
  - by_computation.
  - by_computation.
  - by_computation.
  - by vm_compute.
Defined.

Lemma tasks_leave_only_by_delete_witness :
  let m := set_dialogType DeleteDialog sample_model in
  let m' := (state_after m (keys ["y"])).1 in
  ids (board m) ⊆+ ids (board m')
  ∨ (dialogType m = DeleteDialog
     ∧ ∃ k t, KeyMsg "y" = KeyMsg k ∧ k ∈ ["y"; "Y"]
         ∧ index (tasks_of (board m) (cursorColumn m)) (cursorTask m) = Some t
         ∧ ids (board m) ≡ₚ Task.ID t :: ids (board m')).
Proof.
  apply (@tasks_leave_only_by_delete line_buffer decimal_time sample_env
           (set_dialogType DeleteDialog sample_model)
           (state_after (set_dialogType DeleteDialog sample_model) (keys ["y"])).1
           None
           (state_after (set_dialogType DeleteDialog sample_model) (keys ["y"])).2
           (KeyMsg "y") CmdNil).
  - by_computation.
  - by vm_compute.
Defined.

(** ** The start of a session *)

Lemma highest_in_mem ts l :
  highest_in ts l = l ∨ highest_in ts l ∈ Task.ID <$> ts.
Proof.
  unfold highest_in. revert l. induction ts as [|t ts IH]; intros l; cbn; [by left|].
  destruct (IH (if bool_decide (Task.ID t > l) then Task.ID t else l)) as [E|Hin].
  - rewrite E. case_bool_decide; [right; apply elem_of_cons; by left|by left].
  - right. apply elem_of_cons. by right.
Qed.

Lemma highest_ID_mem b l : highest_ID b l = l ∨ highest_ID b l ∈ ids b.
Proof.
  unfold highest_ID, ids, all_tasks. destruct b as [cols]. cbn.
  revert l. induction cols as [|c cols IH]; intros l; cbn; [by left|].
  rewrite fmap_app.
  destruct (IH (highest_in (Column.Tasks c) l)) as [E|Hin].
  - rewrite E. destruct (highest_in_mem (Column.Tasks c) l) as [E'|Hin'].
    + by left.
    + right. apply elem_of_app. by left.
  - right. apply elem_of_app. by right.
Qed.

Section Start.
Context `{TextInput} `{TimeCodec}.

(** X13 (the id counter at the start). A session that starts without an
    error starts with the id counter on the highest id of the board it has
    read, and on 0 when the board has no task or no id above 0: no id of the
    board is above the counter. *)
Theorem counter_starts_at_highest_id (ti : textinput_Model) (r : ReadOutcome)
    (disk : Disk) :
  err (initialModel ti r disk) = None →
  let m := initialModel ti r disk in
  ids_bounded m ∧ 0 ≤ lastID m ∧ (lastID m = 0 ∨ lastID m ∈ ids (board m)).
Proof.
  unfold initialModel, loadBoard, loadBoard_fields, ids_bounded.
  destruct r as [|e], disk as [[doc|]|]; cbn; try done;
    try (intros _; split; [by intros x ?%elem_of_nil|split; [done|by left]]).
  destruct (KanbanBoard_UnmarshalJSON default_board doc) as [b []]; cbn; try done.
  intros _. destruct (highest_ID_ge b 0) as [H0' Hall].
  split; [done|]. split; [done|]. apply highest_ID_mem.
Qed.

(** X14 (from one session to the next). A session that starts on the file
    that another one has saved starts with the board of that one, browsing,
    the cursor on the first row of the first column, no dialog open and no
    error. Its id counter is the highest id of that board, or 0 when the
    board has no id above 0: no id of the board is above it. When the
    session that saved had no id above its own counter, and a counter that
    is not negative, the new counter is not above that one. *)
Theorem next_session_resumes (ti : textinput_Model) (env : Env) (m : model)
    (disk : Disk) :
  time_roundtrip → representable (board m) → write env = Written →
  let m' := initialModel ti ReadDone (saveBoard env m disk).1 in
  board m' = board m
  ∧ (cursorColumn m', cursorTask m') = (0, 0)
  ∧ (inputMode m', dialogType m', editingTask m', err m') = (false, NoDialog, None, None)
  ∧ ids_bounded m' ∧ 0 ≤ lastID m'
  ∧ (lastID m' = 0 ∨ lastID m' ∈ ids (board m))
  ∧ (ids_bounded m → 0 ≤ lastID m → lastID m' ≤ lastID m).
Proof.
  intros Htime Hb Hw.
  unfold initialModel, loadBoard, loadBoard_fields, saveBoard, saveBoard_file.
  rewrite Hw. cbn [fst]. rewrite KanbanBoard_roundtrip by done. cbn.
  destruct (highest_ID_ge (board m) 0) as [H0' Hall].
  split; [done|]. split; [done|]. split; [done|]. split; [done|].
  split; [done|]. split; [apply highest_ID_mem|].
  intros Hids Hl.
  destruct (highest_ID_mem (board m) 0) as [->|Hin]; [done|]. by apply Hids.
Qed.

(** X15 (a file with fewer than three columns). A session that starts on a
    file in the format of [saveBoard] that holds fewer than three columns
    starts without an error, and panics at the first message of a window
    size. *)
Theorem short_file_panics_on_resize (ti : textinput_Model) (env : Env)
    (b : KanbanBoard) (disk : Disk) (w h : Z) :
  time_roundtrip → representable b → len (Columns b) < 3 →
  let m := initialModel ti ReadDone (Some (Document (KanbanBoard_MarshalJSON b))) in
  board m = b ∧ err m = None
  ∧ Update env m disk (WindowSizeMsg w h) = None.
Proof.
  intros Htime Hb Hlen.
  unfold initialModel, loadBoard, loadBoard_fields.
  rewrite KanbanBoard_roundtrip by done. cbn.
  split; [done|]. split; [done|].
  unfold Update_WindowSizeMsg, updateViewportContent, viewports_len. cbn.
  pose proof (len_nonneg (Columns b)).
  repeat case_bool_decide; cbn; try done; lia.
Qed.

End Start.

Section Edges.
Context `{TextInput} `{TimeCodec}.

(** X16 (the delete dialog is over a task). With the cursor in range, the
    delete dialog is open only when there is a task under the cursor, after
    every transition: the title that the dialog shows is the title of a
    task of the board. *)
Theorem delete_dialog_is_over_a_task (env : Env) (m m' : model)
    (disk disk' : Disk) (msg : Msg) (cmd : Cmd) :
  three_columns (board m) → cursor_ok m →
  (dialogType m = DeleteDialog →
   is_Some (index (tasks_of (board m) (cursorColumn m)) (cursorTask m))) →
  Update env m disk msg = Some (m', disk', cmd) →
  dialogType m' = DeleteDialog →
  is_Some (index (tasks_of (board m') (cursorColumn m')) (cursorTask m')).
Proof.
  intros H3 [Hc Ht] Hinv HU Hd'.
  unfold Update, Update_DeleteDialog, Update_inputMode, Update_browsing,
    Update_WindowSizeMsg, Update_enter, Update_quit, Update_textInput,
    Update_move in HU.
  destruct msg as [k|w h|]; cases_of HU; simplify_eq/=;
    repeat match goal with
    | Hu : updateViewportContent _ _ = _ |- _ => clear Hu
    | Hk : key_in _ _ = _ |- _ => clear Hk
    | Hb : bool_decide _ = true |- _ => apply bool_decide_eq_true in Hb
    | Hb : bool_decide _ = false |- _ => apply bool_decide_eq_false in Hb
    end;
    try done; try (by apply Hinv);
    try (by destruct (bool_decide _)).
  rewrite (tasks_of_index _ _ _ Heqo) in *. apply index_in_range.
  rewrite max_1_len, bool_decide_eq_true_2 in Ht by done. done.
Qed.

End Edges.

Lemma counter_starts_at_highest_id_witness :
  let m := @initialModel line_buffer decimal_time ""
             ReadDone
             (Some (Document (@KanbanBoard_MarshalJSON decimal_time sample_board))) in
  ids_bounded m ∧ 0 ≤ lastID m ∧ (lastID m = 0 ∨ lastID m ∈ ids (board m)).
Proof.
  apply (@counter_starts_at_highest_id line_buffer decimal_time ""
           ReadDone
           (Some (Document (@KanbanBoard_MarshalJSON decimal_time sample_board)))).
  by vm_compute.
Defined.

Lemma next_session_resumes_witness :
  let m' := @initialModel line_buffer decimal_time "" ReadDone
              (@saveBoard line_buffer decimal_time sample_env sample_model None).1 in
  board m' = board sample_model
  ∧ (cursorColumn m', cursorTask m') = (0, 0)
  ∧ (inputMode m', dialogType m', editingTask m', err m') = (false, NoDialog, None, None)
  ∧ ids_bounded m' ∧ 0 ≤ lastID m'
  ∧ (lastID m' = 0 ∨ lastID m' ∈ ids (board sample_model))
  ∧ (ids_bounded sample_model → 0 ≤ lastID sample_model →
     lastID m' ≤ lastID sample_model).
Proof.
  apply (@next_session_resumes line_buffer decimal_time "" sample_env
           sample_model None).
  - exact decimal_time_roundtrip.
  - unfold representable, column_representable. by_computation.
  - reflexivity.
Defined.

Lemma short_file_panics_on_resize_witness :
  let b := Board [Column.mk 1 "To Do" [Task.mk 1 "Write spec" "" 0];
                  Column.mk 2 "Done" []] in
  let m := @initialModel line_buffer decimal_time "" ReadDone
             (Some (Document (@KanbanBoard_MarshalJSON decimal_time b))) in
  board m = b ∧ err m = None
  ∧ @Update line_buffer decimal_time sample_env m None (WindowSizeMsg 80 24) = None.
Proof.
  apply (@short_file_panics_on_resize line_buffer decimal_time "" sample_env
           (Board [Column.mk 1 "To Do" [Task.mk 1 "Write spec" "" 0];
                   Column.mk 2 "Done" []])
           None 80 24).
  - exact decimal_time_roundtrip.
  - unfold representable, column_representable. by_computation.
  - by_computation.
Defined.

Lemma delete_dialog_is_over_a_task_witness :
  let m' := set_dialogType DeleteDialog sample_model in
  is_Some (index (tasks_of (board m') (cursorColumn m')) (cursorTask m')).
Proof.
  apply (@delete_dialog_is_over_a_task line_buffer decimal_time sample_env
           sample_model (set_dialogType DeleteDialog sample_model) None None
           (KeyMsg "d") CmdNil).
  - reflexivity.
  - unfold cursor_ok. by_computation.
  - discriminate.
  - by vm_compute.
  - reflexivity.
Defined.

(** ** Sessions *)

Lemma len_tasks_le_count (b : KanbanBoard) (i : nat) (col : Column.t) :
  Columns b !! i = Some col → len (Column.Tasks col) ≤ task_count b.
Proof.
  intros Hcol. destruct (concat_alter_split _ _ _ Hcol) as (l1 & l2 & E & _).
  unfold task_count, all_tasks. rewrite E, !len_app.
  pose proof (len_nonneg l1). pose proof (len_nonneg l2). lia.
Qed.

Lemma sizes_ok_of_count (b : KanbanBoard) : task_count b ≤ int_max → sizes_ok b.
Proof.
  intros Hn. unfold sizes_ok. apply Forall_lookup. intros i col Hcol.
  pose proof (len_tasks_le_count _ _ _ Hcol). lia.
Qed.

Lemma task_count_ids (b : KanbanBoard) : task_count b = len (ids b).
Proof. unfold task_count, ids, len. by rewrite length_fmap. Qed.

Section Sessions.
Context `{TextInput} `{TimeCodec}.

Lemma Update_keeps_cursor env m disk msg :
  three_columns (board m) → sizes_ok (board m) → cursor_ok m →
  keeps_cursor (Update env m disk msg).
Proof.
  intros H3 Hs Hok. destruct msg as [k|w h|]; cbn.
  - case_bool_decide; [by apply Update_DeleteDialog_cursor|].
    destruct (inputMode m);
      [by apply Update_inputMode_cursor|by apply Update_browsing_cursor].
  - by apply Update_WindowSizeMsg_cursor.
  - by apply keeps_cursor_same with m.
Qed.

(** A transition adds one task at most. *)
Lemma Update_task_count env m disk msg m' disk' cmd :
  is_int (cursorTask m) →
  Update env m disk msg = Some (m', disk', cmd) →
  task_count (board m') ≤ task_count (board m) + 1.
Proof.
  intros Hc HU. rewrite !task_count_ids. unfold len.
  destruct (Update_ids_perm _ _ _ _ _ _ _ Hc HU)
    as [[_ Hp]|[(_ & Hp & _)|(_ & _ & k & t & _ & _ & _ & Hp)]];
    apply Permutation_length in Hp; cbn in Hp; lia.
Qed.

(** X17 (a session does not panic). From a model with its three columns
    and a cursor in range (as the model of a start without a file is), a
    session of any messages runs to its end or to its quit, and no
    transition of it panics on an index, a slice or a division, as long as
    the board does not get more tasks than an [int] counts; the model it
    ends with has its three columns and a cursor in range. *)
Theorem session_does_not_panic (evs : list (Env * Msg)) (m : model) (disk : Disk) :
  three_columns (board m) → cursor_ok m →
  task_count (board m) + len evs ≤ int_max →
  ∃ m' disk',
    run m disk evs = Some (m', disk')
    ∧ three_columns (board m') ∧ cursor_ok m'.
Proof.
  revert m disk. induction evs as [|[env msg] evs IH]; intros m disk H3 Hok Hn.
  - by exists m, disk.
  - assert (len ((env, msg) :: evs) = len evs + 1) as Hlen
      by (unfold len; cbn; lia).
    rewrite Hlen in Hn. pose proof (len_nonneg evs) as Hevs.
    assert (sizes_ok (board m)) as Hs by (apply sizes_ok_of_count; lia).
    assert (is_int (cursorTask m)) as Hint.
    { destruct Hok as [_ Ht]. pose proof (sizes_ok_tasks_of _ (cursorColumn m) Hs).
      rewrite max_1_len in Ht. case_bool_decide; int_arith. }
    destruct (Update_keeps_cursor env m disk msg H3 Hs Hok)
      as (m1 & d1 & cmd & HU & H31 & Hok1).
    pose proof (Update_task_count _ _ _ _ _ _ _ Hint HU) as Hn1.
    cbn. rewrite HU.
    destruct (IH m1 d1 H31 Hok1) as (m' & disk' & Hrun & H3' & Hok'); [lia|].
    destruct cmd; try (by exists m', disk'). by exists m1, d1.
Qed.

(** X18 (the task that is edited). In a session that starts with no task
    being edited, whenever the pointer to the edited task is set, the edit
    dialog is open and the pointer is the address of the task under the
    cursor: the commit of the edit writes the title of that task. *)
Theorem edited_task_is_under_the_cursor (evs : list (Env * Msg)) (m m' : model)
    (disk disk' : Disk) :
  editingTask m = None →
  run m disk evs = Some (m', disk') →
  match editingTask m' with
  | None => True
  | Some p =>
      inputMode m' = true ∧ dialogType m' = EditDialog
      ∧ p = (cursorColumn m', cursorTask m')
      ∧ is_Some (index (tasks_of (board m') (cursorColumn m')) (cursorTask m'))
  end.
Proof.
  intros Hnone Hrun.
  enough (editing_bound m') as Hb.
  { unfold editing_bound in Hb. destruct (editingTask m') as [p|]; [|done].
    destruct Hb as (? & ? & -> & ?). done. }
  assert (editing_bound m) as Hb by (unfold editing_bound; by rewrite Hnone).
  clear Hnone. revert m disk Hb Hrun.
  induction evs as [|[env msg] evs IH]; intros m disk Hb Hrun.
  - by simplify_eq/=.
  - cbn in Hrun.
    destruct (Update env m disk msg) as [[[m1 d1] cmd]|] eqn:HU; [|done].
    destruct (editing_alias _ _ _ _ _ _ _ Hb HU) as [Hb1 _].
    destruct cmd; try (by apply (IH m1 d1)). by simplify_eq/=.
Qed.

End Sessions.

Lemma session_does_not_panic_witness :
  ∃ m' disk',
    @run line_buffer decimal_time
      (@initialModel line_buffer decimal_time "" ReadDone None) None
      (keys ["a"; "x"; "enter"; "]"; "d"; "y"; "l"; "e"])
    = Some (m', disk')
    ∧ three_columns (board m') ∧ cursor_ok m'.
Proof.
  apply (@session_does_not_panic line_buffer decimal_time
           (keys ["a"; "x"; "enter"; "]"; "d"; "y"; "l"; "e"])
           (@initialModel line_buffer decimal_time "" ReadDone None) None).
  - reflexivity.
  - unfold cursor_ok. by_computation.
  - by_computation.
Defined.

Lemma edited_task_is_under_the_cursor_witness :
  let m' := (state_after sample_model (keys ["e"; "x"])).1 in
  match editingTask m' with
  | None => True
  | Some p =>
      inputMode m' = true ∧ dialogType m' = EditDialog
      ∧ p = (cursorColumn m', cursorTask m')
      ∧ is_Some (index (tasks_of (board m') (cursorColumn m')) (cursorTask m'))
  end.
Proof.
  apply (@edited_task_is_under_the_cursor line_buffer decimal_time
           (keys ["e"; "x"]) sample_model
           (state_after sample_model (keys ["e"; "x"])).1 None
           (state_after sample_model (keys ["e"; "x"])).2).
  - reflexivity.
  - by vm_compute.
Defined.

(** ** The earlier variant: the text entry, and the keys that both variants have *)

Section Variants.
Context `{TextInput} `{TimeCodec}.

(** X19 (the text entry of the earlier variant). In part_000 the switch on
    the key comes before the text entry: with the entry open, [q] and
    [ctrl+c] save and quit and [?] shows or hides the help, none of them
    reaching the text input; every key other than these, [enter] and [esc]
    goes to the text input only, and changes neither the board, the cursor
    nor the file. *)
Theorem entry_keys_of_the_earlier_variant (env : Env) (m : Legacy.model)
    (disk : Disk) (k : string) :
  Legacy.inputMode m = true →
  (k ∈ ["ctrl+c"; "q"] → write env = Written →
   Legacy.Update env m disk (KeyMsg k)
   = Some (m, Some (Document (KanbanBoard_MarshalJSON (Legacy.board m))), tea_Quit))
  ∧ (k = "?" →
     Legacy.Update env m disk (KeyMsg k)
     = Some (Legacy.set_showHelp (negb (Legacy.showHelp m)) m, disk, CmdNil))
  ∧ ((k ∉ ["ctrl+c"; "q"; "?"; "enter"; "esc"]) →
     Legacy.Update env m disk (KeyMsg k)
     = Some (Legacy.set_textInput
               (textinput_Update (Legacy.textInput m) (KeyMsg k)) m,
             disk, textinput_Cmd)).
Proof.
  intros Hi. split; [|split].
  - intros Hk Hw. unfold Legacy.Update, Legacy.Update_key.
    assert (key_in k ["ctrl+c"; "q"] = true) as -> by (by apply bool_decide_eq_true).
    unfold Legacy.saveBoard, saveBoard_file. by rewrite Hw.
  - intros ->. unfold Legacy.Update, Legacy.Update_key. by eval_keys.
  - intros Hk. unfold Legacy.Update, Legacy.Update_key, Legacy.Update_move.
    assert (key_in k ["ctrl+c"; "q"] = false) as ->
      by (apply bool_decide_eq_false; intros Hin; apply Hk; set_unfold; tauto).
    assert (key_in k ["?"] = false) as ->
      by (apply bool_decide_eq_false; intros Hin; apply Hk; set_unfold; tauto).
    assert (key_in k ["enter"] = false) as ->
      by (apply bool_decide_eq_false; intros Hin; apply Hk; set_unfold; tauto).
    assert (key_in k ["esc"] = false) as ->
      by (apply bool_decide_eq_false; intros Hin; apply Hk; set_unfold; tauto).
    rewrite Hi. cbn.
    repeat (match goal with |- context [key_in k ?ks] => destruct (key_in k ks) end;
            cbn; rewrite ?Hi; try done).
Qed.

(** X20 (the keys that both variants have). Browsing a board of three
    columns with no dialog open, gotask.go does on every key other than
    [a], [n], [e] and [d] what part_000 does: the same board, cursor, id
    counter, error and help flag, the same file, the same command. *)
Theorem variants_agree_when_browsing (env : Env) (m : model) (disk : Disk)
    (k : string) :
  three_columns (board m) → 0 ≤ cursorColumn m < 3 →
  inputMode m = false → dialogType m ≠ DeleteDialog →
  (k ∉ ["a"; "n"; "e"; "d"]) →
  Legacy.Update env (earlier m) disk (KeyMsg k)
  = (λ r : model * Disk * Cmd, (earlier r.1.1, r.1.2, r.2))
    <$> Update env m disk (KeyMsg k).
Proof.
  intros H3 Hc Hi Hd Hk. rewrite Update_browsing_key by done.
  destruct (index_in_range (Columns (board m)) (cursorColumn m)) as [col Hcol];
    [int_arith|].
  assert (wrap (len (Columns (board m)) - 1) = 2) as Hlast
    by (rewrite H3; by vm_compute).
  assert (∀ c ts, 0 ≤ c < 3 → three_columns (set_tasks c ts (board m))) as H3'.
  { intros c ts _. unfold three_columns. by rewrite len_Columns_set_tasks. }
  unfold Legacy.Update, Legacy.Update_key, Legacy.Update_move,
    Update_browsing, Update_move, Update_quit,
    Legacy.save_noting_error, save_noting_error, Legacy.saveBoard, saveBoard,
    saveBoard_file.
  cbn [earlier Legacy.board Legacy.cursorColumn Legacy.cursorTask
       Legacy.inputMode Legacy.showHelp].
  rewrite Hi, Hlast, Hcol. cbn [negb andb].
  assert (key_in k ["a"] = false ∧ key_in k ["n"] = false
          ∧ key_in k ["e"] = false ∧ key_in k ["d"] = false)
    as (-> & -> & -> & ->).
  { repeat split; apply bool_decide_eq_false; intros Hin; apply Hk;
      set_unfold; tauto. }
  destruct (key_in k ["ctrl+c"; "q"]).
  { by destruct (write env). }
  destruct (key_in k ["?"]); [done|].
  assert (∀ (A : Type) (x y : A), (if inputMode m then x else y) = y) as Htail
    by (intros; by rewrite Hi).
  destruct (decide (k = "enter")) as [->|Hne1]; [eval_keys; cbn; by rewrite Hi|].
  destruct (decide (k = "esc")) as [->|Hne2]; [eval_keys; cbn; by rewrite Hi|].
  assert (key_in k ["enter"] = false ∧ key_in k ["esc"] = false) as [-> ->].
  { split; apply bool_decide_eq_false; by intros ?%list_elem_of_singleton. }
  assert (∀ v, updateViewportContent (set_cursorTask v m) (cursorColumn m) = Some ())
    as Hview by (intros v; by apply updateViewportContent_in_range).
  destruct (key_in k ["up"; "k"]).
  { cbn. case_bool_decide; cbn; by rewrite ?Hview, Htail. }
  destruct (key_in k ["down"; "j"]).
  { cbn. case_bool_decide; cbn; by rewrite ?Hview, Htail. }
  destruct (key_in k ["left"; "h"]).
  { case_bool_decide; cbn; rewrite Htail; [|done].
    rewrite updateViewportContent_in_range; [done..|].
    rewrite wrap_id by int_arith. lia. }
  destruct (key_in k ["right"; "l"]).
  { case_bool_decide; cbn; rewrite Htail; [|done].
    rewrite updateViewportContent_in_range; [done..|].
    rewrite wrap_id by int_arith. lia. }
  destruct (key_in k ["["; "{"]).
  { case_bool_decide; cbn; [|by rewrite Htail].
    case_bool_decide; cbn; [|by rewrite Htail].
    rewrite (wrap_id (cursorColumn m - 1)) by int_arith.
    destruct (index (Columns (board m)) (cursorColumn m - 1)) as [dcol|]; [|done].
    cbn. destruct (index (Column.Tasks col) (cursorTask m)) as [task|]; [|done].
    cbn. destruct (remove (Column.Tasks col) (cursorTask m)) as [ts|]; [|done].
    cbn. rewrite (wrap_id (cursorColumn m - 1 + 1)) by int_arith.
    rewrite !updateViewportContent_in_range
      by (try lia; cbn; unfold three_columns; rewrite len_Columns_set_tasks;
          case_bool_decide; apply H3'; lia).
    cbn. destruct (write env); case_bool_decide; cbn; by rewrite Htail. }
  destruct (key_in k ["]"; "}"]); [|cbn; by rewrite Htail].
  case_bool_decide; cbn; [|by rewrite Htail].
  case_bool_decide; cbn; [|by rewrite Htail].
  rewrite (wrap_id (cursorColumn m + 1)) by int_arith.
  destruct (index (Columns (board m)) (cursorColumn m + 1)) as [dcol|]; [|done].
  cbn. destruct (index (Column.Tasks col) (cursorTask m)) as [task|]; [|done].
  cbn. destruct (remove (Column.Tasks col) (cursorTask m)) as [ts|]; [|done].
  cbn. rewrite (wrap_id (cursorColumn m + 1 - 1)) by int_arith.
  rewrite !updateViewportContent_in_range
    by (try lia; cbn; unfold three_columns; rewrite len_Columns_set_tasks;
        case_bool_decide; apply H3'; lia).
  cbn. destruct (write env); case_bool_decide; cbn; by rewrite Htail.
Qed.
End Variants.

Lemma entry_keys_of_the_earlier_variant_witness :
  let m := @Legacy.set_inputMode line_buffer true (earlier sample_model) in
  ("j" ∈ ["ctrl+c"; "q"] → write sample_env = Written →
   @Legacy.Update line_buffer decimal_time sample_env m None (KeyMsg "j")
   = Some (m, Some (Document (@KanbanBoard_MarshalJSON decimal_time (Legacy.board m))),
           tea_Quit))
  ∧ ("j" = "?" →
     @Legacy.Update line_buffer decimal_time sample_env m None (KeyMsg "j")
     = Some (Legacy.set_showHelp (negb (Legacy.showHelp m)) m, None, CmdNil))
  ∧ (("j" ∉ ["ctrl+c"; "q"; "?"; "enter"; "esc"]) →
     @Legacy.Update line_buffer decimal_time sample_env m None (KeyMsg "j")
     = Some (Legacy.set_textInput
               (@textinput_Update line_buffer (Legacy.textInput m) (KeyMsg "j")) m,
             None, textinput_Cmd)).
Proof.
  apply (@entry_keys_of_the_earlier_variant line_buffer decimal_time sample_env
           (@Legacy.set_inputMode line_buffer true (earlier sample_model)) None "j").
  reflexivity.
Defined.

Lemma variants_agree_when_browsing_witness :
  @Legacy.Update line_buffer decimal_time sample_env (earlier sample_model) None
    (KeyMsg "]")
  = (λ r : @model line_buffer * Disk * Cmd, (earlier r.1.1, r.1.2, r.2))
    <$> @Update line_buffer decimal_time sample_env sample_model None (KeyMsg "]").
Proof.
  apply (@variants_agree_when_browsing line_buffer decimal_time sample_env
           sample_model None "]").
  - reflexivity.
  - by_computation.
  - reflexivity.
  - discriminate.
  - by_computation.
Defined.

Section Errors.
Context `{TextInput} `{TimeCodec}.

Lemma Update_err env m disk msg m' disk' cmd :
  Update env m disk msg = Some (m', disk', cmd) →
  err m' = err m ∨ ∃ e after, write env = WriteFailed e after ∧ err m' = Some e.
Proof.
  intros HU. open_Update HU.
  destruct (write env) as [|e after] eqn:Hw;
    destruct msg as [k|w h|]; cases_of HU; simplify_eq/=;
    repeat case_bool_decide; cbn; first [by left | right; by eexists _, _].
Qed.

(** X21 (an error stays). The error that the model holds is set when a
    write fails and is never cleared: once a session holds an error, it
    holds one to its end, whatever is written later. *)
Theorem error_is_never_cleared (evs : list (Env * Msg)) (m m' : model)
    (disk disk' : Disk) :
  is_Some (err m) → run m disk evs = Some (m', disk') → is_Some (err m').
Proof.
  revert m disk. induction evs as [|[env msg] evs IH]; intros m disk He Hrun.
  - by simplify_eq/=.
  - cbn in Hrun.
    destruct (Update env m disk msg) as [[[m1 d1] cmd]|] eqn:HU; [|done].
    assert (is_Some (err m1)) as He1.
    { destruct (Update_err _ _ _ _ _ _ _ HU) as [->|(e & after & _ & ->)]; done. }
    destruct cmd; try (by apply (IH m1 d1)). by simplify_eq/=.
Qed.


End Errors.

Lemma error_is_never_cleared_witness :
  is_Some (err (state_after (set_err (Some "permission denied") sample_model)
                  (keys ["]"; "a"; "x"; "enter"])).1).
Proof.
  apply (@error_is_never_cleared line_buffer decimal_time
           (keys ["]"; "a"; "x"; "enter"])
           (set_err (Some "permission denied") sample_model)
           (state_after (set_err (Some "permission denied") sample_model)
              (keys ["]"; "a"; "x"; "enter"])).1
           None
           (state_after (set_err (Some "permission denied") sample_model)
              (keys ["]"; "a"; "x"; "enter"])).2).
  - done.
  - by vm_compute.
Defined.


Section EarlierSaved.
Context `{TextInput} `{TimeCodec}.

(** X23 (the earlier variant saves every change of the board). In part_000
    too, a transition leaves the board and the file as they are, or it
    writes the file: when the write succeeds, the file holds the board of
    the model that the transition returns; when it fails, the change stays
    in the model with the error. It returns [tea.Quit] only for [q] or
    [ctrl+c], after a write that succeeded. *)
Theorem earlier_variant_saves_every_change (env : Env) (m m' : Legacy.model)
    (disk disk' : Disk) (msg : Msg) (cmd : Cmd) :
  Legacy.Update env m disk msg = Some (m', disk', cmd) →
  ((Legacy.board m' = Legacy.board m ∧ disk' = disk ∧ Legacy.err m' = Legacy.err m)
   ∨ match write env with
     | Written =>
         disk' = Some (Document (KanbanBoard_MarshalJSON (Legacy.board m')))
         ∧ Legacy.err m' = Legacy.err m
     | WriteFailed e after => disk' = after ∧ Legacy.err m' = Some e
     end)
  ∧ (cmd = tea_Quit →
     write env = Written ∧ m' = m
     ∧ ∃ k, msg = KeyMsg k ∧ k ∈ ["ctrl+c"; "q"]).
Proof.
  intros HU. unfold Legacy.Update in HU.
  apply bind_Some in HU as ([[m1 d1] oc] & HK & HU).
  assert (((Legacy.board m1 = Legacy.board m ∧ d1 = disk
            ∧ Legacy.err m1 = Legacy.err m)
           ∨ match write env with
             | Written =>
                 d1 = Some (Document (KanbanBoard_MarshalJSON (Legacy.board m1)))
                 ∧ Legacy.err m1 = Legacy.err m
             | WriteFailed e after => d1 = after ∧ Legacy.err m1 = Some e
             end)
          ∧ (oc = Some tea_Quit →
             write env = Written ∧ m1 = m
             ∧ ∃ k, msg = KeyMsg k ∧ k ∈ ["ctrl+c"; "q"])) as [Hsaved Hquit].
  { unfold Legacy.Update_key, Legacy.Update_move,
      Legacy.save_noting_error, Legacy.saveBoard, saveBoard_file in HK.
    destruct (write env) as [|e after] eqn:Hw;
      destruct msg as [k|w h|]; cases_of HK; simplify_eq/=;
      repeat match goal with
      | Hk : key_in _ ["ctrl+c"; "q"] = true |- _ => apply bool_decide_eq_true in Hk
      | Hk : key_in _ _ = _ |- _ => clear Hk
      end;
      (split; [repeat case_bool_decide; cbn; first [by left | by right]|]);
      try done; intros _; split; [done|]; split; [done|]; by eexists. }
  destruct oc as [c|]; [|destruct (Legacy.inputMode m1)]; simplify_eq/=;
    (split; [done|]); try done.
  intros ->. by apply Hquit.
Qed.

End EarlierSaved.

Lemma earlier_variant_saves_every_change_witness :
  let m := earlier sample_model in
  let r := @Legacy.Update line_buffer decimal_time sample_env m None (KeyMsg "d") in
  let m' := (default (m, None, CmdNil) r).1.1 in
  let disk' := (default (m, None, CmdNil) r).1.2 in
  ((Legacy.board m' = Legacy.board m ∧ disk' = None ∧ Legacy.err m' = Legacy.err m)
   ∨ (disk' = Some (Document (@KanbanBoard_MarshalJSON decimal_time (Legacy.board m')))
      ∧ Legacy.err m' = Legacy.err m))
  ∧ (CmdNil = tea_Quit →
     write sample_env = Written ∧ m' = m
     ∧ ∃ k, KeyMsg "d" = KeyMsg k ∧ k ∈ ["ctrl+c"; "q"]).
Proof.
  apply (@earlier_variant_saves_every_change line_buffer decimal_time sample_env
           (earlier sample_model)
           (default (earlier sample_model, None, CmdNil)
              (@Legacy.Update line_buffer decimal_time sample_env
                 (earlier sample_model) None (KeyMsg "d"))).1.1
           None
           (default (earlier sample_model, None, CmdNil)
              (@Legacy.Update line_buffer decimal_time sample_env
                 (earlier sample_model) None (KeyMsg "d"))).1.2
           (KeyMsg "d") CmdNil).
  by vm_compute.
Defined.

(** ** Typing a title *)

Section Typing.
Context `{TextInput} `{TimeCodec}.





End Typing.



(** ** A task moved and moved back *)

Section ThereAndBack.
Context `{TextInput} `{TimeCodec}.

Lemma Update_move_key env m disk k dst task :
  three_columns (board m) → sizes_ok (board m) → 0 ≤ cursorColumn m < 3 →
  dialogType m ≠ DeleteDialog → inputMode m = false →
  index (tasks_of (board m) (cursorColumn m)) (cursorTask m) = Some task →
  0 ≤ dst < 3 →
  (k ∈ ["["; "{"] ∧ dst = cursorColumn m - 1)
  ∨ (k ∈ ["]"; "}"] ∧ dst = cursorColumn m + 1) →
  Update env m disk (KeyMsg k)
  = Some (save_noting_error env (moved m dst task) disk, CmdNil).
Proof.
  intros H3 Hs Hc Hd Hi Htask Hdst Hk.
  rewrite Update_browsing_key by done.
  assert (wrap (len (Columns (board m)) - 1) = 2) as Hlast
    by (rewrite H3; by vm_compute).
  unfold Update_browsing. rewrite Hlast. set_unfold.
  destruct Hk as [[[->|[->|[]]] ->]|[[->|[->|[]]] ->]]; eval_keys; cbn;
    rewrite bool_decide_eq_true_2 by lia;
    rewrite wrap_id by int_arith;
    apply Update_move_spec; try done; try lia; rewrite wrap_id; int_arith.
Qed.

(** X26 (a task moved right and back). Browsing with the cursor on a task
    of the first or second column, []] and then [[] bring the task back to
    its column, as the last task of it: the tasks that followed it have
    moved up by one row. The other columns are as they were, and the cursor
    is on the task. *)
Theorem moved_back_task_is_last (env1 env2 : Env) (m : model) (disk : Disk)
    (task : Task.t) :
  three_columns (board m) → task_count (board m) ≤ int_max →
  0 ≤ cursorColumn m < 2 →
  dialogType m ≠ DeleteDialog → inputMode m = false →
  index (tasks_of (board m) (cursorColumn m)) (cursorTask m) = Some task →
  let ts := tasks_of (board m) (cursorColumn m) in
  ∃ m' disk',
    run m disk [(env1, KeyMsg "]"); (env2, KeyMsg "[")] = Some (m', disk')
    ∧ tasks_of (board m') (cursorColumn m)
      = take (Z.to_nat (cursorTask m)) ts ++ drop (S (Z.to_nat (cursorTask m))) ts
        ++ [task]
    ∧ (∀ c, c ≠ cursorColumn m → tasks_of (board m') c = tasks_of (board m) c)
    ∧ cursorColumn m' = cursorColumn m
    ∧ cursorTask m' = len ts - 1.
Proof.
  intros H3 Hn Hc Hd Hi Htask ts.
  pose proof Htask as [Ht _]%index_Some.
  set (src := cursorColumn m) in *. set (dst := src + 1).
  set (ds := tasks_of (board m) dst).
  assert (sizes_ok (board m)) as Hs by (by apply sizes_ok_of_count).
  cbn [run].
  assert (0 ≤ src < 3 ∧ 0 ≤ dst < 3 ∧ dst ≠ src) as (Hsrc & Hdst & Hne)
    by (unfold dst; lia).
  assert ("]" ∈ ["["; "{"] ∧ dst = cursorColumn m - 1
          ∨ "]" ∈ ["]"; "}"] ∧ dst = cursorColumn m + 1) as Hk1
    by (right; split; [set_unfold; tauto|done]).
  rewrite (Update_move_key env1 m disk "]" dst task H3 Hs Hsrc Hd Hi Htask Hdst Hk1).
  destruct (save_noting_error_model env1 (moved m dst task) disk) as [e1 He1].
  destruct (save_noting_error env1 (moved m dst task) disk) as [m1 d1].
  cbn in He1. subst m1.
  destruct (moved_tasks m dst task H3 Hsrc Hdst Hne) as (Hdst1 & Hsrc1 & Hrest1).
  fold src ds ts in Hdst1, Hsrc1, Hrest1.
  set (m1 := set_err e1 (moved m dst task)).
  assert (board m1 = board (moved m dst task)) as Hb1 by done.
  assert (cursorColumn m1 = dst) as Hcc1 by done.
  assert (cursorTask m1 = len ds) as Hct1 by done.
  assert (three_columns (board m1)) as H31.
  { rewrite Hb1. by apply moved_cursor. }
  assert (sizes_ok (board m1)) as Hs1.
  { apply sizes_ok_of_count. by rewrite Hb1, moved_task_count. }
  pose proof (len_nonneg ds) as Hds.
  assert (index (tasks_of (board m1) (cursorColumn m1)) (cursorTask m1) = Some task)
    as Htask1.
  { rewrite Hcc1, Hct1, Hb1, Hdst1. apply index_Some. rewrite len_app.
    change (len [task]) with 1. split; [lia|].
    unfold len. rewrite Nat2Z.id. by rewrite lookup_app_r, Nat.sub_diag. }
  assert (0 ≤ cursorColumn m1 < 3) as Hc1 by (by rewrite Hcc1).
  assert ("[" ∈ ["["; "{"] ∧ src = cursorColumn m1 - 1
          ∨ "[" ∈ ["]"; "}"] ∧ src = cursorColumn m1 + 1) as Hk2
    by (left; split; [set_unfold; tauto|rewrite Hcc1; unfold dst; lia]).
  rewrite (Update_move_key env2 m1 d1 "[" src task H31 Hs1 Hc1 Hd Hi Htask1 Hsrc Hk2).
  destruct (save_noting_error_model env2 (moved m1 src task) d1) as [e2 He2].
  destruct (save_noting_error env2 (moved m1 src task) d1) as [m2 d2].
  cbn in He2. subst m2.
  destruct (moved_tasks m1 src task H31 Hc1 Hsrc) as (Hdst2 & Hsrc2 & Hrest2);
    [rewrite Hcc1; lia|].
  rewrite ?Hcc1, ?Hct1, ?Hb1 in Hdst2.
  rewrite ?Hcc1, ?Hct1, ?Hb1 in Hsrc2.
  rewrite Hsrc1 in Hdst2. rewrite Hdst1 in Hsrc2.
  exists (set_err e2 (moved m1 src task)), d2. split; [done|].
  change (board (set_err e2 (moved m1 src task))) with (board (moved m1 src task)).
  split; [by rewrite Hdst2, <- (assoc_L (++))|].
  split.
  - intros c Hcs. destruct (decide (c = dst)) as [->|Hcd].
    + rewrite Hsrc2. unfold len. rewrite Nat2Z.id.
      rewrite take_app_length, drop_ge by (rewrite length_app; cbn; lia).
      by rewrite app_nil_r.
    + rewrite Hrest2 by (by rewrite ?Hcc1). by apply Hrest1.
  - split; [done|].
    change (cursorTask (set_err e2 (moved m1 src task)))
      with (len (tasks_of (board m1) src)).
    rewrite Hb1, Hsrc1.
    rewrite len_take_drop by done. done.
Qed.

End ThereAndBack.

Lemma moved_back_task_is_last_witness :
  let m := set_cursorTask 0 sample_model in
  let ts := tasks_of (board m) (cursorColumn m) in
  ∃ m' disk',
    @run line_buffer decimal_time m None
      [(sample_env, KeyMsg "]"); (sample_env, KeyMsg "[")] = Some (m', disk')
    ∧ tasks_of (board m') (cursorColumn m)
      = take (Z.to_nat (cursorTask m)) ts ++ drop (S (Z.to_nat (cursorTask m))) ts
        ++ [Task.mk 1 "Write spec" "" 0]
    ∧ (∀ c, c ≠ cursorColumn m → tasks_of (board m') c = tasks_of (board m) c)
    ∧ cursorColumn m' = cursorColumn m
    ∧ cursorTask m' = len ts - 1.
Proof.
  apply (@moved_back_task_is_last line_buffer decimal_time sample_env sample_env
           (set_cursorTask 0 sample_model) None (Task.mk 1 "Write spec" "" 0)).
  - reflexivity.
  - by_computation.
  - by_computation.
  - discriminate.
  - reflexivity.
  - by vm_compute.
Defined.
